(** * XC finite element engine: constitutive / element / assembly pipeline

    Shallow embedding of the parts of the XC sources that the specification
    of the incremental constitutive integration and element-to-global
    assembly pipeline talks about, followed by the theorems relating the
    specification to the code.

    Conventions.
    - A C++ [double] is modelled by an exact rational ([Qc], canonical
      rationals with Leibniz equality).  Decimal literals of the sources are
      the rationals they denote; rounding is outside the model.
    - A C++ [int] status is a [Z]; loop counters are [nat].
    - [Vector] is a list of doubles, [Matrix] a list of rows, both indexed
      from 0 as in the sources; a [BJtensor] is its component function,
      indexed from 1 as in the sources.
    - [exit(-1)] is the outcome [Exits]; text sent to [std::cerr] is kept
      where a property depends on it. *)

From Stdlib Require Import QArith Qcanon ZArith List Lia Permutation.
From stdpp Require Import gmap list strings pretty.
From Stdlib Require Import Sorted.

Open Scope Qc_scope.

(** ** Numbers *)

Definition double := Qc.

(** The double denoted by a decimal literal. *)
Definition dbl (q : Q) : double := Q2Qc q.

#[global] Instance double_inhabited : Inhabited double := populate 0.

(** ** Vector and Matrix (utility/matrix), as far as the sources use them *)

Definition Vector := list double.
Definition Matrix := list (list double).

Definition Vector_zero (n : nat) : Vector := replicate n 0.
Definition Matrix_zero (r c : nat) : Matrix := replicate r (replicate c 0).

(** [v(i)] *)
Definition vget (v : Vector) (i : nat) : double := v !!! i.
(** [v(i) = x] *)
Definition vset (v : Vector) (i : nat) (x : double) : Vector := <[i := x]> v.
(** [m(i,j)] *)
Definition mget (m : Matrix) (i j : nat) : double := (m !!! i) !!! j.
(** [m(i,j) = x] *)
Definition mset (m : Matrix) (i j : nat) (x : double) : Matrix :=
  <[i := <[j := x]> (m !!! i)]> m.

(** [v *= f] and [m *= f] *)
Definition vscale (f : double) (v : Vector) : Vector := (fun x => x * f) <$> v.
Definition mscale (f : double) (m : Matrix) : Matrix := vscale f <$> m.

(** Sum of the entries of a vector, first to last. *)
Definition vsum (v : Vector) : double := foldl Qcplus 0 v.

(** Row [i] of [m] times [v]. *)
Definition row_dot (row v : Vector) : double :=
  vsum (zip_with Qcmult row v).

(** The product [m * v]. *)
Definition mat_vec (m : Matrix) (v : Vector) : Vector :=
  (fun row => row_dot row v) <$> m.

(** Modelled from the spec: [Vector::addVector] is not among the sources;
    [this = thisFact * this + otherFact * other], entry by entry. *)
Definition addVector (this : Vector) (thisFact : double) (other : Vector)
    (otherFact : double) : Vector :=
  zip_with (fun x y => thisFact * x + otherFact * y) this other.

(** Modelled from the spec: [Vector::addMatrixVector] is not among the
    sources; [this = thisFact * this + otherFact * (m * v)]. *)
Definition addMatrixVector (this : Vector) (thisFact : double) (m : Matrix)
    (v : Vector) (otherFact : double) : Vector :=
  addVector this thisFact (mat_vec m v) otherFact.

(** The difference of two vectors, entry by entry. *)
Definition vsub (a b : Vector) : Vector := zip_with Qcminus a b.

(** The sum of two vectors, entry by entry. *)
Definition vadd (a b : Vector) : Vector := zip_with Qcplus a b.

(** The matrix of [rows] rows and [cols] columns whose entry [(r,c)] is
    [f r c]. *)
Definition Matrix_of (rows cols : nat) (f : nat -> nat -> double) : Matrix :=
  (fun r => (fun c => f r c) <$> seq 0 cols) <$> seq 0 rows.

(** A matrix has [rows] rows of [cols] entries each. *)
Definition has_dims (rows cols : nat) (m : Matrix) : Prop :=
  length m = rows /\ Forall (fun row => length row = cols) m.

(** ** Outcome of a call that may terminate the program *)

Inductive outcome (A : Type) : Type :=
| Returns (a : A)
| Exits (code : Z) (cerr : string).
Arguments Returns {A} a.
Arguments Exits {A} code cerr.

#[global] Instance outcome_bind : MBind outcome := fun A B k o =>
  match o with
  | Returns a => k a
  | Exits c msg => Exits c msg
  end.

(** The call terminated the program. *)
Definition is_exit {A : Type} (o : outcome A) : bool :=
  match o with
  | Exits _ _ => true
  | Returns _ => false
  end.

(** ** RadauBeamIntegration *)

Module RadauBeamIntegration.

(** The array behind a [double *] argument: the cells that hold a value,
    by index.  A cell that was never assigned is absent. *)
Abbreviation array := (gmap Z double).

(** [for (int i = 0; i < numSections; i++) a[i] = f(a[i]);] *)
Definition for_each_section (numSections : Z) (f : double -> double)
    (a : array) : array :=
  foldl (fun w i => alter f i w) a (seqZ 0 numSections).

Definition getSectionLocations (numSections : Z) (L : double) (xi : array)
    : array :=
  let xi1 :=
    match numSections with
    | 1 => <[0 := dbl (-1.0)]> xi
    | 2 => <[1 := dbl 0.3333333333]> (<[0 := dbl (-1.0)]> xi)
    | 3 => <[2 := dbl 0.6898979485]> (<[1 := dbl (-0.2898979485)]>
           (<[0 := dbl (-1.0)]> xi))
    | 4 => <[3 := dbl 0.8228240809]> (<[2 := dbl 0.1810662711]>
           (<[1 := dbl (-0.5753189235)]> (<[0 := dbl (-1.0)]> xi)))
    | 5 => <[4 := dbl 0.8857916077]> (<[3 := dbl 0.4463139727]>
           (<[2 := dbl (-0.1671808647)]> (<[1 := dbl (-0.7204802713)]>
           (<[0 := dbl (-1.0)]> xi))))
    | 6 => <[5 := dbl 0.9203802858]> (<[4 := dbl 0.6039731642]>
           (<[3 := dbl 0.1240503795]> (<[2 := dbl (-0.3909285467)]>
           (<[1 := dbl (-0.8029298284)]> (<[0 := dbl (-1.0)]> xi)))))
    | 7 => <[6 := dbl 0.9413671456]> (<[5 := dbl 0.7038428006]>
           (<[4 := dbl 0.3260306194]> (<[3 := dbl (-0.1173430375)]>
           (<[2 := dbl (-0.5384677240)]> (<[1 := dbl (-0.8538913426)]>
           (<[0 := dbl (-1.0)]> xi))))))
    | 8 => <[7 := dbl 0.9550412271]> (<[6 := dbl 0.7706418936]>
           (<[5 := dbl 0.4684203544]> (<[4 := dbl 0.09430725266]>
           (<[3 := dbl (-0.2947505657)]> (<[2 := dbl (-0.6395186165)]>
           (<[1 := dbl (-0.8874748789)]> (<[0 := dbl (-1.0)]> xi)))))))
    | 9 => <[8 := dbl 0.9644401697]> (<[7 := dbl 0.8173527842]>
           (<[6 := dbl 0.5713830412]> (<[5 := dbl 0.2561356708]>
           (<[4 := dbl (-0.09037336960)]> (<[3 := dbl (-0.4263504857)]>
           (<[2 := dbl (-0.7112674859)]> (<[1 := dbl (-0.9107320894)]>
           (<[0 := dbl (-1.0)]> xi))))))))
    | 10 => <[9 := dbl 0.9711751807]> (<[8 := dbl 0.8512252205]>
           (<[7 := dbl 0.6477666876]> (<[6 := dbl 0.3806648401]>
           (<[5 := dbl 0.07605919783]> (<[4 := dbl (-0.2362344693)]>
           (<[3 := dbl (-0.5256460303)]> (<[2 := dbl (-0.7638420424)]>
           (<[1 := dbl (-0.9274843742)]> (<[0 := dbl (-1.0)]> xi)))))))))
    | _ => xi
    end%Z in
  for_each_section numSections (fun x => dbl 0.5 * (x + dbl 1.0)) xi1.

Definition getSectionWeights (numSections : Z) (L : double) (wt : array)
    : array :=
  let wt1 :=
    match numSections with
    | 1 => <[0 := dbl 2.0]> wt
    | 2 => <[1 := dbl 1.5]> (<[0 := dbl 0.5]> wt)
    | 3 => <[3 := dbl 0.7528061254]> (<[2 := dbl 1.024971652]>
           (<[1 := dbl 0.2222222222]> wt))
    | 4 => <[4 := dbl 0.4409244223]> (<[3 := dbl 0.7763869376]>
           (<[2 := dbl 0.6576886399]> (<[1 := dbl 0.125]> wt)))
    | 5 => <[5 := dbl 0.2874271215]> (<[4 := dbl 0.5627120302]>
           (<[3 := dbl 0.6236530459]> (<[2 := dbl 0.4462078021]>
           (<[1 := dbl 0.08]> wt))))
    | 6 => <[6 := dbl 0.2015883852]> (<[5 := dbl 0.4169013343]>
           (<[4 := dbl 0.5209267831]> (<[3 := dbl 0.4853871884]>
           (<[2 := dbl 0.3196407532]> (<[1 := dbl 0.05555555555]> wt)))))
    | 7 => <[7 := dbl 0.1489884711]> (<[6 := dbl 0.3182042314]>
           (<[5 := dbl 0.4247037790]> (<[4 := dbl 0.4471098290]>
           (<[3 := dbl 0.3809498736]> (<[2 := dbl 0.2392274892]>
           (<[1 := dbl 0.04081632653]> wt))))))
    | 8 => <[8 := dbl 0.1145088147]> (<[7 := dbl 0.2496479013]>
           (<[6 := dbl 0.3470147956]> (<[5 := dbl 0.3915721674]>
           (<[4 := dbl 0.3765175453]> (<[3 := dbl 0.3041306206]>
           (<[2 := dbl 0.1853581548]> (<[1 := dbl 0.03125]> wt)))))))
    | 9 => <[9 := dbl 0.09071450492]> (<[8 := dbl 0.2005532980]>
           (<[7 := dbl 0.2863866963]> (<[6 := dbl 0.3376939669]>
           (<[5 := dbl 0.3482730027]> (<[4 := dbl 0.3168437756]>
           (<[3 := dbl 0.2471893782]> (<[2 := dbl 0.1476540190]>
           (<[1 := dbl 0.02469135802]> wt))))))))
    | 10 => <[10 := dbl 0.07361700548]> (<[9 := dbl 0.1643760127]>
           (<[8 := dbl 0.2391934317]> (<[7 := dbl 0.2906101648]>
           (<[6 := dbl 0.3135824572]> (<[5 := dbl 0.3058592877]>
           (<[4 := dbl 0.2681948378]> (<[3 := dbl 0.2042701318]>
           (<[2 := dbl 0.1202966705]> (<[1 := dbl 0.02]> wt)))))))))
    | _ => wt
    end%Z in
  for_each_section numSections (fun x => x * dbl 0.5) wt1.

(** The indices of an output array of [numSections] cells. *)
Definition in_bounds (numSections i : Z) : bool :=
  bool_decide (0 <= i < numSections)%Z.

(** Sum of the cells [0 .. numSections-1], when all of them hold a value. *)
Definition sum_sections (numSections : Z) (a : array) : option double :=
  foldl (fun acc i => s ← acc; x ← a !! i; Some (s + x)) (Some 0)
        (seqZ 0 numSections).

End RadauBeamIntegration.

(** ** CrossSectionKR *)

Module CrossSectionKR.

(** Modelled from the spec: [CommParameters], [DbTagData] and
    [CommMetaData] are not among the sources.  The communicator keeps the
    doubles it was sent in slots keyed by the small integer of
    [CommMetaData(i)]; receiving from a slot that holds four doubles gives
    them back, receiving from any other slot fails with a negative
    status and assigns nothing. *)
Abbreviation CommParameters := (gmap nat (list double)).

Definition sendDoubles (a b c d : double) (meta : nat) (cp : CommParameters)
    : Z * CommParameters :=
  (0%Z, <[meta := [a; b; c; d]]> cp).

Definition receiveDoubles (meta : nat) (cp : CommParameters)
    : Z * option (double * double * double * double) :=
  match cp !! meta with
  | Some [a; b; c; d] => (0%Z, Some (a, b, c, d))
  | _ => ((-1)%Z, None)
  end.

(** Modelled from the spec: [sendIdData] / [receiveIdData] move the table
    of database tags, not numeric state; they succeed. *)
Definition sendIdData (dataTag : Z) (cp : CommParameters) : Z := 0%Z.
Definition receiveIdData (dataTag : Z) (cp : CommParameters) : Z := 0%Z.

(** [double rData[4]; double kData[16];] *)
Record t := mk {
  rData : list double;
  kData : list double;
}.

(** The sizes the arrays are declared with. *)
Definition well_sized (s : t) : Prop :=
  length (rData s) = 4%nat /\ length (kData s) = 16%nat.

Definition zero (s : t) : t :=
  {| rData := <[3%nat := 0]> (<[2%nat := 0]> (<[1%nat := 0]>
              (<[0%nat := 0]> (rData s))));
     kData := foldl (fun k i => <[i := 0]> k) (kData s) (seq 0 16) |}.

Definition copy (this otra : t) : t :=
  {| rData := foldl (fun r i => <[i := rData otra !!! i]> r) (rData this)
                    (seq 0 4);
     kData := foldl (fun k i => <[i := kData otra !!! i]> k) (kData this)
                    (seq 0 16) |}.

Definition sendData (this : t) (cp : CommParameters) : Z * CommParameters :=
  let r := rData this in
  let k := kData this in
  let '(res, cp) :=
    sendDoubles (r !!! 0%nat) (r !!! 1%nat) (r !!! 2%nat) (r !!! 3%nat) 0 cp in
  let '(res1, cp) :=
    sendDoubles (k !!! 0%nat) (k !!! 1%nat) (k !!! 2%nat) (k !!! 3%nat) 1 cp in
  let res := (res + res1)%Z in
  let '(res2, cp) :=
    sendDoubles (k !!! 4%nat) (k !!! 5%nat) (k !!! 6%nat) (k !!! 7%nat) 2 cp in
  let res := (res + res2)%Z in
  let '(res3, cp) :=
    sendDoubles (k !!! 8%nat) (k !!! 9%nat) (k !!! 10%nat) (k !!! 11%nat) 3 cp in
  let res := (res + res3)%Z in
  let '(res4, cp) :=
    sendDoubles (k !!! 12%nat) (k !!! 13%nat) (k !!! 14%nat) (k !!! 15%nat) 4 cp in
  let res := (res + res4)%Z in
  (res, cp).

(** One [receiveDoubles(a[i0], a[i1], a[i2], a[i3], ...)] into array [a]. *)
Definition receive_into (a : list double) (i0 i1 i2 i3 : nat) (meta : nat)
    (cp : CommParameters) : Z * list double :=
  match receiveDoubles meta cp with
  | (res, Some (x0, x1, x2, x3)) =>
      (res, <[i3 := x3]> (<[i2 := x2]> (<[i1 := x1]> (<[i0 := x0]> a))))
  | (res, None) => (res, a)
  end.

Definition recvData (this : t) (cp : CommParameters) : Z * t :=
  let '(res, r) := receive_into (rData this) 0 1 2 3 0 cp in
  let '(res1, k) := receive_into (kData this) 0 1 2 3 1 cp in
  let res := (res + res1)%Z in
  let '(res2, k) := receive_into k 4 5 6 7 2 cp in
  let res := (res + res2)%Z in
  let '(res3, k) := receive_into k 8 9 10 11 3 cp in
  let res := (res + res3)%Z in
  let '(res4, k) := receive_into k 12 13 14 15 4 cp in
  let res := (res + res4)%Z in
  (res, {| rData := r; kData := k |}).

Definition sendSelf (this : t) (dataTag : Z) (cp : CommParameters)
    : Z * CommParameters :=
  let '(res, cp) := sendData this cp in
  let res := (res + sendIdData dataTag cp)%Z in
  (res, cp).

Definition recvSelf (this : t) (dataTag : Z) (cp : CommParameters) : Z * t :=
  let res := receiveIdData dataTag cp in
  if bool_decide (res < 0)%Z then (res, this)
  else
    let '(res1, this) := recvData this cp in
    ((res + res1)%Z, this).

End CrossSectionKR.

(** ** BJtensor (utility/matrix/nDarray), by components *)

Module BJtensor.

Definition rank1 := nat -> double.
Definition rank2 := nat -> nat -> double.
Definition rank3 := nat -> nat -> nat -> double.
Definition rank4 := nat -> nat -> nat -> nat -> double.

(** The sum of [f 1 .. f n]: a contraction over an index of range [n]. *)
Fixpoint sum_to (n : nat) (f : nat -> double) : double :=
  match n with
  | O => 0
  | S k => sum_to k f + f (S k)
  end.

(** [1 <= i <= n] *)
Definition in_range (n i : nat) : bool :=
  bool_decide (1 <= i)%nat && bool_decide (i <= n)%nat.

Definition zero1 : rank1 := fun _ => 0.
Definition zero2 : rank2 := fun _ _ => 0.
Definition zero3 : rank3 := fun _ _ _ => 0.
Definition zero4 : rank4 := fun _ _ _ _ => 0.

Definition add1 (a b : rank1) : rank1 := fun i => a i + b i.
Definition add2 (a b : rank2) : rank2 := fun i j => a i j + b i j.
Definition add3 (a b : rank3) : rank3 := fun i j k => a i j k + b i j k.
Definition add4 (a b : rank4) : rank4 :=
  fun i j k l => a i j k l + b i j k l.

Definition scale1 (a : rank1) (x : double) : rank1 := fun i => a i * x.
Definition scale2 (a : rank2) (x : double) : rank2 := fun i j => a i j * x.
Definition scale3 (a : rank3) (x : double) : rank3 :=
  fun i j k => a i j k * x.
Definition scale4 (a : rank4) (x : double) : rank4 :=
  fun i j k l => a i j k l * x.

(** Modelled from the spec: [BJtensor::symmetrize11] is not among the
    sources; the symmetric part of a second-order tensor. *)
Definition symmetrize11 (a : rank2) : rank2 :=
  fun i j => dbl 0.5 * (a i j + a j i).

(** [BJtensor::determinant] and [BJtensor::inverse] are not among the
    sources: the element code is parametrised by them. *)
Class Ops := {
  determinant : rank2 -> double;
  inverse : rank2 -> rank2;
}.

(** The determinant and the inverse of a 3x3 tensor, by cofactors: the
    instance used to evaluate the element on concrete geometry. *)
Definition det3 (a : rank2) : double :=
  a 1%nat 1%nat * (a 2%nat 2%nat * a 3%nat 3%nat - a 2%nat 3%nat * a 3%nat 2%nat)
  - a 1%nat 2%nat * (a 2%nat 1%nat * a 3%nat 3%nat - a 2%nat 3%nat * a 3%nat 1%nat)
  + a 1%nat 3%nat * (a 2%nat 1%nat * a 3%nat 2%nat - a 2%nat 2%nat * a 3%nat 1%nat).

(** Entry [(i,j)] of the matrix of cofactors of a 3x3 tensor, with the
    indices taken cyclically in 1..3. *)
Definition next3 (i : nat) : nat :=
  match i with 1 => 2 | 2 => 3 | _ => 1 end%nat.

Definition cofactor3 (a : rank2) (i j : nat) : double :=
  a (next3 i) (next3 j) * a (next3 (next3 i)) (next3 (next3 j))
  - a (next3 i) (next3 (next3 j)) * a (next3 (next3 i)) (next3 j).

Definition inv3 (a : rank2) : rank2 :=
  fun i j => if in_range 3 i && in_range 3 j
             then cofactor3 a j i / det3 a else 0.

Definition cofactor_ops : Ops :=
  {| determinant := det3; inverse := inv3 |}.

End BJtensor.

(** ** The nD material interface, as the element uses it *)

Definition straintensor := BJtensor.rank2.
Definition stresstensor := BJtensor.rank2.

(** [NDMaterial] is polymorphic; the element calls these three members. *)
Class NDMaterial (Mat : Type) := {
  setTrialStrain : Mat -> straintensor -> Z * Mat;
  getStressTensor : Mat -> stresstensor;
  getTangentTensor : Mat -> BJtensor.rank4;
}.

(** ** Node, as far as the element reads it *)

Record Node := mkNode {
  getCrds : Vector;
  getTrialDisp : Vector;
}.

#[global] Instance Node_inhabited : Inhabited Node := populate (mkNode [] []).

(** [for (i = 0; i < n; i++) body] on a state [S]. *)
Definition for_ {S : Type} (n : nat) (body : nat -> S -> S) (s : S) : S :=
  foldl (fun s i => body i s) s (seq 0 n).

(** ** EightNodeBrick_u_p_U *)

Module EightNodeBrick_u_p_U.
Import BJtensor.

Definition Num_IntegrationPts : nat := 2.
Definition Num_TotalGaussPts : nat := 8.
Definition Num_Nodes : nat := 8.
Definition Num_Dim : nat := 3.
Definition Num_Dof : nat := 7.
Definition Num_ElemDof : nat := 56.
Definition pts : list double :=
  [dbl (-0.577350269189626); dbl 0.577350269189626].
Definition wts : list double := [dbl 1.0; dbl 1.0].

(** The Rayleigh damping factors of the [Element] base class. *)
Record RayleighDampingFactors := mkRay {
  getAlphaM : double;
  getBetaK : double;
  getBetaK0 : double;
  getBetaKc : double;
}.

(** The members of the element and of its bases that the methods read or
    write.  [load] and [isDead] come from the [Element] base class. *)
Record t (Mat : Type) := mk {
  getTag : Z;
  theNodes : list Node;
  physicalProperties : list Mat;
  bf : Vector;
  poro : double;
  alpha : double;
  rho_s : double;
  rho_f : double;
  ks : double;
  kf : double;
  pressure : double;
  eleQ : option Vector;
  Ki : option Matrix;
  load : Vector;
  rayFactors : RayleighDampingFactors;
  isDead : bool;
}.
Arguments mk {Mat}.
Arguments getTag {Mat}.
Arguments theNodes {Mat}.
Arguments physicalProperties {Mat}.
Arguments bf {Mat}.
Arguments poro {Mat}.
Arguments alpha {Mat}.
Arguments rho_s {Mat}.
Arguments rho_f {Mat}.
Arguments ks {Mat}.
Arguments kf {Mat}.
Arguments pressure {Mat}.
Arguments eleQ {Mat}.
Arguments Ki {Mat}.
Arguments load {Mat}.
Arguments rayFactors {Mat}.
Arguments isDead {Mat}.

(** The static members shared by all elements of the class, and the
    static [dead_srf] of [Element]. *)
Record statics := mkStatics {
  K : Matrix;
  C : Matrix;
  M : Matrix;
  P : Vector;
  perm : rank2;
  dead_srf : double;
}.

(** The statics as their definitions initialise them. *)
Definition statics_init (srf : double) : statics :=
  {| K := Matrix_zero Num_ElemDof Num_ElemDof;
     C := Matrix_zero Num_ElemDof Num_ElemDof;
     M := Matrix_zero Num_ElemDof Num_ElemDof;
     P := Vector_zero Num_ElemDof;
     perm := zero2;
     dead_srf := srf |}.

Definition set_K (st : statics) (k : Matrix) : statics :=
  {| K := k; C := C st; M := M st; P := P st; perm := perm st;
     dead_srf := dead_srf st |}.
Definition set_C (st : statics) (c : Matrix) : statics :=
  {| K := K st; C := c; M := M st; P := P st; perm := perm st;
     dead_srf := dead_srf st |}.
Definition set_M (st : statics) (m : Matrix) : statics :=
  {| K := K st; C := C st; M := m; P := P st; perm := perm st;
     dead_srf := dead_srf st |}.
Definition set_P (st : statics) (p : Vector) : statics :=
  {| K := K st; C := C st; M := M st; P := p; perm := perm st;
     dead_srf := dead_srf st |}.

Section Element.
Context {Mat : Type} `{NDMaterial Mat} `{Inhabited Mat} `{Ops}.

Definition set_physicalProperties (el : t Mat) (pp : list Mat) : t Mat :=
  mk (getTag el) (theNodes el) pp (bf el) (poro el) (alpha el) (rho_s el)
     (rho_f el) (ks el) (kf el) (pressure el) (eleQ el) (Ki el) (load el)
     (rayFactors el) (isDead el).
Definition set_eleQ (el : t Mat) (q : option Vector) : t Mat :=
  mk (getTag el) (theNodes el) (physicalProperties el) (bf el) (poro el)
     (alpha el) (rho_s el) (rho_f el) (ks el) (kf el) (pressure el) q
     (Ki el) (load el) (rayFactors el) (isDead el).
Definition set_Ki (el : t Mat) (k : option Matrix) : t Mat :=
  mk (getTag el) (theNodes el) (physicalProperties el) (bf el) (poro el)
     (alpha el) (rho_s el) (rho_f el) (ks el) (kf el) (pressure el)
     (eleQ el) k (load el) (rayFactors el) (isDead el).
Definition set_load (el : t Mat) (l : Vector) : t Mat :=
  mk (getTag el) (theNodes el) (physicalProperties el) (bf el) (poro el)
     (alpha el) (rho_s el) (rho_f el) (ks el) (kf el) (pressure el)
     (eleQ el) (Ki el) l (rayFactors el) (isDead el).

Definition getNumDOF (el : t Mat) : nat := Num_ElemDof.

(** The three nested loops over the Gauss points, [GP_c_r] outermost. *)
Definition gauss_loop {S : Type} (body : nat -> nat -> nat -> S -> S)
    (s : S) : S :=
  for_ Num_IntegrationPts (fun GP_c_r =>
    for_ Num_IntegrationPts (fun GP_c_s =>
      for_ Num_IntegrationPts (fun GP_c_t => body GP_c_r GP_c_s GP_c_t)))
    s.

Definition where_ (GP_c_r GP_c_s GP_c_t : nat) : nat :=
  (GP_c_r * Num_IntegrationPts + GP_c_s) * Num_IntegrationPts + GP_c_t.

Definition shapeFunction (r1 r2 r3 : double) : rank1 :=
  fun i =>
    match i with
    | 8%nat => (dbl 1.0 + r1) * (dbl 1.0 - r2) * (dbl 1.0 - r3) * dbl 0.125
    | 7%nat => (dbl 1.0 - r1) * (dbl 1.0 - r2) * (dbl 1.0 - r3) * dbl 0.125
    | 6%nat => (dbl 1.0 - r1) * (dbl 1.0 + r2) * (dbl 1.0 - r3) * dbl 0.125
    | 5%nat => (dbl 1.0 + r1) * (dbl 1.0 + r2) * (dbl 1.0 - r3) * dbl 0.125
    | 4%nat => (dbl 1.0 + r1) * (dbl 1.0 - r2) * (dbl 1.0 + r3) * dbl 0.125
    | 3%nat => (dbl 1.0 - r1) * (dbl 1.0 - r2) * (dbl 1.0 + r3) * dbl 0.125
    | 2%nat => (dbl 1.0 - r1) * (dbl 1.0 + r2) * (dbl 1.0 + r3) * dbl 0.125
    | 1%nat => (dbl 1.0 + r1) * (dbl 1.0 + r2) * (dbl 1.0 + r3) * dbl 0.125
    | _ => 0
    end.

Definition shapeFunctionDerivative (r1 r2 r3 : double) : rank2 :=
  fun i j =>
    match i, j with
    | 8%nat, 1%nat => (dbl 1.0 - r2) * (dbl 1.0 - r3) * dbl 0.125
    | 8%nat, 2%nat => - (dbl 1.0 + r1) * (dbl 1.0 - r3) * dbl 0.125
    | 8%nat, 3%nat => - (dbl 1.0 + r1) * (dbl 1.0 - r2) * dbl 0.125
    | 7%nat, 1%nat => - (dbl 1.0 - r2) * (dbl 1.0 - r3) * dbl 0.125
    | 7%nat, 2%nat => - (dbl 1.0 - r1) * (dbl 1.0 - r3) * dbl 0.125
    | 7%nat, 3%nat => - (dbl 1.0 - r1) * (dbl 1.0 - r2) * dbl 0.125
    | 6%nat, 1%nat => - (dbl 1.0 + r2) * (dbl 1.0 - r3) * dbl 0.125
    | 6%nat, 2%nat => (dbl 1.0 - r1) * (dbl 1.0 - r3) * dbl 0.125
    | 6%nat, 3%nat => - (dbl 1.0 - r1) * (dbl 1.0 + r2) * dbl 0.125
    | 5%nat, 1%nat => (dbl 1.0 + r2) * (dbl 1.0 - r3) * dbl 0.125
    | 5%nat, 2%nat => (dbl 1.0 + r1) * (dbl 1.0 - r3) * dbl 0.125
    | 5%nat, 3%nat => - (dbl 1.0 + r1) * (dbl 1.0 + r2) * dbl 0.125
    | 4%nat, 1%nat => (dbl 1.0 - r2) * (dbl 1.0 + r3) * dbl 0.125
    | 4%nat, 2%nat => - (dbl 1.0 + r1) * (dbl 1.0 + r3) * dbl 0.125
    | 4%nat, 3%nat => (dbl 1.0 + r1) * (dbl 1.0 - r2) * dbl 0.125
    | 3%nat, 1%nat => - (dbl 1.0 - r2) * (dbl 1.0 + r3) * dbl 0.125
    | 3%nat, 2%nat => - (dbl 1.0 - r1) * (dbl 1.0 + r3) * dbl 0.125
    | 3%nat, 3%nat => (dbl 1.0 - r1) * (dbl 1.0 - r2) * dbl 0.125
    | 2%nat, 1%nat => - (dbl 1.0 + r2) * (dbl 1.0 + r3) * dbl 0.125
    | 2%nat, 2%nat => (dbl 1.0 - r1) * (dbl 1.0 + r3) * dbl 0.125
    | 2%nat, 3%nat => (dbl 1.0 - r1) * (dbl 1.0 + r2) * dbl 0.125
    | 1%nat, 1%nat => (dbl 1.0 + r2) * (dbl 1.0 + r3) * dbl 0.125
    | 1%nat, 2%nat => (dbl 1.0 + r1) * (dbl 1.0 + r3) * dbl 0.125
    | 1%nat, 3%nat => (dbl 1.0 + r1) * (dbl 1.0 + r2) * dbl 0.125
    | _, _ => 0
    end.

Definition getNodesCrds (el : t Mat) : rank2 :=
  fun i j =>
    if in_range Num_Nodes i && in_range Num_Dim j
    then vget (getCrds (theNodes el !!! (i - 1)%nat)) (j - 1)
    else 0.

Definition getNodesDisp (el : t Mat) : rank2 :=
  fun i j =>
    if in_range Num_Nodes i && in_range Num_Dof j
    then vget (getTrialDisp (theNodes el !!! (i - 1)%nat)) (j - 1)
    else 0.

Definition Jacobian_3D (el : t Mat) (dh : rank2) : rank2 :=
  let N_C := getNodesCrds el in
  fun i j => sum_to Num_Nodes (fun k => N_C k i * dh k j).

Definition Jacobian_3Dinv (el : t Mat) (dh : rank2) : rank2 :=
  inverse (Jacobian_3D el dh).

Definition dh_Global (el : t Mat) (dh : rank2) : rank2 :=
  let JacobianINV0 := Jacobian_3Dinv el dh in
  fun i j => sum_to Num_Dim (fun k => dh i k * JacobianINV0 k j).

(** The Gauss point coordinate and weight selected by a loop counter. *)
Definition pt (c : nat) : double := pts !!! c.
Definition wt (c : nat) : double := wts !!! c.

(** [Jacobian_3D(dh).determinant()] at the Gauss point of the three loop
    counters. *)
Definition det_of_Jacobian (el : t Mat) (GP_c_r GP_c_s GP_c_t : nat)
    : double :=
  let dh :=
    shapeFunctionDerivative (pt GP_c_r) (pt GP_c_s) (pt GP_c_t) in
  determinant (Jacobian_3D el dh).

(** [weight = rw * sw * tw * det_of_Jacobian] *)
Definition weight (el : t Mat) (GP_c_r GP_c_s GP_c_t : nat) : double :=
  wt GP_c_r * wt GP_c_s * wt GP_c_t
  * det_of_Jacobian el GP_c_r GP_c_s GP_c_t.

Definition not_converged (tag : Z) : string :=
  "XC::TwentyNodeBrick_u_p_U::update(tag: " +:+ pretty tag
  +:+ "), not converged".

(** [update]: the return value, the element with its materials
    updated, and the lines written to [std::cerr]. *)
Definition update (el : t Mat) : Z * t Mat * list string :=
  let ret := 0%Z in
  let total_displacements := getNodesDisp el in
  let total_disp : rank2 :=
    fun i j => if in_range Num_Nodes i && in_range Num_Dim j
               then total_displacements i j else 0 in
  let '(el, cerr) :=
    gauss_loop (fun GP_c_r GP_c_s GP_c_t '(el, cerr) =>
      let r := pt GP_c_r in
      let s := pt GP_c_s in
      let t := pt GP_c_t in
      let where_ := where_ GP_c_r GP_c_s GP_c_t in
      let dh := shapeFunctionDerivative r s t in
      let dhGlobal := dh_Global el dh in
      let eps : straintensor :=
        fun a b => sum_to Num_Nodes
                     (fun i => total_disp i a * dhGlobal i b) in
      let eps := symmetrize11 eps in
      let '(status, m) :=
        setTrialStrain (physicalProperties el !!! where_) eps in
      let el :=
        set_physicalProperties el
          (<[where_ := m]> (physicalProperties el)) in
      if bool_decide (status <> 0%Z)
      then (el, cerr ++ [not_converged (getTag el)])
      else (el, cerr))
      (el, []) in
  (ret, el, cerr).

(** [Pexs += hp * weight] over the Gauss points: the integral of the
    shape functions, used by [getExForceS] and [getExForceF]. *)
Definition shape_integral (el : t Mat) : rank1 :=
  gauss_loop (fun GP_c_r GP_c_s GP_c_t Pex =>
    let hp := shapeFunction (pt GP_c_r) (pt GP_c_s) (pt GP_c_t) in
    add1 Pex (scale1 hp (weight el GP_c_r GP_c_s GP_c_t)))
    zero1.

Definition getExForceS (el : t Mat) : Vector :=
  let Pexs := shape_integral el in
  for_ Num_Nodes (fun i =>
    for_ Num_Dim (fun j PExS =>
      vset PExS (i * Num_Dof + j)
        (vget PExS (i * Num_Dof + j)
         + Pexs (i + 1)%nat * vget (bf el) j
           * ((dbl 1.0 - poro el) * rho_s el))))
    (Vector_zero (Num_Nodes * Num_Dof)).

Definition getExForceF (el : t Mat) : Vector :=
  let Pexf := shape_integral el in
  for_ Num_Nodes (fun i =>
    for_ Num_Dim (fun j PExF =>
      vset PExF (i * Num_Dof + j + 4)
        (vget PExF (i * Num_Dof + j + 4)
         + Pexf (i + 1)%nat * vget (bf el) j * (poro el * rho_f el))))
    (Vector_zero (Num_Nodes * Num_Dof)).

Definition getStiffnessTensorKep (el : t Mat) : rank4 :=
  gauss_loop (fun GP_c_r GP_c_s GP_c_t Kep =>
    let where_ := where_ GP_c_r GP_c_s GP_c_t in
    let dh :=
      shapeFunctionDerivative (pt GP_c_r) (pt GP_c_s) (pt GP_c_t) in
    let dhGlobal := dh_Global el dh in
    let weight := weight el GP_c_r GP_c_s GP_c_t in
    let Constitutive :=
      getTangentTensor (physicalProperties el !!! where_) in
    let Kkt : rank4 :=
      fun k i m l =>
        sum_to Num_Dim (fun j => dhGlobal k j * Constitutive i j m l) in
    let Kkt : rank4 :=
      fun k i m p =>
        sum_to Num_Dim (fun l => Kkt k i m l * dhGlobal p l) * weight in
    add4 Kep Kkt)
    zero4.

Definition getStiffnessTensorG12 (el : t Mat) : rank3 :=
  gauss_loop (fun GP_c_r GP_c_s GP_c_t G =>
    let dh :=
      shapeFunctionDerivative (pt GP_c_r) (pt GP_c_s) (pt GP_c_t) in
    let hp := shapeFunction (pt GP_c_r) (pt GP_c_s) (pt GP_c_t) in
    let dhGlobal := dh_Global el dh in
    let weight := weight el GP_c_r GP_c_s GP_c_t in
    add3 G (fun k i m => dhGlobal k i * hp m * weight))
    zero3.

(** [Msf += hp("m") * hp("n") * weight] over the Gauss points. *)
Definition getMassTensorMsf (el : t Mat) : rank2 :=
  gauss_loop (fun GP_c_r GP_c_s GP_c_t Msf =>
    let hp := shapeFunction (pt GP_c_r) (pt GP_c_s) (pt GP_c_t) in
    let weight := weight el GP_c_r GP_c_s GP_c_t in
    add2 Msf (fun m n => hp m * hp n * weight))
    zero2.

Definition getDampTensorC123 (el : t Mat) (st : statics) : outcome rank4 :=
  if bool_decide (perm st 1%nat 1%nat = 0)
     || bool_decide (perm st 2%nat 2%nat = 0)
     || bool_decide (perm st 3%nat 3%nat = 0)
  then Exits (-1) " Error, XC::EightNodeBrick_u_p_U::getDampTensorC123 -- permeability (x/y/z) is zero"
  else
    let perm_inv := inverse (perm st) in
    Returns
      (gauss_loop (fun GP_c_r GP_c_s GP_c_t C123 =>
         let hp := shapeFunction (pt GP_c_r) (pt GP_c_s) (pt GP_c_t) in
         let weight := weight el GP_c_r GP_c_s GP_c_t in
         let c123 : rank3 := fun k i j => hp k * perm_inv i j in
         add4 C123 (fun k i j m => c123 k i j * hp m * weight))
         zero4).

Definition getStiffnessTensorP (el : t Mat) : outcome rank2 :=
  if bool_decide (ks el = 0) || bool_decide (kf el = 0)
  then Exits (-1) " Error, XC::EightNodeBrick_u_p_U::getStiffnessTensorP -- solid and/or fluid bulk modulus is zero"
  else
    let oneOverQ := poro el / kf el + (alpha el - poro el) / ks el in
    let Pp :=
      gauss_loop (fun GP_c_r GP_c_s GP_c_t Pp =>
        let hp := shapeFunction (pt GP_c_r) (pt GP_c_s) (pt GP_c_t) in
        let weight := weight el GP_c_r GP_c_s GP_c_t in
        add2 Pp (fun m n => hp m * hp n * weight))
        zero2 in
    Returns (scale2 Pp oneOverQ).

(** [getStiff]: the matrix returned, the element (its cache [Ki] may
    have been filled) and the statics ([K] is overwritten). *)
Definition getStiff (Ki_flag : Z) (el : t Mat) (st : statics)
    : outcome (Matrix * t Mat * statics) :=
  if bool_decide (Ki_flag <> 0%Z) && bool_decide (Ki_flag <> 1%Z)
  then Exits (-1) "Error XC::EightNodeBrick_u_p_U::getStiff() - illegal use"
  else
    match bool_decide (Ki_flag = 0%Z), Ki el with
    | true, Some ki => Returns (ki, el, st)
    | _, _ =>
      let tKep := getStiffnessTensorKep el in
      let tG := getStiffnessTensorG12 el in
      tP ← getStiffnessTensorP el;
      let K := K st in
      (* Kep *)
      let K :=
        for_ Num_Nodes (fun i => for_ Num_Nodes (fun j =>
          for_ Num_Dim (fun m => for_ Num_Dim (fun n K =>
            mset K (i * Num_Dof + m) (j * Num_Dof + n)
                 (tKep (i + 1)%nat (m + 1)%nat (n + 1)%nat (j + 1)%nat))))) K in
      (* G1 and G1^T *)
      let K :=
        for_ Num_Nodes (fun i => for_ Num_Nodes (fun j =>
          for_ Num_Dim (fun m K =>
            let K := mset K (i * Num_Dof + m) (j * Num_Dof + 3)
                       (- tG (i + 1)%nat (m + 1)%nat (j + 1)%nat
                        * (alpha el - poro el)) in
            mset K (j * Num_Dof + 3) (i * Num_Dof + m)
                 (- tG (i + 1)%nat (m + 1)%nat (j + 1)%nat
                  * (alpha el - poro el))))) K in
      (* P *)
      let K :=
        for_ Num_Nodes (fun i => for_ Num_Nodes (fun j K =>
          mset K (i * Num_Dof + 3) (j * Num_Dof + 3)
               (- tP (i + 1)%nat (j + 1)%nat))) K in
      (* G2 and G2^T *)
      let K :=
        for_ Num_Nodes (fun i => for_ Num_Nodes (fun j =>
          for_ Num_Dim (fun m K =>
            let K := mset K (i * Num_Dof + m + 4) (j * Num_Dof + 3)
                       (- tG (i + 1)%nat (m + 1)%nat (j + 1)%nat * poro el) in
            mset K (j * Num_Dof + 3) (i * Num_Dof + m + 4)
                 (- tG (i + 1)%nat (m + 1)%nat (j + 1)%nat * poro el)))) K in
      let st := set_K st K in
      if bool_decide (Ki_flag = 1%Z)
      then Returns (K, el, st)
      else Returns (K, set_Ki el (Some K), st)
    end.

Definition getTangentStiff (el : t Mat) (st : statics)
    : outcome (Matrix * t Mat * statics) :=
  '(retval, el, st) ← getStiff 1 el st;
  let retval := if isDead el then mscale (dead_srf st) retval
                else retval in
  Returns (retval, el, st).

Definition getInitialStiff (el : t Mat) (st : statics)
    : outcome (Matrix * t Mat * statics) :=
  '(retval, el, st) ← getStiff 0 el st;
  let retval := if isDead el then mscale (dead_srf st) retval
                else retval in
  Returns (retval, el, st).

(** [getDamp]: the matrix returned, the statics ([C] is overwritten)
    and the lines written to [std::cerr]. *)
Definition getDamp (el : t Mat) (st : statics)
    : outcome (Matrix * statics * list string) :=
  tC ← getDampTensorC123 el st;
  let ray := rayFactors el in
  let CRm : rank2 :=
    if bool_decide (getAlphaM ray <> 0)
    then scale2 (getMassTensorMsf el) ((dbl 1.0 - poro el) * rho_s el)
    else zero2 in
  let CRk : rank4 :=
    if bool_decide (getBetaK ray <> 0)
    then getStiffnessTensorKep el else zero4 in
  let cerr :=
    if bool_decide (getBetaK0 ray <> 0) || bool_decide (getBetaKc ray <> 0)
    then ["Warning: EightNodeBrick-XC::u_p_U:: betaK0 or rayFactors.getBetaKc() are not used"]
    else [] in
  let C :=
    for_ Num_Nodes (fun i => for_ Num_Nodes (fun j =>
      for_ Num_Dim (fun m => for_ Num_Dim (fun n C =>
        let Ctemp := tC (i + 1)%nat (m + 1)%nat (n + 1)%nat (j + 1)%nat in
        (* C1 *)
        let C := mset C (i * Num_Dof + m) (j * Num_Dof + n)
                   (Ctemp * (poro el * poro el)) in
        let C :=
          if bool_decide (getAlphaM ray <> 0)
          then mset C (i * Num_Dof + m) (j * Num_Dof + n)
                 (mget C (i * Num_Dof + m) (j * Num_Dof + n)
                  + CRm (i + 1)%nat (j + 1)%nat * getAlphaM ray)
          else C in
        let C :=
          if bool_decide (getBetaK ray <> 0)
          then mset C (i * Num_Dof + m) (j * Num_Dof + n)
                 (mget C (i * Num_Dof + m) (j * Num_Dof + n)
                  + CRk (i + 1)%nat (m + 1)%nat (n + 1)%nat (j + 1)%nat
                    * getBetaK ray)
          else C in
        (* C3 *)
        let C := mset C (i * Num_Dof + m + 4) (j * Num_Dof + n + 4)
                   (Ctemp * (poro el * poro el)) in
        (* C2 and C2^T *)
        let C := mset C (i * Num_Dof + m) (j * Num_Dof + n + 4)
                   (- Ctemp * (poro el * poro el)) in
        mset C (j * Num_Dof + n + 4) (i * Num_Dof + m)
             (- Ctemp * (poro el * poro el))))))
      (C st) in
  let C := if isDead el then mscale (dead_srf st) C else C in
  Returns (C, set_C st C, cerr).

Definition getMass (el : t Mat) (st : statics) : Matrix * statics :=
  let tM := getMassTensorMsf el in
  let M := (fun row : list double => (fun _ : double => 0) <$> row) <$> M st in
  let M :=
    for_ Num_Nodes (fun i => for_ Num_Nodes (fun j M =>
      let Mtemp := tM (i + 1)%nat (j + 1)%nat in
      (* Ms *)
      let M := mset M (i * Num_Dof + 0) (j * Num_Dof + 0)
                 (Mtemp * (dbl 1.0 - poro el) * rho_s el) in
      let M := mset M (i * Num_Dof + 1) (j * Num_Dof + 1)
                 (Mtemp * (dbl 1.0 - poro el) * rho_s el) in
      let M := mset M (i * Num_Dof + 2) (j * Num_Dof + 2)
                 (Mtemp * (dbl 1.0 - poro el) * rho_s el) in
      (* Mf *)
      let M := mset M (i * Num_Dof + 4) (j * Num_Dof + 4)
                 (Mtemp * poro el * rho_f el) in
      let M := mset M (i * Num_Dof + 5) (j * Num_Dof + 5)
                 (Mtemp * poro el * rho_f el) in
      mset M (i * Num_Dof + 6) (j * Num_Dof + 6)
           (Mtemp * poro el * rho_f el))) M in
  let M := if isDead el then mscale (dead_srf st) M else M in
  (M, set_M st M).

(** [v.Zero()] *)
Definition Zero (v : Vector) : Vector := (fun _ => 0) <$> v.

Definition zeroLoad (el : t Mat) : t Mat :=
  let el := set_load el (Zero (load el)) in
  match eleQ el with
  | Some q => set_eleQ el (Some (Zero q))
  | None => el
  end.

(** The elemental loads [addLoad] tells apart by [dynamic_cast]. *)
Inductive ElementalLoad := BrickSelfWeight | OtherLoad.

Definition addLoad (theLoad : ElementalLoad) (loadFactor : double)
    (el : t Mat) : Z * t Mat * list string :=
  match theLoad with
  | BrickSelfWeight =>
      let q :=
        vscale loadFactor
          (zip_with Qcplus (getExForceS el) (getExForceF el)) in
      (0%Z, set_eleQ el (Some q), [])
  | OtherLoad =>
      ((-1)%Z, el,
       ["XC::EightNodeBrick_u_p_U::addLoad() " +:+ pretty (getTag el)
        +:+ ", load type unknown"])
  end.

(** The loop of [getResistingForce] that gathers the trial
    displacements of the nodes into [u]. *)
Definition gather_disp (el : t Mat) : outcome Vector :=
  for_ Num_Nodes (fun i (ou : outcome Vector) =>
    u ← ou;
    let disp := getTrialDisp (theNodes el !!! i) in
    if bool_decide (length disp <> Num_Dof)
    then Exits (-1) "XC::EightNode_Brick_u_p_U::getResistingForce(): matrix and vector sizes are incompatible "
    else Returns (for_ Num_Dof (fun j u =>
                    vset u (i * Num_Dof + j) (vget disp j)) u))
    (Returns (Vector_zero Num_ElemDof)).

Definition getResistingForce (el : t Mat) (st : statics)
    : outcome (Vector * t Mat * statics) :=
  let P := Zero (P st) in
  u ← gather_disp el;
  '(_, el, st) ← getTangentStiff el st;
  let P := addMatrixVector P (dbl 0.0) (K st) u (dbl 1.0) in
  let P :=
    if bool_decide (load el <> [])
    then addVector P (dbl 1.0) (load el) (dbl (-1.0)) else P in
  let P :=
    match eleQ el with
    | Some q => addVector P (dbl 1.0) q (dbl (-1.0))
    | None => P
    end in
  let P := if isDead el then vscale (dead_srf st) P else P in
  Returns (P, el, set_P st P).

(** [sendSelf] / [recvSelf] over a communicator of type [Comm]. *)
Definition sendSelf {Comm : Type} (el : t Mat) (comm : Comm) : Z * Comm :=
  (* Not implemtented yet *)
  (0%Z, comm).

Definition recvSelf {Comm : Type} (el : t Mat) (comm : Comm)
    : Z * t Mat :=
  (* Not implemtented yet *)
  (0%Z, el).

(** [Gs(i,j) = x] on a second-order tensor. *)
Definition upd2 (a : rank2) (i j : nat) (x : double) : rank2 :=
  fun i' j' =>
    if bool_decide (i' = i) && bool_decide (j' = j) then x else a i' j'.

Definition getGaussPts (el : t Mat) : rank2 :=
  gauss_loop (fun GP_c_r GP_c_s GP_c_t Gs =>
    let where_ := where_ GP_c_r GP_c_s GP_c_t in
    let shp := shapeFunction (pt GP_c_r) (pt GP_c_s) (pt GP_c_t) in
    for_ Num_Nodes (fun i =>
      let T_Crds := getCrds (theNodes el !!! i) in
      for_ Num_Dim (fun j Gs =>
        upd2 Gs (where_ + 1) (j + 1)
             (Gs (where_ + 1)%nat (j + 1)%nat
              + shp (i + 1)%nat * vget T_Crds j))) Gs)
    zero2.

(** Modelled from the spec: [Information], [ElementResponse] and
    [setMaterialResponse] are not among the sources.  An [Information]
    holds the last vector or matrix it was given; its setters report 0. *)
Inductive Information :=
| Info_none
| Info_Vector (v : Vector)
| Info_Matrix (m : Matrix).

Definition setVector (v : Vector) : Z * Information := (0%Z, Info_Vector v).
Definition setMatrix (m : Matrix) : Z * Information := (0%Z, Info_Matrix m).

Inductive Response :=
| ElementResponse (responseID : Z) (info : Information)
| MaterialResponse (pointNum : Z) (argv : list string).

(** [atoi] is taken as a parameter. *)
Definition setResponse (atoi : string -> Z) (argv : list string)
    (el : t Mat) (st : statics) : option Response :=
  let argv0 := argv !!! 0%nat in
  if bool_decide (argv0 = "force") || bool_decide (argv0 = "forces")
  then Some (ElementResponse 1 (Info_Vector (P st)))
  else if bool_decide (argv0 = "stiff") || bool_decide (argv0 = "stiffness")
  then Some (ElementResponse 2 (Info_Matrix (K st)))
  else if bool_decide (argv0 = "mass")
  then Some (ElementResponse 3 (Info_Matrix (M st)))
  else if bool_decide (argv0 = "damp")
  then Some (ElementResponse 4 (Info_Matrix (C st)))
  else if bool_decide (argv0 = "material")
          || bool_decide (argv0 = "integrPoint")
  then
    let pointNum := atoi (argv !!! 1%nat) in
    if bool_decide (pointNum > 0)%Z
       && bool_decide (pointNum <= Z.of_nat Num_TotalGaussPts)%Z
    then Some (MaterialResponse (pointNum - 1) (drop 2 argv))
    else None
  else if bool_decide (argv0 = "stresses")
  then Some (ElementResponse 5
               (Info_Vector (Vector_zero (Num_TotalGaussPts * 6))))
  else if bool_decide (argv0 = "gausspoint")
          || bool_decide (argv0 = "GaussPoint")
  then Some (ElementResponse 6
               (Info_Vector (Vector_zero (Num_TotalGaussPts * Num_Dim))))
  else None.

(** The vector that [getResponse] builds for [responseID == 5]. *)
Definition stresses_vector (el : t Mat) : Vector :=
  fst
    (for_ Num_TotalGaussPts (fun i '(stresses, cnt) =>
       let sigma := getStressTensor (physicalProperties el !!! i) in
       let stresses := vset stresses cnt (sigma 1 1)%nat in (* xx *)
       let cnt := S cnt in
       let stresses := vset stresses cnt (sigma 2 2)%nat in (* yy *)
       let cnt := S cnt in
       let stresses := vset stresses cnt (sigma 3 3)%nat in (* zz *)
       let cnt := S cnt in
       let stresses := vset stresses cnt (sigma 2 3)%nat in (* yz *)
       let cnt := S cnt in
       let stresses := vset stresses cnt (sigma 3 1)%nat in (* zx *)
       let cnt := S cnt in
       let stresses := vset stresses cnt (sigma 2 3)%nat in (* xy *)
       let cnt := S cnt in
       (stresses, cnt))
       (Vector_zero (Num_TotalGaussPts * 6), 0%nat)).

(** The vector that [getResponse] builds for [responseID == 6]. *)
Definition Gpts_vector (el : t Mat) : Vector :=
  let GCoord := getGaussPts el in
  fst
    (for_ Num_TotalGaussPts (fun i =>
       for_ Num_Dim (fun j '(Gpts, cnt) =>
         (vset Gpts cnt (GCoord (i + 1) (j + 1))%nat, S cnt)))
       (Vector_zero (Num_TotalGaussPts * Num_Dim), 0%nat)).

(** [getResponse]: the status, what [eleInfo] holds afterwards, the
    element and the statics. *)
Definition getResponse (responseID : Z) (eleInfo : Information)
    (el : t Mat) (st : statics)
    : outcome (Z * Information * t Mat * statics) :=
  if bool_decide (responseID = 1)%Z then
    '(P, el, st) ← getResistingForce el st;
    let '(res, info) := setVector P in
    Returns (res, info, el, st)
  else if bool_decide (responseID = 2)%Z then
    '(K, el, st) ← getTangentStiff el st;
    let '(res, info) := setMatrix K in
    Returns (res, info, el, st)
  else if bool_decide (responseID = 3)%Z then
    let '(M, st) := getMass el st in
    let '(res, info) := setMatrix M in
    Returns (res, info, el, st)
  else if bool_decide (responseID = 4)%Z then
    '(C, st, _) ← getDamp el st;
    let '(res, info) := setMatrix C in
    Returns (res, info, el, st)
  else if bool_decide (responseID = 5)%Z then
    let '(res, info) := setVector (stresses_vector el) in
    Returns (res, info, el, st)
  else if bool_decide (responseID = 6)%Z then
    let '(res, info) := setVector (Gpts_vector el) in
    Returns (res, info, el, st)
  else Returns ((-1)%Z, eleInfo, el, st).

Definition getPorePressure (el : t Mat) (x1 x2 x3 : double) : double :=
  for_ Num_Nodes (fun i pp =>
    let T_disp := getTrialDisp (theNodes el !!! i) in
    pp + shapeFunction x1 x2 x3 (i + 1)%nat * vget T_disp 3)
    (dbl 0.0).

Definition set_perm (st : statics) (p : rank2) : statics :=
  {| K := K st; C := C st; M := M st; P := P st; perm := p;
     dead_srf := dead_srf st |}.

(** The constructor: the members of a new element, and the static
    permeability, whose diagonal it overwrites.  The nodes are bound later
    by [setDomain]; the base classes start with an empty load, no Rayleigh
    damping and a live element. *)
Definition EightNodeBrick_u_p_U (element_number : Z) (Globalmmodel : Mat)
    (bForces : Vector) (nn alf rs rf permb_x permb_y permb_z kks kkf pp : double)
    (st : statics) : t Mat * statics :=
  (mk element_number [] (replicate Num_TotalGaussPts Globalmmodel) bForces
      nn alf rs rf kks kkf pp None None [] (mkRay 0 0 0 0) false,
   set_perm st
     (upd2 (upd2 (upd2 (perm st) 1 1 permb_x) 2 2 permb_y) 3 3 permb_z)).

(** [setDomain] binds the nodes. *)
Definition set_theNodes (el : t Mat) (nodes : list Node) : t Mat :=
  mk (getTag el) nodes (physicalProperties el) (bf el) (poro el) (alpha el)
     (rho_s el) (rho_f el) (ks el) (kf el) (pressure el) (eleQ el) (Ki el)
     (load el) (rayFactors el) (isDead el).

(** The strain that [update] hands to the material of a Gauss point. *)
Definition trial_strain (el : t Mat) (GP_c_r GP_c_s GP_c_t : nat)
    : straintensor :=
  let total_displacements := getNodesDisp el in
  let total_disp : rank2 :=
    fun i j => if in_range Num_Nodes i && in_range Num_Dim j
               then total_displacements i j else 0 in
  let dh := shapeFunctionDerivative (pt GP_c_r) (pt GP_c_s) (pt GP_c_t) in
  let dhGlobal := dh_Global el dh in
  symmetrize11
    (fun a b => sum_to Num_Nodes (fun i => total_disp i a * dhGlobal i b)).

(** The loops of [addInertiaLoadToUnbalance] and
    [getResistingForceIncInertia] that gather one vector per node: the
    vectors are given node by node; a vector that has not [Num_Dof]
    entries stops the loop. *)
Definition gather_ra (RAs : list Vector) : option Vector :=
  for_ Num_Nodes (fun i (ora : option Vector) =>
    ra ← ora;
    let RA := RAs !!! i in
    if bool_decide (length RA <> Num_Dof) then None
    else
      let ik := (i * Num_Dof)%nat in
      let ra := vset ra (ik + 0) (vget RA 0) in
      let ra := vset ra (ik + 1) (vget RA 1) in
      let ra := vset ra (ik + 2) (vget RA 2) in
      let ra := vset ra (ik + 3) (dbl 0.0) in
      let ra := vset ra (ik + 4) (vget RA 4) in
      let ra := vset ra (ik + 5) (vget RA 5) in
      let ra := vset ra (ik + 6) (vget RA 6) in
      Some ra)
    (Some (Vector_zero Num_ElemDof)).

(** [addInertiaLoadToUnbalance]: [Node::getRV] is not among the sources
    and is a parameter.  The static [ra] is written in full before it is
    used. *)
Definition addInertiaLoadToUnbalance (getRV : Node -> Vector -> Vector)
    (accel : Vector) (el : t Mat) (st : statics)
    : Z * t Mat * list string :=
  match gather_ra ((fun n => getRV n accel) <$> theNodes el) with
  | None =>
      ((-1)%Z, el,
       ["XC::EightNodeBrick_u_p_U::addInertiaLoadToUnbalance matrix and vector sizes are incompatible"])
  | Some ra =>
      let load :=
        if bool_decide (load el = []) then Vector_zero Num_ElemDof
        else load el in
      (0%Z,
       set_load el (addMatrixVector load (dbl 1.0) (M st) ra (dbl (-1.0))),
       [])
  end.

(** The loops of [getResistingForceIncInertia] that copy the trial
    accelerations, then the trial velocities, of the nodes into [a]. *)
Definition gather_into (what : Node -> Vector) (msg : string) (el : t Mat)
    (a : Vector) : outcome Vector :=
  for_ Num_Nodes (fun i (oa : outcome Vector) =>
    a ← oa;
    let acc := what (theNodes el !!! i) in
    if bool_decide (length acc <> Num_Dof)
    then Exits (-1) msg
    else Returns (for_ Num_Dof (fun j a =>
                    vset a (i * Num_Dof + j) (vget acc j)) a))
    (Returns a).

(** [getResistingForceIncInertia]: [Node::getTrialAccel] and
    [Node::getTrialVel] are parameters. *)
Definition getResistingForceIncInertia (getTrialAccel getTrialVel : Node -> Vector)
    (el : t Mat) (st : statics)
    : outcome (Vector * t Mat * statics) :=
  let a := Vector_zero Num_ElemDof in
  '(_, el, st) ← getResistingForce el st;
  a ← gather_into getTrialAccel
        "XC::EightNode_Brick_u_p_U::getResistingForceIncInertia matrix and vector sizes are incompatible "
        el a;
  let '(_, st) := getMass el st in
  let P := addMatrixVector (P st) (dbl 1.0) (M st) a (dbl 1.0) in
  a ← gather_into getTrialVel
        "XC::EightNode_Brick_u_p_U::getResistingForceIncInertia matrix and vector sizes are incompatible "
        el a;
  '(_, st, _) ← getDamp el st;
  let P := addMatrixVector P (dbl 1.0) (C st) a (dbl 1.0) in
  let P := if isDead el then vscale (dead_srf st) P else P in
  Returns (P, el, set_P st P).

(** The vector [u] of the specification: the trial displacements of the
    incident nodes, node after node. *)
Definition nodal_disp (el : t Mat) : Vector :=
  theNodes el ≫= getTrialDisp.

(** The resisting force of the specification: [Kt * u] minus the
    applied load, that is the load vector when the element has one and
    the self-weight load [eleQ] when the element has one. *)
Definition expected_force (Kt : Matrix) (u : Vector) (el : t Mat)
    : Vector :=
  let p := mat_vec Kt u in
  let p := if bool_decide (load el <> []) then vsub p (load el) else p in
  match eleQ el with
  | Some q => vsub p q
  | None => p
  end.

(** *** Notions used to state properties of the element *)

(** The natural coordinates of node [i], numbered from 1: the corner of
    the bi-unit cube at which the shape function [i] does not vanish. *)
Definition natural_corner (i : nat) : double * double * double :=
  match i with
  | 1%nat => (1, 1, 1)
  | 2%nat => (- (1), 1, 1)
  | 3%nat => (- (1), - (1), 1)
  | 4%nat => (1, - (1), 1)
  | 5%nat => (1, 1, - (1))
  | 6%nat => (- (1), 1, - (1))
  | 7%nat => (- (1), - (1), - (1))
  | _ => (1, - (1), - (1))
  end.

(** A node moved by the vector [c]; its trial displacement is kept. *)
Definition translate (c : Vector) (n : Node) : Node :=
  mkNode (vadd (getCrds n) c) (getTrialDisp n).

(** The loop counters [(GP_c_r, GP_c_s, GP_c_t)] of the Gauss points, in
    the order in which the three nested loops visit them. *)
Definition gauss_points : list (nat * nat * nat) :=
  r ← seq 0 Num_IntegrationPts; s ← seq 0 Num_IntegrationPts;
  t ← seq 0 Num_IntegrationPts; [(r, s, t)].

(** What [setTrialStrain] gives for the material [m] of the Gauss point
    [gp], at the strain that [update] computes there for the element
    [el]. *)
Definition updated_material (el : t Mat) (m : Mat) (gp : nat * nat * nat)
    : Z * Mat :=
  setTrialStrain m (trial_strain el gp.1.1 gp.1.2 gp.2).

(** Entry [(r, c)] of the matrix that the loops of [getMass] leave, in
    closed form: [r = 7 i + a] and [c = 7 j + b] for the nodes [i], [j]
    and the degrees of freedom [a], [b]. *)
Definition mass_entry (tM : rank2) (poro rho_s rho_f : double) (r c : nat)
    : double :=
  let i := (r / 7)%nat in
  let a := (r mod 7)%nat in
  let j := (c / 7)%nat in
  let b := (c mod 7)%nat in
  if bool_decide (a = b) then
    if bool_decide (a < 3)%nat
    then tM (i + 1)%nat (j + 1)%nat * (dbl 1.0 - poro) * rho_s
    else if bool_decide (4 <= a)%nat
         then tM (i + 1)%nat (j + 1)%nat * poro * rho_f
         else 0
  else 0.

(** Entry [(r, c)] of the matrix that the loops of [getStiff] leave in
    the static [K], in closed form; [K0] gives the entries that [K] held
    before. *)
Definition stiff_entry (tKep : rank4) (tG : rank3) (tP : rank2)
    (alpha poro : double) (K0 : nat -> nat -> double) (r c : nat) : double :=
  let i := (r / 7)%nat in
  let a := (r mod 7)%nat in
  let j := (c / 7)%nat in
  let b := (c mod 7)%nat in
  if (a <? 3)%nat then
    if (b <? 3)%nat then tKep (i + 1)%nat (a + 1)%nat (b + 1)%nat (j + 1)%nat
    else if (b =? 3)%nat
         then - tG (i + 1)%nat (a + 1)%nat (j + 1)%nat * (alpha - poro)
         else K0 r c
  else if (a =? 3)%nat then
    if (b <? 3)%nat
    then - tG (j + 1)%nat (b + 1)%nat (i + 1)%nat * (alpha - poro)
    else if (b =? 3)%nat then - tP (i + 1)%nat (j + 1)%nat
         else - tG (j + 1)%nat (b - 3)%nat (i + 1)%nat * poro
  else
    if (b =? 3)%nat then - tG (i + 1)%nat (a - 3)%nat (j + 1)%nat * poro
    else K0 r c.

(** Entry [(r, c)] of the matrix that the loops of [getDamp] leave in
    the static [C], in closed form; [C0] gives the entries that [C] held
    before. *)
Definition damp_entry (tC : rank4) (tM : rank2) (tKep : rank4)
    (alphaM betaK poro rho_s : double) (C0 : nat -> nat -> double)
    (r c : nat) : double :=
  let i := (r / 7)%nat in
  let a := (r mod 7)%nat in
  let j := (c / 7)%nat in
  let b := (c mod 7)%nat in
  if (a <? 3)%nat then
    if (b <? 3)%nat then
      let x := tC (i + 1)%nat (a + 1)%nat (b + 1)%nat (j + 1)%nat
               * (poro * poro) in
      let x :=
        if bool_decide (alphaM <> 0)
        then x + scale2 tM ((dbl 1.0 - poro) * rho_s) (i + 1)%nat (j + 1)%nat
                 * alphaM
        else x in
      if bool_decide (betaK <> 0)
      then x + tKep (i + 1)%nat (a + 1)%nat (b + 1)%nat (j + 1)%nat * betaK
      else x
    else if (b =? 3)%nat then C0 r c
    else - tC (i + 1)%nat (a + 1)%nat (b - 3)%nat (j + 1)%nat * (poro * poro)
  else if (a =? 3)%nat then C0 r c
  else
    if (b <? 3)%nat
    then - tC (j + 1)%nat (b + 1)%nat (a - 3)%nat (i + 1)%nat * (poro * poro)
    else if (b =? 3)%nat then C0 r c
    else tC (i + 1)%nat (a - 3)%nat (b - 3)%nat (j + 1)%nat * (poro * poro).

End Element.
End EightNodeBrick_u_p_U.

(** ** RoundedMohrCoulomb01YieldSurface *)

Module RoundedMohrCoulomb01YieldSurface.

(** The elastic-plastic state, as far as the yield surface reads it: the
    stress and the scalar internal variables, numbered from 1. *)
Record EPState := mkEPState {
  getStress : stresstensor;
  ScalarVar : list double;
}.

Definition getScalarVar (EPS : EPState) (i : nat) : double :=
  ScalarVar EPS !!! (i - 1)%nat.

(** The stress invariants of [stresstensor] and the deviatoric shape
    function [g_0] are not among the sources (they take square roots and
    inverse cosines): the yield function is parametrised by them. *)
Class Invariants := {
  p_hydrostatic : stresstensor -> double;
  q_deviatoric : stresstensor -> double;
  theta : stresstensor -> double;
  g_0 : double -> double -> double;
}.

Definition f `{Invariants} (EPS : EPState) : double :=
  let p := p_hydrostatic (getStress EPS) in
  let q := q_deviatoric (getStress EPS) in
  let theta := theta (getStress EPS) in
  let alfa := getScalarVar EPS 1 in
  let k := getScalarVar EPS 2 in
  let a1 := (dbl 3.0 * dbl 1.7320508076 * alfa)
            / (dbl 2.0 + dbl 1.7320508076 * alfa) in
  let e := (dbl 3.0 - a1) / (dbl 3.0 + a1) in
  let Frou := g_0 theta e in
  let f := alfa * p * dbl (-3.0) + Frou * q / dbl 1.7320508076 - k in
  f.

Definition xi_s1 `{Invariants} (EPS : EPState) : double :=
  let p := p_hydrostatic (getStress EPS) in
  p * dbl (-3.0).

Definition xi_s2 `{Invariants} (EPS : EPState) : double := dbl (-1.0).

End RoundedMohrCoulomb01YieldSurface.

(** ** Constitutive model: state container and state machine *)

Module ConstitutiveModel.

(** Modelled from the spec: the implementations of [commitState],
    [revertToLastCommit], [setTrialStrain], [getStress] and [getTangent]
    (J2Plasticity.cpp and the other material sources) are absent; only
    the declarations of J2Plasticity.h are among the sources, with the
    history variables [epsilon_p_n] / [epsilon_p_nplus1] and [xi_n] /
    [xi_nplus1] and the comments "swap history variables" and "revert to
    last saved state".  The state is the IntegrationPointState of the data
    model: committed and trial strain, stress and internal variables
    (plastic strain and hardening variables), and the tangent operator.
    Section 4.1 has [getTangent] return the last committed value after a
    revert, so the tangent is kept like the stress: [tangentOperator] is
    the value of the last [setTrialStrain], [committedTangent] the value
    at the last commit. *)
Record IntegrationPointState (Tensor Tensor4 : Type) := mkState {
  committedStrain : Tensor;
  committedStress : Tensor;
  committedInternalVars : list double;
  trialStrain : Tensor;
  trialStress : Tensor;
  trialInternalVars : list double;
  tangentOperator : Tensor4;
  committedTangent : Tensor4;
}.
Arguments mkState {Tensor Tensor4}.
Arguments committedStrain {Tensor Tensor4}.
Arguments committedStress {Tensor Tensor4}.
Arguments committedInternalVars {Tensor Tensor4}.
Arguments trialStrain {Tensor Tensor4}.
Arguments trialStress {Tensor Tensor4}.
Arguments trialInternalVars {Tensor Tensor4}.
Arguments tangentOperator {Tensor Tensor4}.
Arguments committedTangent {Tensor Tensor4}.

(** Modelled from the spec: what a variant of the constitutive model
    provides to [setTrialStrain]: the elastic trial stress for a strain
    and the committed internal variables, the elastic tangent, the yield
    criterion with its tolerance, and the return mapping, which gives the
    admissible stress, the updated internal variables and the consistent
    tangent, or nothing when the local iteration does not converge. *)
Class Law (Tensor Tensor4 : Type) := {
  elasticStress : Tensor -> list double -> Tensor;
  elasticTangent : Tensor4;
  yieldFunction : Tensor -> list double -> double;
  tolerance : double;
  returnMap : Tensor -> list double
              -> option (Tensor * list double * Tensor4);
}.

Definition IntegrationFailure : Z := (-1)%Z.

Section StateMachine.
Context {Tensor Tensor4 : Type} `{Law Tensor Tensor4}.

Abbreviation state := (IntegrationPointState Tensor Tensor4).

(** The yield criterion is violated by a stress. *)
Definition violated (sigma : Tensor) (q : list double) : bool :=
  bool_decide (tolerance < yieldFunction sigma q).

(** A trial strain stays within the yield surface at the committed
    internal variables of a state. *)
Definition elastic_at (s : state) (e : Tensor) : Prop :=
  violated (elasticStress e (committedInternalVars s))
           (committedInternalVars s) = false.


(** Modelled from the spec: [setTrialStrain] computes the elastic trial
    stress from the strain and the committed internal variables; when
    the yield criterion is violated it takes stress, internal variables
    and consistent tangent from the return mapping, and fails with
    [IntegrationFailure] when that does not converge, leaving the trial
    stress, internal variables and tangent as they were. *)
Definition setTrialStrain (strain : Tensor) (s : state) : Z * state :=
  let sigma := elasticStress strain (committedInternalVars s) in
  if violated sigma (committedInternalVars s) then
    match returnMap strain (committedInternalVars s) with
    | Some (sigma', q', tangent') =>
        (0%Z,
         mkState (committedStrain s) (committedStress s)
                 (committedInternalVars s) strain sigma' q' tangent'
                 (committedTangent s))
    | None =>
        (IntegrationFailure,
         mkState (committedStrain s) (committedStress s)
                 (committedInternalVars s) strain (trialStress s)
                 (trialInternalVars s) (tangentOperator s)
                 (committedTangent s))
    end
  else
    (0%Z,
     mkState (committedStrain s) (committedStress s)
             (committedInternalVars s) strain sigma
             (committedInternalVars s) elasticTangent
             (committedTangent s)).

(** Modelled from the spec: pure reads of the last computed trial
    values. *)
Definition getStress (s : state) : Tensor := trialStress s.
Definition getTangent (s : state) : Tensor4 := tangentOperator s.

(** Modelled from the spec: [commitState] copies trial to committed,
    the tangent with the stress, and succeeds. *)
Definition commitState (s : state) : Z * state :=
  (0%Z,
   mkState (trialStrain s) (trialStress s) (trialInternalVars s)
           (trialStrain s) (trialStress s) (trialInternalVars s)
           (tangentOperator s) (tangentOperator s)).

(** Modelled from the spec: [revertToLastCommit] copies committed to
    trial, the tangent with the stress, leaves committed as it is, and
    succeeds. *)
Definition revertToLastCommit (s : state) : Z * state :=
  (0%Z,
   mkState (committedStrain s) (committedStress s)
           (committedInternalVars s)
           (committedStrain s) (committedStress s)
           (committedInternalVars s)
           (committedTangent s) (committedTangent s)).

(** The calls that change the state of a constitutive model, and a
    sequence of them applied in order, whatever their status. *)
Inductive Call : Type :=
  | SetTrialStrain (strain : Tensor)
  | CommitState
  | RevertToLastCommit.

Definition call (c : Call) (s : state) : Z * state :=
  match c with
  | SetTrialStrain strain => setTrialStrain strain s
  | CommitState => commitState s
  | RevertToLastCommit => revertToLastCommit s
  end.

Definition run (calls : list Call) (s : state) : state :=
  foldl (fun s c => (call c s).2) s calls.

End StateMachine.
Arguments Call : clear implicits.

(** A uniaxial elastic, perfectly plastic law with a closed-form return
    mapping: strain and stress are scalars, the only internal variable is
    the plastic strain, the tangent is a scalar modulus.  Young modulus
    1000, yield stress 10. *)
Definition uniaxial_E : double := dbl 1000.
Definition uniaxial_fy : double := dbl 10.

Definition plasticStrain (q : list double) : double := q !!! 0%nat.

Definition Qcabs (x : double) : double :=
  if bool_decide (x < 0) then - x else x.

Definition uniaxial_law : Law double double :=
  {| elasticStress e q := uniaxial_E * (e - plasticStrain q);
     elasticTangent := uniaxial_E;
     yieldFunction sigma q := Qcabs sigma - uniaxial_fy;
     tolerance := 0;
     returnMap e q :=
       let sigma := uniaxial_E * (e - plasticStrain q) in
       let sigma' := if bool_decide (sigma < 0) then - uniaxial_fy
                     else uniaxial_fy in
       Some (sigma', [e - sigma' / uniaxial_E], 0) |}.

(** The pristine state of the uniaxial law: zero strain and stress, no
    plastic strain, elastic tangent. *)
Definition uniaxial_initial : IntegrationPointState double double :=
  mkState 0 0 [0] 0 0 [0] uniaxial_E uniaxial_E.


End ConstitutiveModel.

(** ** DOF mapping and assembler *)

Module Assembler.

(** Modelled from the spec: the code that forms the global tangent and
    residual is absent (DOF_Group.h only declares [addMtoTang] and
    [addPtoUnbalance]).  The global system maps pairs of equation numbers
    to accumulated tangent coefficients and equation numbers to
    accumulated residual values; an entry that received no contribution
    is absent. *)
Record GlobalSystem := mkSystem {
  tangent : gmap (Z * Z) double;
  residual : gmap Z double;
}.

(** The system reset to zero at the start of a formation. *)
Definition zeroSystem : GlobalSystem := mkSystem ∅ ∅.

(** Modelled from the spec: what the assembler gets from an element: the
    equation numbers of its local degrees of freedom (a negative number
    is the sentinel of a constrained one), its local matrix and vector,
    and whether it is active. *)
Record ElementContribution := mkContribution {
  active : bool;
  equationNumbers : list Z;
  localTangent : Matrix;
  localResidual : Vector;
}.

(** Equation numbers start at 0; the sentinel is negative. *)
Definition validEquation (eqn : Z) : bool := bool_decide (0 <= eqn)%Z.

(** Add a value to an entry of an accumulator, never overwrite it. *)
Definition accumulate {K : Type} `{Countable K} (k : K) (v : double)
    (m : gmap K double) : gmap K double :=
  <[k := default 0 (m !! k) + v]> m.

(** The contributions of one element to the global tangent: one for
    every local row/column pair whose equation numbers are both valid. *)
Definition tangentEntries (e : ElementContribution)
    : list ((Z * Z) * double) :=
  let n := length (equationNumbers e) in
  i ← seq 0 n;
  j ← seq 0 n;
  let eqi := equationNumbers e !!! i in
  let eqj := equationNumbers e !!! j in
  if validEquation eqi && validEquation eqj
  then [((eqi, eqj), mget (localTangent e) i j)] else [].

Definition residualEntries (e : ElementContribution) : list (Z * double) :=
  let n := length (equationNumbers e) in
  i ← seq 0 n;
  let eqi := equationNumbers e !!! i in
  if validEquation eqi then [(eqi, vget (localResidual e) i)] else [].

(** The contributions of an element that is visited: none when it is
    not active. *)
Definition activeTangentEntries (e : ElementContribution) :=
  if active e then tangentEntries e else [].
Definition activeResidualEntries (e : ElementContribution) :=
  if active e then residualEntries e else [].

Definition scatter {K : Type} `{Countable K} (entries : list (K * double))
    (m : gmap K double) : gmap K double :=
  foldl (fun m '(k, v) => accumulate k v m) m entries.

(** Scatter-add one element into the global system. *)
Definition addElement (g : GlobalSystem) (e : ElementContribution)
    : GlobalSystem :=
  if active e
  then mkSystem (scatter (tangentEntries e) (tangent g))
                (scatter (residualEntries e) (residual g))
  else g.

(** [formTangent] and [formResidual] over the elements in traversal
    order, from the zero system. *)
Definition formSystem (elements : list ElementContribution) : GlobalSystem :=
  foldl addElement zeroSystem elements.

(** The sum of [f] over a list. *)
Definition sumOver {A : Type} (f : A -> double) (l : list A) : double :=
  foldr (fun a acc => f a + acc) 0 l.

(** Following the spec, without the accumulator: what the entry
    [(r, c)] of the global tangent receives, the sum over the active
    elements and over their local row/column pairs whose equation
    numbers are [r] and [c], both valid, of the local values; and
    likewise the entry [r] of the global residual. *)
Definition summedTangent (elements : list ElementContribution) (r c : Z)
    : double :=
  sumOver (fun e =>
    if active e then
      let n := length (equationNumbers e) in
      sumOver (fun i =>
        sumOver (fun j =>
          if bool_decide (equationNumbers e !!! i = r)
             && bool_decide (equationNumbers e !!! j = c)
             && validEquation r && validEquation c
          then mget (localTangent e) i j else 0) (seq 0 n)) (seq 0 n)
    else 0) elements.

Definition summedResidual (elements : list ElementContribution) (r : Z)
    : double :=
  sumOver (fun e =>
    if active e then
      let n := length (equationNumbers e) in
      sumOver (fun i =>
        if bool_decide (equationNumbers e !!! i = r) && validEquation r
        then vget (localResidual e) i else 0) (seq 0 n)
    else 0) elements.

End Assembler.

(** ** Concrete materials, bricks and element sets *)

Module Scenarios.
Import BJtensor EightNodeBrick_u_p_U.

(** A contrived material: it keeps a stress tensor (rows of a 3x3
    matrix) and a flag that makes every [setTrialStrain] report
    non-convergence. *)
Record ContrivedMaterial := mkContrived {
  neverConverges : bool;
  stress : Matrix;
}.

#[global] Instance ContrivedMaterial_inhabited : Inhabited ContrivedMaterial :=
  populate (mkContrived false []).

#[global] Instance ContrivedMaterial_NDMaterial : NDMaterial ContrivedMaterial :=
  {| setTrialStrain m eps := (if neverConverges m then (-1)%Z else 0%Z, m);
     getStressTensor m :=
       fun i j => if in_range 3 i && in_range 3 j
                  then mget (stress m) (i - 1) (j - 1) else 0;
     getTangentTensor m := zero4 |}.

(** A symmetric stress state with distinct shear components:
    xx = 1, yy = 2, zz = 3, xy = 4, yz = 5, zx = 6. *)
Definition shear_stress : Matrix :=
  [[dbl 1; dbl 4; dbl 6]; [dbl 4; dbl 2; dbl 5]; [dbl 6; dbl 5; dbl 3]].

Definition converging : ContrivedMaterial := mkContrived false shear_stress.
Definition diverging : ContrivedMaterial := mkContrived true shear_stress.

Definition node (x y z : Q) : Node :=
  mkNode [dbl x; dbl y; dbl z] (replicate Num_Dof 0).

(** The bi-unit cube, its nodes in the order of the shape functions. *)
Definition cube_nodes : list Node :=
  [node 1 1 1; node (-1) 1 1; node (-1) (-1) 1; node 1 (-1) 1;
   node 1 1 (-1); node (-1) 1 (-1); node (-1) (-1) (-1); node 1 (-1) (-1)].

(** The same cube mirrored in x: the element is turned inside out. *)
Definition mirrored_nodes : list Node :=
  [node (-1) 1 1; node 1 1 1; node 1 (-1) 1; node (-1) (-1) 1;
   node (-1) 1 (-1); node 1 1 (-1); node 1 (-1) (-1); node (-1) (-1) (-1)].

Definition brick_of (nodes : list Node) (m : ContrivedMaterial)
    (external_load : Vector) (dead : bool) : t ContrivedMaterial :=
  mk 1%Z nodes (replicate Num_TotalGaussPts m)
     [dbl 0; dbl 0; dbl (-9.81)]
     (dbl 0.4) (dbl 1.0) (dbl 2.0) (dbl 1.0) (dbl 1000) (dbl 2000) (dbl 0)
     None None external_load (mkRay 0 0 0 0) dead.

Definition brick : t ContrivedMaterial := brick_of cube_nodes converging [] false.
Definition diverging_brick : t ContrivedMaterial :=
  brick_of cube_nodes diverging [] false.
Definition mirrored_brick : t ContrivedMaterial :=
  brick_of mirrored_nodes converging [] false.

(** A unit load on the first degree of freedom. *)
Definition unit_load : Vector := dbl 1 :: replicate (Num_ElemDof - 1) 0.

Definition loaded_brick : t ContrivedMaterial :=
  brick_of cube_nodes converging unit_load false.
Definition dead_brick : t ContrivedMaterial :=
  brick_of cube_nodes converging unit_load true.

(** The default-constructed element. *)
Definition default_brick : t ContrivedMaterial :=
  mk 0%Z [] (replicate Num_TotalGaussPts inhabitant) []
     (dbl 0.0) (dbl 1.0) (dbl 0.0) (dbl 0.0) (dbl 0.0) (dbl 0.0) (dbl 0.0)
     None None [] (mkRay 0 0 0 0) false.

Definition statics0 : statics := statics_init (dbl 0.000001).

(** A cross-section with distinct entries, and a zeroed one. *)
Definition section_a : CrossSectionKR.t :=
  CrossSectionKR.mk [dbl 1; dbl 2; dbl 3; dbl 4]
    (dbl <$> [10; 11; 12; 13; 14; 15; 16; 17; 18; 19; 20; 21; 22; 23; 24;
              25]%Q).
Definition section_0 : CrossSectionKR.t :=
  CrossSectionKR.mk (replicate 4 0) (replicate 16 0).

(** Three two-node elements in a row sharing their inner nodes, one
    degree of freedom per node; the first node is constrained. *)
Definition bar (a b : Z) (k : Q) : Assembler.ElementContribution :=
  Assembler.mkContribution true [a; b]
    [[dbl k; - dbl k]; [- dbl k; dbl k]] [dbl k; - dbl k].

Definition three_bars : list Assembler.ElementContribution :=
  [bar (-1) 0 1; bar 0 1 2; bar 1 2 3].
Definition three_bars_permuted : list Assembler.ElementContribution :=
  [bar 1 2 3; bar (-1) 0 1; bar 0 1 2].

(** An output array of three cells, all holding 0. *)
Definition three_cells : gmap Z double :=
  list_to_map [(0%Z, 0); (1%Z, 0); (2%Z, 0)].

(** A node of the cube with a trial displacement. *)
Definition displaced_node (x y z : Q) (disp : list Q) : Node :=
  mkNode [dbl x; dbl y; dbl z] (dbl <$> disp).

(** The cube moved as a rigid body by (1, 2, 3), with the pore pressure 5
    at every node and fluid displacements that differ from node to node. *)
Definition rigidly_moved_nodes : list Node :=
  [displaced_node 1 1 1 [1; 2; 3; 5; 0; 0; 0];
   displaced_node (-1) 1 1 [1; 2; 3; 5; 1; 0; 0];
   displaced_node (-1) (-1) 1 [1; 2; 3; 5; 0; 1; 0];
   displaced_node 1 (-1) 1 [1; 2; 3; 5; 0; 0; 1];
   displaced_node 1 1 (-1) [1; 2; 3; 5; 1; 1; 0];
   displaced_node (-1) 1 (-1) [1; 2; 3; 5; 0; 1; 1];
   displaced_node (-1) (-1) (-1) [1; 2; 3; 5; 1; 0; 1];
   displaced_node 1 (-1) (-1) [1; 2; 3; 5; 1; 1; 1]]%Q.

Definition moved_brick : t ContrivedMaterial :=
  brick_of rigidly_moved_nodes converging [] false.

(** The cube with one node whose trial displacement has six entries. *)
Definition short_node_brick : t ContrivedMaterial :=
  brick_of (mkNode [dbl 1; dbl 1; dbl 1] (replicate 6 0) :: tail cube_nodes)
           converging [] false.

(** The statics after the construction of an element with the
    permeability 0.001 in the three directions. *)
Definition permeable_statics : statics :=
  (EightNodeBrick_u_p_U 2 converging [dbl 0; dbl 0; dbl (-9.81)]
     (dbl 0.4) (dbl 1.0) (dbl 2.0) (dbl 1.0)
     (dbl 0.001) (dbl 0.001) (dbl 0.001) (dbl 1000) (dbl 2000) (dbl 0)
     statics0).2.

(** An array whose first cells hold arbitrary values. *)
Definition used_cells : gmap Z double :=
  list_to_map [(0%Z, dbl 7); (1%Z, dbl 8); (11%Z, dbl 9)].

End Scenarios.

(** * Theorems *)

(** Equality of two closed doubles, by evaluation. *)
Ltac qc_eval := apply Qc_is_canon; vm_compute; reflexivity.

(** Two closed doubles differ, by evaluation. *)
Ltac qc_differ :=
  let Heq := fresh "Heq" in
  intros Heq; apply (f_equal this) in Heq; vm_compute in Heq; discriminate.

Lemma dbl_0 : dbl 0.0 = 0.
Proof. qc_eval. Qed.

Lemma dbl_1 : dbl 1.0 = 1.
Proof. qc_eval. Qed.

Lemma dbl_m1 : dbl (-1.0) = - (1).
Proof. qc_eval. Qed.

(** ** Loops, vectors and matrices *)

Section VectorFacts.

Lemma for_invariant {S : Type} (P : S -> Prop) n (body : nat -> S -> S) s :
  (forall i s, P s -> P (body i s)) -> P s -> P (for_ n body s).
Proof.
  intros Hbody. unfold for_. generalize (seq 0 n) as l. intros l. revert s.
  induction l as [|i l IH]; intros s Hs; [done|]. simpl. apply IH, Hbody, Hs.
Qed.

Lemma length_mset (m : Matrix) i j x : length (mset m i j x) = length m.
Proof. apply length_insert. Qed.

Lemma length_mat_vec (m : Matrix) v : length (mat_vec m v) = length m.
Proof. apply length_fmap. Qed.

Lemma length_mscale f (m : Matrix) : length (mscale f m) = length m.
Proof. apply length_fmap. Qed.

Lemma addVector_from_zero (p v : Vector) :
  length p = length v ->
  addVector ((fun _ => 0) <$> p) (dbl 0.0) v (dbl 1.0) = v.
Proof.
  rewrite dbl_0, dbl_1. unfold addVector. revert v.
  induction p as [|x p IH]; intros [|y v] Hlen; try done.
  simpl in *. f_equal; [ring | apply IH; lia].
Qed.

Lemma addVector_minus (p v : Vector) :
  addVector p (dbl 1.0) v (dbl (-1.0)) = vsub p v.
Proof.
  rewrite dbl_1, dbl_m1. unfold addVector, vsub. revert v.
  induction p as [|x p IH]; intros [|y v]; try done.
  simpl. f_equal; [ring | apply IH].
Qed.

Lemma vsum_zeros (v : Vector) : Forall (fun x => x = 0) v -> vsum v = 0.
Proof.
  unfold vsum. induction 1 as [|x v -> _ IH]; [done|]. simpl.
  by replace (0 + 0) with 0 by ring.
Qed.

Lemma row_dot_zero (row : Vector) n : row_dot row (replicate n 0) = 0.
Proof.
  unfold row_dot. apply vsum_zeros. revert n.
  induction row as [|x row IH]; intros [|n]; simpl; try constructor.
  - ring.
  - apply IH.
Qed.

Lemma mat_vec_zero (m : Matrix) n :
  mat_vec m (replicate n 0) = replicate (length m) 0.
Proof.
  unfold mat_vec. induction m as [|row m IH]; [done|].
  rewrite fmap_cons, row_dot_zero, IH. done.
Qed.

Lemma vsub_self (v : Vector) : vsub v v = (fun _ => 0) <$> v.
Proof.
  unfold vsub. induction v as [|x v IH]; [done|].
  simpl. f_equal; [ring | apply IH].
Qed.

End VectorFacts.

(** ** RadauBeamIntegration *)

Section RadauFacts.
Import RadauBeamIntegration.

Lemma for_each_section_lookup_outside n f a i :
  (i < 0 \/ n <= i)%Z -> for_each_section n f a !! i = a !! i.
Proof.
  intros Hi. unfold for_each_section.
  assert (Hnot : i ∉ seqZ 0 n) by (rewrite elem_of_seqZ; lia).
  revert a. induction (seqZ 0 n) as [|j l IH]; intros a; [done|].
  simpl. rewrite IH by (intros ?; apply Hnot; by right).
  apply lookup_alter_ne. intros ->. apply Hnot. by left.
Qed.

(** With one or two sections the weights are written in bounds and sum
    to 1. *)
Lemma getSectionWeights_one_two L :
  getSectionWeights 1 L ∅ = {[ 0%Z := 1 ]}
  /\ sum_sections 1 (getSectionWeights 1 L ∅) = Some 1
  /\ dom (getSectionWeights 2 L ∅) = {[ 0%Z; 1%Z ]}
  /\ sum_sections 2 (getSectionWeights 2 L ∅) = Some 1.
Proof.
  split; [|split; [|split]].
  - apply map_eq. intros i. unfold getSectionWeights, for_each_section.
    simpl. rewrite alter_insert_eq.
    replace (dbl 2.0 * dbl 0.5) with 1 by qc_eval. done.
  - vm_compute. f_equal; qc_eval.
  - vm_compute. reflexivity.
  - vm_compute. f_equal; qc_eval.
Qed.

(** From three sections on, the cells written are 1 .. numSections. *)
Lemma getSectionWeights_writes_1_to_n (n : Z) L :
  (3 <= n <= 10)%Z ->
  dom (getSectionWeights n L ∅) = list_to_set (seqZ 1 n).
Proof.
  intros Hn.
  assert (Hcases : (n = 3 \/ n = 4 \/ n = 5 \/ n = 6 \/ n = 7 \/ n = 8
                    \/ n = 9 \/ n = 10)%Z) by lia.
  destruct Hcases as [->|[->|[->|[->|[->|[->|[->| ->]]]]]]];
    vm_compute; reflexivity.
Qed.

(** The three weight literals of the case of three sections sum to 2 only
    up to the ten digits they are written with. *)
Lemma three_section_literals_sum :
  dbl 0.2222222222 + dbl 1.024971652 + dbl 0.7528061254 = dbl 1.9999999996.
Proof. qc_eval. Qed.

(** The locations are written in the cells 0 .. numSections-1. *)
Lemma getSectionLocations_writes_0_to_n (n : Z) L :
  (1 <= n <= 10)%Z ->
  dom (getSectionLocations n L ∅) = list_to_set (seqZ 0 n).
Proof.
  intros Hn.
  assert (Hcases : (n = 1 \/ n = 2 \/ n = 3 \/ n = 4 \/ n = 5 \/ n = 6
                    \/ n = 7 \/ n = 8 \/ n = 9 \/ n = 10)%Z) by lia.
  destruct Hcases as [->|[->|[->|[->|[->|[->|[->|[->|[->| ->]]]]]]]]];
    vm_compute; reflexivity.
Qed.

End RadauFacts.

(** C10 (code defect).  For numSections = 3, [getSectionWeights] writes
    0.7528061254 into cell 3, outside an output array of three cells, and
    never assigns cell 0, which is only halved by the final loop; the
    sibling [getSectionLocations] does assign cell 0.  On an array of three
    zeros the scaled weights in bounds sum to 0.6235969371, not to 1. *)
Theorem C10_getSectionWeights_three_sections (L : double)
    (wt : gmap Z double) :
  RadauBeamIntegration.getSectionWeights 3 L wt !! 3%Z
  = Some (dbl 0.7528061254)
  /\ RadauBeamIntegration.in_bounds 3 3 = false
  /\ RadauBeamIntegration.getSectionWeights 3 L wt !! 0%Z
     = (fun x => x * dbl 0.5) <$> wt !! 0%Z
  /\ RadauBeamIntegration.getSectionLocations 3 L wt !! 0%Z = Some 0
  /\ RadauBeamIntegration.sum_sections 3
       (RadauBeamIntegration.getSectionWeights 3 L Scenarios.three_cells)
     = Some (dbl 0.6235969371).
Proof.
  split; [|split; [|split; [|split]]].
  - unfold RadauBeamIntegration.getSectionWeights.
    rewrite for_each_section_lookup_outside by lia.
    apply lookup_insert_eq.
  - reflexivity.
  - unfold RadauBeamIntegration.getSectionWeights,
      RadauBeamIntegration.for_each_section. simpl.
    rewrite !lookup_alter_ne by lia. rewrite lookup_alter_eq.
    by rewrite !lookup_insert_ne by lia.
  - unfold RadauBeamIntegration.getSectionLocations,
      RadauBeamIntegration.for_each_section. simpl.
    rewrite !lookup_alter_ne by lia. rewrite lookup_alter_eq.
    rewrite !lookup_insert_ne by lia. rewrite lookup_insert_eq. simpl.
    f_equal; qc_eval.
  - vm_compute. f_equal; qc_eval.
Qed.

(** ** CrossSectionKR *)

Section CrossSectionFacts.
Import CrossSectionKR.

Lemma receive_after_send a b c d meta cp :
  receiveDoubles meta (sendDoubles a b c d meta cp).2
  = (0%Z, Some (a, b, c, d)).
Proof.
  unfold receiveDoubles, sendDoubles. simpl. by rewrite lookup_insert_eq.
Qed.

Lemma sendData_slots (s : t) cp :
  let r := rData s in
  let k := kData s in
  sendData s cp
  = (0%Z,
     <[4%nat := [k !!! 12%nat; k !!! 13%nat; k !!! 14%nat; k !!! 15%nat]]>
     (<[3%nat := [k !!! 8%nat; k !!! 9%nat; k !!! 10%nat; k !!! 11%nat]]>
     (<[2%nat := [k !!! 4%nat; k !!! 5%nat; k !!! 6%nat; k !!! 7%nat]]>
     (<[1%nat := [k !!! 0%nat; k !!! 1%nat; k !!! 2%nat; k !!! 3%nat]]>
     (<[0%nat := [r !!! 0%nat; r !!! 1%nat; r !!! 2%nat; r !!! 3%nat]]>
        cp))))).
Proof. reflexivity. Qed.

Lemma recvData_sendData (src dst : t) cp :
  well_sized src -> well_sized dst ->
  recvData dst (sendData src cp).2 = (0%Z, src).
Proof.
  intros [Hr Hk] [Hr' Hk']. rewrite sendData_slots.
  destruct src as [r k], dst as [r' k']; cbn [rData kData] in *.
  do 5 (destruct r as [|? r]; try discriminate).
  do 17 (destruct k as [|? k]; try discriminate).
  do 5 (destruct r' as [|? r']; try discriminate).
  do 17 (destruct k' as [|? k']; try discriminate).
  unfold recvData, receive_into, receiveDoubles. cbn [snd rData kData].
  rewrite (lookup_insert_ne _ 4%nat 0%nat), (lookup_insert_ne _ 3%nat 0%nat),
    (lookup_insert_ne _ 2%nat 0%nat), (lookup_insert_ne _ 1%nat 0%nat),
    lookup_insert_eq by done.
  rewrite (lookup_insert_ne _ 4%nat 1%nat), (lookup_insert_ne _ 3%nat 1%nat),
    (lookup_insert_ne _ 2%nat 1%nat), lookup_insert_eq by done.
  rewrite (lookup_insert_ne _ 4%nat 2%nat), (lookup_insert_ne _ 3%nat 2%nat),
    lookup_insert_eq by done.
  rewrite (lookup_insert_ne _ 4%nat 3%nat), lookup_insert_eq by done.
  rewrite lookup_insert_eq.
  reflexivity.
Qed.

(** Receiving from a communicator that was sent nothing fails and leaves
    the section as it is. *)
Lemma recvData_nothing_sent (dst : t) :
  recvData dst ∅ = ((-5)%Z, dst).
Proof. by destruct dst. Qed.

End CrossSectionFacts.

(** C9 (amended).  A CrossSectionKR sent with [sendData] / [sendSelf] and
    received with [recvData] / [recvSelf] into another instance has all 4
    entries of [rData] and all 16 entries of [kData] restored, with status
    0.  [EightNodeBrick_u_p_U::sendSelf] and [recvSelf] are not
    implemented: they return 0, send nothing and leave the receiving
    element as it is. *)
Theorem C9_section_round_trip_and_brick_stubs {Mat Comm : Type}
    (src dst : CrossSectionKR.t) (dataTag : Z)
    (cp : gmap nat (list double))
    (el other : EightNodeBrick_u_p_U.t Mat) (comm : Comm) :
  CrossSectionKR.well_sized src ->
  CrossSectionKR.well_sized dst ->
  CrossSectionKR.recvData dst (CrossSectionKR.sendData src cp).2 = (0%Z, src)
  /\ (CrossSectionKR.sendSelf src dataTag cp).1 = 0%Z
  /\ CrossSectionKR.recvSelf dst dataTag
       (CrossSectionKR.sendSelf src dataTag cp).2 = (0%Z, src)
  /\ EightNodeBrick_u_p_U.sendSelf el comm = (0%Z, comm)
  /\ EightNodeBrick_u_p_U.recvSelf other comm = (0%Z, other).
Proof.
  intros Hsrc Hdst.
  pose proof (recvData_sendData src dst cp Hsrc Hdst) as Hrt.
  repeat split; try exact Hrt.
  unfold CrossSectionKR.recvSelf, CrossSectionKR.sendSelf,
    CrossSectionKR.receiveIdData.
  rewrite sendData_slots in *. cbn [fst snd] in *.
  replace (bool_decide (0 < 0)%Z) with false by reflexivity.
  by rewrite Hrt.
Qed.

Lemma C9_round_trip_witness :
  CrossSectionKR.well_sized Scenarios.section_a
  /\ CrossSectionKR.well_sized Scenarios.section_0
  /\ CrossSectionKR.recvSelf Scenarios.section_0 7
       (CrossSectionKR.sendSelf Scenarios.section_a 7 ∅).2
     = (0%Z, Scenarios.section_a).
Proof.
  assert (Ha : CrossSectionKR.well_sized Scenarios.section_a)
    by (split; reflexivity).
  assert (H0 : CrossSectionKR.well_sized Scenarios.section_0)
    by (split; reflexivity).
  split; [exact Ha|]. split; [exact H0|].
  exact (proj1 (proj2 (proj2
    (C9_section_round_trip_and_brick_stubs Scenarios.section_a
       Scenarios.section_0 7 ∅ Scenarios.brick Scenarios.default_brick tt
       Ha H0)))).
Defined.

(** C9 as stated fails for the element: after [sendSelf] of a brick with
    porosity 0.4 and [recvSelf] into a default-constructed brick, the
    porosity, the solid density and the bulk moduli of the receiver are
    still those of the default constructor. *)
Lemma C9_brick_state_is_not_transferred :
  let comm :=
    (EightNodeBrick_u_p_U.sendSelf Scenarios.brick
       (∅ : gmap nat (list double))).2 in
  let received :=
    (EightNodeBrick_u_p_U.recvSelf Scenarios.default_brick comm).2 in
  comm = ∅
  /\ received = Scenarios.default_brick
  /\ EightNodeBrick_u_p_U.poro received
     <> EightNodeBrick_u_p_U.poro Scenarios.brick
  /\ EightNodeBrick_u_p_U.rho_s received
     <> EightNodeBrick_u_p_U.rho_s Scenarios.brick
  /\ EightNodeBrick_u_p_U.ks received
     <> EightNodeBrick_u_p_U.ks Scenarios.brick.
Proof.
  repeat split; simpl; qc_differ.
Qed.

(** ** RoundedMohrCoulomb01YieldSurface *)

Section YieldSurfaceFacts.
Import RoundedMohrCoulomb01YieldSurface.
Context `{Invariants}.

(** The yield function falls by as much as the second scalar variable [k]
    grows: [xi_s2] is its derivative in [k]. *)
Lemma f_shift_k (sigma : stresstensor) (alfa k d : double) :
  f (mkEPState sigma [alfa; k + d])
  = f (mkEPState sigma [alfa; k]) + xi_s2 (mkEPState sigma [alfa; k]) * d.
Proof.
  unfold f, xi_s2, getScalarVar.
  cbn -[Qcplus Qcmult Qcminus Qcdiv Qcinv Qcopp dbl].
  rewrite dbl_m1. unfold double, Qcdiv. ring.
Qed.

End YieldSurfaceFacts.

(** ** Constitutive model: commit, revert and admissibility *)

Section ConstitutiveFacts.
Import ConstitutiveModel.
Context {Tensor Tensor4 : Type} `{Law Tensor Tensor4}.
Implicit Types s t : IntegrationPointState Tensor Tensor4.

Lemma setTrialStrain_committed e s :
  let s' := (setTrialStrain e s).2 in
  committedStrain s' = committedStrain s
  /\ committedStress s' = committedStress s
  /\ committedInternalVars s' = committedInternalVars s
  /\ committedTangent s' = committedTangent s.
Proof.
  unfold setTrialStrain. destruct (violated _ _); [|done].
  destruct (returnMap _ _) as [[[? ?] ?]|]; done.
Qed.

(** Only [commitState] writes the committed values. *)
Lemma call_committed (c : Call Tensor) s :
  c <> CommitState ->
  let s' := (call c s).2 in
  committedStrain s' = committedStrain s
  /\ committedStress s' = committedStress s
  /\ committedInternalVars s' = committedInternalVars s
  /\ committedTangent s' = committedTangent s.
Proof.
  destruct c as [e| |]; intros Hc; [|done|done].
  apply setTrialStrain_committed.
Qed.

Lemma run_committed (calls : list (Call Tensor)) s :
  CommitState ∉ calls ->
  let s' := run calls s in
  committedStrain s' = committedStrain s
  /\ committedStress s' = committedStress s
  /\ committedInternalVars s' = committedInternalVars s
  /\ committedTangent s' = committedTangent s.
Proof.
  revert s. induction calls as [|c calls IH]; intros s Hnc; [done|].
  apply not_elem_of_cons in Hnc as [Hc Hnc]. simpl.
  destruct (IH (call c s).2 Hnc) as (-> & -> & -> & ->).
  by apply call_committed.
Qed.

Lemma setTrialStrain_elastic e s :
  elastic_at s e ->
  setTrialStrain e s
  = (0%Z, mkState (committedStrain s) (committedStress s)
                  (committedInternalVars s) e
                  (elasticStress e (committedInternalVars s))
                  (committedInternalVars s) elasticTangent
                  (committedTangent s)).
Proof. unfold elastic_at, setTrialStrain. by intros ->. Qed.

Lemma revert_stress_is_committed s :
  getStress (revertToLastCommit s).2 = committedStress s.
Proof. reflexivity. Qed.

Lemma revert_tangent_is_committed s :
  getTangent (revertToLastCommit s).2 = committedTangent s.
Proof. reflexivity. Qed.

(** A state whose trial values are the committed ones is not changed by a
    revert. *)
Lemma revert_after_commit_is_identity s :
  (revertToLastCommit (commitState s).2).2 = (commitState s).2.
Proof. reflexivity. Qed.

(** Whatever is tried and reverted after a commit, a revert gives back the
    state that the commit left. *)
Lemma revert_restores_commit (calls : list (Call Tensor)) t :
  CommitState ∉ calls ->
  (revertToLastCommit (run calls (commitState t).2)).2 = (commitState t).2.
Proof.
  intros Hnc. unfold revertToLastCommit. cbn [snd].
  by destruct (run_committed calls (commitState t).2 Hnc)
    as (-> & -> & -> & ->).
Qed.




End ConstitutiveFacts.




(** C6.  Calling [commitState] twice in a row leaves the whole state
    (committed and trial strain, stress and internal variables, tangent)
    after the second call identical to the state after the first, and both
    calls report success. *)
Theorem C6_commitState_idempotent {Tensor Tensor4 : Type}
    (s : ConstitutiveModel.IntegrationPointState Tensor Tensor4) :
  (ConstitutiveModel.commitState s).1 = 0%Z
  /\ (ConstitutiveModel.commitState (ConstitutiveModel.commitState s).2).1
     = 0%Z
  /\ (ConstitutiveModel.commitState (ConstitutiveModel.commitState s).2).2
     = (ConstitutiveModel.commitState s).2.
Proof.
  destruct s. unfold ConstitutiveModel.commitState. simpl.
  split; [reflexivity|]. split; reflexivity.
Qed.

(** C5.  For a trial strain [e] within the yield surface,
    [setTrialStrain e], [commitState], [revertToLastCommit] all succeed and
    the revert is a no-op after the commit: the state is the one the commit
    left, and [getStress] and [getTangent] return what they returned before
    the revert and right after the [setTrialStrain], the elastic stress of
    [e] and the elastic tangent.  More generally, after a [commitState] in
    any state [t] and any further [setTrialStrain] and
    [revertToLastCommit] calls, within the yield surface or beyond it,
    converged or not, a [revertToLastCommit] gives back the state that the
    commit left: [getStress] and [getTangent] return the last committed
    values, those they returned when [commitState] was called, not those of
    a discarded trial. *)
Theorem C5_revert_after_commit {Tensor Tensor4 : Type}
    `{ConstitutiveModel.Law Tensor Tensor4}
    (s t : ConstitutiveModel.IntegrationPointState Tensor Tensor4)
    (e : Tensor) (calls : list (ConstitutiveModel.Call Tensor)) :
  ConstitutiveModel.elastic_at s e ->
  ConstitutiveModel.CommitState ∉ calls ->
  let s1 := (ConstitutiveModel.setTrialStrain e s).2 in
  let s2 := (ConstitutiveModel.commitState s1).2 in
  let s3 := (ConstitutiveModel.revertToLastCommit s2).2 in
  let c := (ConstitutiveModel.commitState t).2 in
  let r :=
    (ConstitutiveModel.revertToLastCommit
       (ConstitutiveModel.run calls c)).2 in
  (ConstitutiveModel.setTrialStrain e s).1 = 0%Z
  /\ (ConstitutiveModel.commitState s1).1 = 0%Z
  /\ (ConstitutiveModel.revertToLastCommit s2).1 = 0%Z
  /\ s3 = s2
  /\ ConstitutiveModel.getStress s3 = ConstitutiveModel.getStress s2
  /\ ConstitutiveModel.getTangent s3 = ConstitutiveModel.getTangent s2
  /\ ConstitutiveModel.getStress s3 = ConstitutiveModel.getStress s1
  /\ ConstitutiveModel.getTangent s3 = ConstitutiveModel.getTangent s1
  /\ ConstitutiveModel.getStress s3
     = ConstitutiveModel.elasticStress e
         (ConstitutiveModel.committedInternalVars s)
  /\ ConstitutiveModel.getTangent s3 = ConstitutiveModel.elasticTangent
  /\ (ConstitutiveModel.revertToLastCommit
        (ConstitutiveModel.run calls c)).1 = 0%Z
  /\ r = c
  /\ ConstitutiveModel.getStress r = ConstitutiveModel.getStress t
  /\ ConstitutiveModel.getTangent r = ConstitutiveModel.getTangent t
  /\ ConstitutiveModel.getStress r
     = ConstitutiveModel.committedStress
         (ConstitutiveModel.run calls c)
  /\ ConstitutiveModel.getTangent r
     = ConstitutiveModel.committedTangent
         (ConstitutiveModel.run calls c).
Proof.
  intros He Hnc s1 s2 s3 c r. subst s1 s2 s3 r.
  rewrite (setTrialStrain_elastic e s He). cbn [fst snd].
  do 11 (split; [reflexivity|]).
  rewrite (revert_restores_commit calls t Hnc).
  split; [reflexivity|]. split; [reflexivity|]. split; [reflexivity|].
  subst c.
  destruct (run_committed calls (ConstitutiveModel.commitState t).2 Hnc)
    as (_ & -> & _ & ->).
  split; reflexivity.
Qed.

(** Witness of C5 for the uniaxial law.  The strain 0.005 is within the
    yield surface.  The state [t] holds a plastic trial (strain 0.02,
    stress 10, tangent 0); after its commit, an elastic trial (strain
    0.015, tangent 1000), a revert and a plastic trial in compression are
    all discarded by the last revert: the stress is 10 and the tangent 0
    again. *)
Lemma C5_revert_after_commit_witness :
  let law := ConstitutiveModel.uniaxial_law in
  let s := ConstitutiveModel.uniaxial_initial in
  let e := dbl 0.005 in
  let t := (ConstitutiveModel.setTrialStrain (H:=law) (dbl 0.02) s).2 in
  let calls :=
    [ConstitutiveModel.SetTrialStrain (dbl 0.015);
     ConstitutiveModel.RevertToLastCommit;
     ConstitutiveModel.SetTrialStrain (dbl (-0.03))] in
  let s2 :=
    (ConstitutiveModel.commitState
       (ConstitutiveModel.setTrialStrain (H:=law) e s).2).2 in
  let c := (ConstitutiveModel.commitState t).2 in
  let r :=
    (ConstitutiveModel.revertToLastCommit
       (ConstitutiveModel.run (H:=law) calls c)).2 in
  ConstitutiveModel.elastic_at (H:=law) s e
  /\ (ConstitutiveModel.CommitState ∉ calls)
  /\ (ConstitutiveModel.revertToLastCommit s2).2 = s2
  /\ ConstitutiveModel.getStress s2 = dbl 5
  /\ ConstitutiveModel.getTangent
       (ConstitutiveModel.setTrialStrain (H:=law) (dbl 0.015) c).2
     = ConstitutiveModel.uniaxial_E
  /\ r = c
  /\ ConstitutiveModel.getStress r = ConstitutiveModel.uniaxial_fy
  /\ ConstitutiveModel.getTangent r = 0.
Proof.
  intros law s e t calls s2 c r.
  assert (He : ConstitutiveModel.elastic_at (H:=law) s e) by reflexivity.
  assert (Hnc : ConstitutiveModel.CommitState ∉ calls).
  { subst calls. rewrite !not_elem_of_cons.
    split; [discriminate|]. split; [discriminate|]. split; [discriminate|].
    apply not_elem_of_nil. }
  destruct (C5_revert_after_commit (H:=law) s t e calls He Hnc)
    as (_ & _ & _ & Hrev & _ & _ & _ & _ & _ & _ & _ & Hr & Hs & Ht & _).
  split; [exact He|]. split; [exact Hnc|]. split; [exact Hrev|].
  split; [subst s2 e s law; qc_eval|]. split; [reflexivity|].
  split; [exact Hr|].
  split; [etrans; [exact Hs|reflexivity] | etrans; [exact Ht|reflexivity]].
Defined.

(** ** Assembly *)

Section AssemblerFacts.
Import Assembler.
Context {K : Type} `{Countable K}.

Lemma accumulate_comm (k1 k2 : K) (v1 v2 : double) (m : gmap K double) :
  accumulate k1 v1 (accumulate k2 v2 m)
  = accumulate k2 v2 (accumulate k1 v1 m).
Proof.
  unfold accumulate. destruct (decide (k1 = k2)) as [->|Hne].
  - rewrite !lookup_insert_eq, !insert_insert_eq. simpl. f_equal. ring.
  - rewrite (lookup_insert_ne _ k2 k1), (lookup_insert_ne _ k1 k2) by done.
    by apply insert_insert_ne.
Qed.

Lemma scatter_app (l1 l2 : list (K * double)) m :
  scatter (l1 ++ l2) m = scatter l2 (scatter l1 m).
Proof. apply foldl_app. Qed.

Lemma scatter_Permutation (l1 l2 : list (K * double)) :
  l1 ≡ₚ l2 -> forall m, scatter l1 m = scatter l2 m.
Proof.
  induction 1 as [|[k v] l1 l2 _ IH|[k1 v1] [k2 v2] l|l1 l2 l3 _ IH1 _ IH2];
    intros m; simpl.
  - done.
  - apply IH.
  - unfold scatter. simpl. by rewrite accumulate_comm.
  - by rewrite IH1.
Qed.

(** An entry of the accumulator after a scatter: what it held plus every
    value scattered to it. *)
Lemma scatter_lookup (entries : list (K * double)) (m : gmap K double)
    (k : K) :
  default 0 (scatter entries m !! k)
  = default 0 (m !! k)
    + sumOver (fun kv => if bool_decide (kv.1 = k) then kv.2 else 0) entries.
Proof.
  unfold scatter, sumOver. revert m.
  induction entries as [|[k' v] entries IH]; intros m.
  - cbn [foldl foldr]. unfold double; ring.
  - cbn [foldl foldr fst snd]. rewrite IH.
    unfold accumulate. destruct (decide (k' = k)) as [->|Hne].
    + rewrite lookup_insert_eq, bool_decide_eq_true_2 by done.
      cbn [default from_option]. unfold id, double. ring.
    + rewrite lookup_insert_ne, bool_decide_eq_false_2 by done.
      unfold double; ring.
Qed.

(** An entry to which nothing is scattered stays absent. *)
Lemma scatter_lookup_None (entries : list (K * double)) (m : gmap K double)
    (k : K) :
  m !! k = None -> Forall (fun kv => kv.1 <> k) entries ->
  scatter entries m !! k = None.
Proof.
  intros Hm Hall. revert m Hm.
  induction Hall as [|[k' v] entries Hk _ IH]; intros m Hm; [exact Hm|].
  cbn [scatter foldl]. apply IH. unfold accumulate.
  by rewrite lookup_insert_ne.
Qed.

End AssemblerFacts.

Section SumFacts.
Import Assembler.

Lemma sumOver_app {A : Type} (f : A -> double) (l1 l2 : list A) :
  sumOver f (l1 ++ l2) = sumOver f l1 + sumOver f l2.
Proof.
  unfold sumOver. induction l1 as [|a l1 IH]; cbn [foldr app].
  - unfold double; ring.
  - rewrite IH. unfold double; ring.
Qed.

Lemma sumOver_bind {A B : Type} (f : B -> double) (g : A -> list B)
    (l : list A) :
  sumOver f (l ≫= g) = sumOver (fun a => sumOver f (g a)) l.
Proof.
  induction l as [|a l IH]; [reflexivity|].
  rewrite bind_cons, sumOver_app, IH. reflexivity.
Qed.

Lemma sumOver_ext {A : Type} (f g : A -> double) (l : list A) :
  (forall a, f a = g a) -> sumOver f l = sumOver g l.
Proof.
  intros Hfg. unfold sumOver. induction l as [|a l IH]; [reflexivity|].
  cbn [foldr]. by rewrite Hfg, IH.
Qed.

End SumFacts.

Section AssemblyOrder.
Import Assembler.

Lemma foldl_addElement (l : list ElementContribution) (g : GlobalSystem) :
  foldl addElement g l
  = mkSystem (scatter (l ≫= activeTangentEntries) (tangent g))
             (scatter (l ≫= activeResidualEntries) (residual g)).
Proof.
  revert g. induction l as [|e l IH]; intros g.
  - by destruct g.
  - simpl. rewrite IH, !scatter_app.
    unfold addElement, activeTangentEntries, activeResidualEntries.
    by destruct (active e).
Qed.

(** What one element scatters to the entry [(r, c)] of the tangent. *)
Lemma tangentEntries_sum (e : ElementContribution) (r c : Z) :
  sumOver (fun kv : Z * Z * double =>
             if bool_decide (kv.1 = (r, c)) then kv.2 else 0)
          (tangentEntries e)
  = sumOver (fun i =>
      sumOver (fun j =>
        if bool_decide (equationNumbers e !!! i = r)
           && bool_decide (equationNumbers e !!! j = c)
           && validEquation r && validEquation c
        then mget (localTangent e) i j else 0)
        (seq 0 (length (equationNumbers e))))
      (seq 0 (length (equationNumbers e))).
Proof.
  unfold tangentEntries. rewrite sumOver_bind.
  apply sumOver_ext. intros i. rewrite sumOver_bind.
  apply sumOver_ext. intros j. cbv zeta.
  destruct (decide (equationNumbers e !!! i = r)) as [<-|Hr];
    [destruct (decide (equationNumbers e !!! j = c)) as [<-|Hc]|].
  - rewrite !bool_decide_eq_true_2 by done. cbn [andb].
    destruct (validEquation _ && validEquation _); cbn; [|reflexivity].
    rewrite bool_decide_eq_true_2 by done. cbn. unfold double; ring.
  - rewrite (bool_decide_eq_false_2 _ Hc), andb_false_r. cbn [andb].
    destruct (validEquation _ && validEquation _); cbn; [|reflexivity].
    rewrite bool_decide_eq_false_2 by congruence. unfold double; ring.
  - rewrite (bool_decide_eq_false_2 _ Hr). cbn [andb].
    destruct (validEquation _ && validEquation _); cbn; [|reflexivity].
    rewrite bool_decide_eq_false_2 by congruence. unfold double; ring.
Qed.

Lemma residualEntries_sum (e : ElementContribution) (r : Z) :
  sumOver (fun kv : Z * double => if bool_decide (kv.1 = r) then kv.2 else 0)
          (residualEntries e)
  = sumOver (fun i =>
      if bool_decide (equationNumbers e !!! i = r) && validEquation r
      then vget (localResidual e) i else 0)
      (seq 0 (length (equationNumbers e))).
Proof.
  unfold residualEntries. rewrite sumOver_bind.
  apply sumOver_ext. intros i. cbv zeta.
  destruct (decide (equationNumbers e !!! i = r)) as [<-|Hr].
  - rewrite bool_decide_eq_true_2 by done. cbn [andb].
    destruct (validEquation _); cbn; [|reflexivity].
    rewrite bool_decide_eq_true_2 by done. cbn. unfold double; ring.
  - rewrite (bool_decide_eq_false_2 _ Hr). cbn [andb].
    destruct (validEquation _); cbn; [|reflexivity].
    rewrite bool_decide_eq_false_2 by done. unfold double; ring.
Qed.

(** Every entry of the formed system is the sum of what the active
    elements contribute to it. *)
Lemma formSystem_tangent (l : list ElementContribution) (r c : Z) :
  default 0 (tangent (formSystem l) !! (r, c)) = summedTangent l r c.
Proof.
  unfold formSystem. rewrite foldl_addElement. cbn [tangent zeroSystem].
  rewrite scatter_lookup, lookup_empty, sumOver_bind. cbn [default].
  rewrite Qcplus_0_l. unfold summedTangent. apply sumOver_ext. intros e.
  unfold activeTangentEntries. destruct (active e); [|reflexivity].
  apply tangentEntries_sum.
Qed.

Lemma formSystem_residual (l : list ElementContribution) (r : Z) :
  default 0 (residual (formSystem l) !! r) = summedResidual l r.
Proof.
  unfold formSystem. rewrite foldl_addElement. cbn [residual zeroSystem].
  rewrite scatter_lookup, lookup_empty, sumOver_bind. cbn [default].
  rewrite Qcplus_0_l. unfold summedResidual. apply sumOver_ext. intros e.
  unfold activeResidualEntries. destruct (active e); [|reflexivity].
  apply residualEntries_sum.
Qed.

(** Only valid equation numbers get an entry. *)
Lemma tangentEntries_valid (e : ElementContribution) :
  Forall (fun kv : Z * Z * double =>
            (0 <= kv.1.1)%Z /\ (0 <= kv.1.2)%Z) (tangentEntries e).
Proof.
  apply Forall_forall. intros kv Hin. unfold tangentEntries in Hin.
  apply list_elem_of_bind in Hin as (i & Hin & _).
  apply list_elem_of_bind in Hin as (j & Hin & _).
  cbv zeta in Hin.
  destruct (validEquation (equationNumbers e !!! i)) eqn:Hi;
    [|by apply elem_of_nil in Hin].
  destruct (validEquation (equationNumbers e !!! j)) eqn:Hj;
    [|by apply elem_of_nil in Hin].
  cbn in Hin. apply list_elem_of_singleton in Hin as ->. cbn.
  unfold validEquation in Hi, Hj.
  apply bool_decide_eq_true in Hi, Hj. done.
Qed.

Lemma residualEntries_valid (e : ElementContribution) :
  Forall (fun kv : Z * double => (0 <= kv.1)%Z) (residualEntries e).
Proof.
  apply Forall_forall. intros kv Hin. unfold residualEntries in Hin.
  apply list_elem_of_bind in Hin as (i & Hin & _).
  cbv zeta in Hin.
  destruct (validEquation (equationNumbers e !!! i)) eqn:Hi;
    [|by apply elem_of_nil in Hin].
  apply list_elem_of_singleton in Hin as ->. cbn.
  unfold validEquation in Hi. by apply bool_decide_eq_true in Hi.
Qed.

Lemma formSystem_sentinel (l : list ElementContribution) :
  (forall r c, (r < 0 \/ c < 0)%Z -> tangent (formSystem l) !! (r, c) = None)
  /\ (forall r, (r < 0)%Z -> residual (formSystem l) !! r = None).
Proof.
  unfold formSystem. rewrite foldl_addElement. cbn [tangent residual zeroSystem].
  split.
  - intros r c Hrc. apply scatter_lookup_None; [apply lookup_empty|].
    apply Forall_forall. intros kv Hin.
    apply list_elem_of_bind in Hin as (e & Hin & _).
    unfold activeTangentEntries in Hin.
    destruct (active e); [|by apply elem_of_nil in Hin].
    pose proof (proj1 (Forall_forall _ _) (tangentEntries_valid e) kv Hin)
      as [H1 H2].
    destruct kv as [[r' c'] v]. cbn in H1, H2 |- *. intros [= -> ->]. lia.
  - intros r Hr. apply scatter_lookup_None; [apply lookup_empty|].
    apply Forall_forall. intros kv Hin.
    apply list_elem_of_bind in Hin as (e & Hin & _).
    unfold activeResidualEntries in Hin.
    destruct (active e); [|by apply elem_of_nil in Hin].
    pose proof (proj1 (Forall_forall _ _) (residualEntries_valid e) kv Hin)
      as H1.
    destruct kv as [r' v]. cbn in H1 |- *. intros ->. lia.
Qed.

(** Two elements that share equation 1: both contributions are in the
    sum. *)
Lemma shared_entry_is_summed :
  tangent (formSystem Scenarios.three_bars) !! (1%Z, 1%Z) = Some (dbl 5)
  /\ residual (formSystem Scenarios.three_bars) !! 1%Z = Some (dbl 1).
Proof. split; vm_compute; f_equal; qc_eval. Qed.

End AssemblyOrder.

(** C8.  For every list of elements and every permutation of it, forming
    the global tangent and residual by scatter-adding the contributions of
    the active elements, from the zero system, gives the same global
    system.  Every entry of it holds the sum of the contributions to it:
    the tangent entry [(r, c)] is the sum, over the active elements and
    their local row/column pairs with the valid equation numbers [r] and
    [c], of the local tangent values, the residual entry [r] the like sum
    of the local residual values; an entry with a sentinel for equation
    number does not exist. *)
Theorem C8_assembly_order_independent
    (l1 l2 : list Assembler.ElementContribution) :
  l1 ≡ₚ l2 ->
  Assembler.formSystem l1 = Assembler.formSystem l2
  /\ (forall r c : Z,
        default 0 (Assembler.tangent (Assembler.formSystem l1) !! (r, c))
        = Assembler.summedTangent l1 r c
        /\ default 0 (Assembler.tangent (Assembler.formSystem l2) !! (r, c))
           = Assembler.summedTangent l1 r c)
  /\ (forall r : Z,
        default 0 (Assembler.residual (Assembler.formSystem l1) !! r)
        = Assembler.summedResidual l1 r
        /\ default 0 (Assembler.residual (Assembler.formSystem l2) !! r)
           = Assembler.summedResidual l1 r)
  /\ (forall r c : Z, (r < 0 \/ c < 0)%Z ->
        Assembler.tangent (Assembler.formSystem l1) !! (r, c) = None)
  /\ (forall r : Z, (r < 0)%Z ->
        Assembler.residual (Assembler.formSystem l1) !! r = None).
Proof.
  intros Hp.
  assert (Heq : Assembler.formSystem l1 = Assembler.formSystem l2).
  { unfold Assembler.formSystem. rewrite !foldl_addElement. f_equal.
    - apply scatter_Permutation. by rewrite Hp.
    - apply scatter_Permutation. by rewrite Hp. }
  split; [exact Heq|]. rewrite <- Heq.
  split; [intros r c; split; apply formSystem_tangent|].
  split; [intros r; split; apply formSystem_residual|].
  apply formSystem_sentinel.
Qed.

(** Witness of C8 on three bars in a row, the first node constrained.  The
    entry (1, 1), shared by the second and the third bar, holds 2 + 3, the
    entry (0, 0) holds 1 + 2, the residual entry 1 holds -2 + 3; the
    constrained node has no entry. *)
Lemma C8_assembly_witness :
  Scenarios.three_bars ≡ₚ Scenarios.three_bars_permuted
  /\ Assembler.formSystem Scenarios.three_bars
     = Assembler.formSystem Scenarios.three_bars_permuted
  /\ default 0 (Assembler.tangent
                  (Assembler.formSystem Scenarios.three_bars_permuted)
                !! (1%Z, 1%Z))
     = Assembler.summedTangent Scenarios.three_bars 1 1
  /\ Assembler.summedTangent Scenarios.three_bars 1 1 = dbl 2 + dbl 3
  /\ Assembler.summedTangent Scenarios.three_bars 0 0 = dbl 1 + dbl 2
  /\ Assembler.summedResidual Scenarios.three_bars 1 = - dbl 2 + dbl 3
  /\ Assembler.tangent (Assembler.formSystem Scenarios.three_bars)
     !! ((-1)%Z, 0%Z) = None.
Proof.
  assert (Hp : Scenarios.three_bars ≡ₚ Scenarios.three_bars_permuted).
  { unfold Scenarios.three_bars, Scenarios.three_bars_permuted.
    etrans; [apply perm_skip, perm_swap|]. apply perm_swap. }
  destruct (C8_assembly_order_independent _ _ Hp)
    as (Heq & Ht & _ & Hs & _).
  split; [exact Hp|]. split; [exact Heq|].
  split; [exact (proj2 (Ht 1%Z 1%Z))|].
  split; [qc_eval|]. split; [qc_eval|]. split; [qc_eval|].
  apply Hs. left. lia.
Defined.

(** ** EightNodeBrick_u_p_U *)

Section BrickFacts.
Import BJtensor EightNodeBrick_u_p_U.
Context {Mat : Type} `{NDMaterial Mat} `{Inhabited Mat} `{Ops}.

Lemma update_returns_zero (el : t Mat) : (update el).1.1 = 0%Z.
Proof. unfold update. by destruct (gauss_loop _ _). Qed.

(** The only lines [update] writes to [std::cerr] are the non-convergence
    lines. *)
Lemma update_cerr (el : t Mat) :
  Forall (fun line => line = not_converged (getTag el)) (update el).2.
Proof.
  unfold update.
  set (body := fun (GP_c_r GP_c_s GP_c_t : nat)
                   (acc : t Mat * list string) => _).
  assert (Hinv : let acc := gauss_loop body (el, []) in
            getTag acc.1 = getTag el
            /\ Forall (fun line => line = not_converged (getTag el)) acc.2).
  { unfold gauss_loop.
    repeat first
      [ progress intros
      | apply (for_invariant (fun acc : t Mat * list string =>
                 getTag acc.1 = getTag el
                 /\ Forall (fun line => line = not_converged (getTag el))
                           acc.2))
      | by split ].
    all: try assumption.
    match goal with
    | s : (t Mat * list string)%type |- _ => destruct s as [el' cerr]
    end.
    match goal with
    | Hs : _ /\ _ |- _ => destruct Hs as [Htag Hcerr]
    end.
    simpl in Htag, Hcerr. subst body. cbv beta iota zeta.
    match goal with
    | |- context [setTrialStrain ?m ?e] =>
        destruct (setTrialStrain m e) as [status m']
    end.
    destruct (bool_decide _); simpl; (split; [done|]); [|done].
    apply Forall_app. split; [done|]. repeat constructor. by rewrite Htag. }
  destruct (gauss_loop body (el, [])) as [el' cerr]. apply Hinv.
Qed.

Lemma getStiffnessTensorP_exit (el : t Mat) :
  is_exit (getStiffnessTensorP el)
  = bool_decide (ks el = 0) || bool_decide (kf el = 0).
Proof. unfold getStiffnessTensorP. by destruct (_ || _). Qed.

(** [getStiff(1)] either stops on a zero bulk modulus or returns the
    static [K], rewritten in place. *)
Lemma getStiff_1 (el : t Mat) (st : statics) :
  (exists c msg,
     getStiff 1 el st = Exits c msg
     /\ bool_decide (ks el = 0) || bool_decide (kf el = 0) = true)
  \/ (exists Kt,
        getStiff 1 el st = Returns (Kt, el, set_K st Kt)
        /\ length Kt = length (K st)
        /\ bool_decide (ks el = 0) || bool_decide (kf el = 0) = false).
Proof.
  unfold getStiff.
  replace (bool_decide (1%Z <> 0%Z) && bool_decide (1%Z <> 1%Z)) with false
    by reflexivity.
  replace (bool_decide (1%Z = 0%Z)) with false by reflexivity.
  replace (bool_decide (1%Z = 1%Z)) with true by reflexivity.
  pose proof (getStiffnessTensorP_exit el) as HP.
  destruct (getStiffnessTensorP el) as [tP|c msg]; simpl in HP.
  - right. eexists. split; [reflexivity|]. split; [|done].
    repeat first
      [ progress intros
      | apply (for_invariant (fun k : Matrix => length k = length (K st)))
      | rewrite !length_mset; assumption
      | assumption
      | reflexivity ].
  - left. by exists c, msg.
Qed.

Lemma getStiff_1_exit (el : t Mat) (st : statics) :
  is_exit (getStiff 1 el st)
  = bool_decide (ks el = 0) || bool_decide (kf el = 0).
Proof.
  destruct (getStiff_1 el st) as [(c & msg & -> & ->)|(Kt & -> & _ & ->)];
    reflexivity.
Qed.

Lemma getDamp_exit (el : t Mat) (st : statics) :
  is_exit (getDamp el st)
  = bool_decide (perm st 1%nat 1%nat = 0)
    || bool_decide (perm st 2%nat 2%nat = 0)
    || bool_decide (perm st 3%nat 3%nat = 0).
Proof. unfold getDamp, getDampTensorC123. by destruct (_ || _ || _). Qed.

(** The loop over the nodes gathers their trial displacements. *)
Lemma gather_disp_returns (el : t Mat) :
  length (theNodes el) = Num_Nodes ->
  Forall (fun n => length (getTrialDisp n) = Num_Dof) (theNodes el) ->
  gather_disp el = Returns (nodal_disp el).
Proof.
  unfold gather_disp, nodal_disp. generalize (theNodes el) as nodes.
  intros nodes Hlen Hdisp.
  do 9 (destruct nodes as [|[? ?] nodes]; try discriminate).
  repeat match goal with
         | Hd : Forall _ (_ :: _) |- _ =>
             apply Forall_cons in Hd; destruct Hd as [? Hd]
         end.
  simpl in *.
  repeat match goal with
         | Hl : length ?d = Num_Dof |- _ =>
             do 8 (destruct d as [|? d]; try discriminate Hl); clear Hl
         end.
  reflexivity.
Qed.

(** [getResistingForce] in terms of the matrix that [getStiff(1)] leaves
    in the static [K]. *)
Lemma getResistingForce_eq (el : t Mat) (st : statics) (Kt : Matrix) :
  length (theNodes el) = Num_Nodes ->
  Forall (fun n => length (getTrialDisp n) = Num_Dof) (theNodes el) ->
  getStiff 1 el st = Returns (Kt, el, set_K st Kt) ->
  length (P st) = length Kt ->
  let p := expected_force Kt (nodal_disp el) el in
  let p := if isDead el then vscale (dead_srf st) p else p in
  getResistingForce el st = Returns (p, el, set_P (set_K st Kt) p).
Proof.
  intros Hn Hd HK HP. unfold getResistingForce, getTangentStiff.
  rewrite (gather_disp_returns el Hn Hd), HK.
  cbn [mbind outcome_bind K dead_srf set_K].
  unfold addMatrixVector, Zero.
  rewrite addVector_from_zero by (by rewrite length_mat_vec).
  unfold expected_force.
  destruct (bool_decide (load el <> [])), (eleQ el), (isDead el);
    by rewrite ?addVector_minus.
Qed.

(** At equilibrium with the linearised stiffness the force vanishes. *)
Lemma expected_force_at_equilibrium (Kt : Matrix) (u : Vector) (el : t Mat) :
  load el <> [] -> eleQ el = None -> mat_vec Kt u = load el ->
  expected_force Kt u el = (fun _ => 0) <$> load el.
Proof.
  intros Hload HQ Heq. unfold expected_force.
  rewrite HQ, Heq, bool_decide_eq_true_2 by done. apply vsub_self.
Qed.

(** The six values stored for each Gauss point. *)
Lemma stresses_vector_eq (el : t Mat) :
  stresses_vector el
  = i ← seq 0 Num_TotalGaussPts;
    let sigma := getStressTensor (physicalProperties el !!! i) in
    [sigma 1 1; sigma 2 2; sigma 3 3; sigma 2 3; sigma 3 1; sigma 2 3]%nat.
Proof. reflexivity. Qed.

End BrickFacts.

Section BrickExamples.
Import BJtensor EightNodeBrick_u_p_U Scenarios.
#[local] Existing Instance cofactor_ops.

(** On the bi-unit cube the Jacobian is the identity. *)
Example cube_jacobian :
  det_of_Jacobian brick 0 0 0 = 1
  /\ weight brick 1 0 1 = 1
  /\ Jacobian_3D brick (shapeFunctionDerivative (pt 0) (pt 1) (pt 0))
       1%nat 1%nat = 1
  /\ Jacobian_3D brick (shapeFunctionDerivative (pt 0) (pt 1) (pt 0))
       1%nat 2%nat = 0.
Proof. repeat split; qc_eval. Qed.

(** The self weight of the solid phase, lumped to the eight nodes. *)
Example cube_self_weight :
  vget (getExForceS brick) 2 = dbl (-11.772)
  /\ vget (getExForceS brick) 0 = 0.
Proof. split; qc_eval. Qed.

End BrickExamples.

(** C1 (code defect).  [update] returns 0 for every element, whatever the
    constitutive updates report.  On the brick whose eight materials never
    converge, every [setTrialStrain] reports -1, [update] writes the eight
    non-convergence lines to [std::cerr] and still returns 0. *)
Theorem C1_update_returns_zero_on_failure :
  (forall (Mat : Type) `{NDMaterial Mat} `{Inhabited Mat} `{BJtensor.Ops}
          (el : EightNodeBrick_u_p_U.t Mat),
     (EightNodeBrick_u_p_U.update el).1.1 = 0%Z)
  /\ Forall (fun m => (setTrialStrain m BJtensor.zero2).1 = (-1)%Z)
            (EightNodeBrick_u_p_U.physicalProperties
               Scenarios.diverging_brick)
  /\ (forall `{BJtensor.Ops},
        EightNodeBrick_u_p_U.update Scenarios.diverging_brick
        = (0%Z, Scenarios.diverging_brick,
           replicate 8 (EightNodeBrick_u_p_U.not_converged 1))).
Proof.
  split; [|split].
  - intros Mat HM HI HO el. apply update_returns_zero.
  - repeat constructor.
  - intros ops. vm_compute. reflexivity.
Qed.

(** C3 (code defect).  For responseID 5, [getResponse] stores for each of
    the 8 Gauss points the components (1,1), (2,2), (3,3), (2,3), (3,1)
    and again (2,3) of the stress tensor: the sixth value repeats the
    fourth (yz) and is not the xy component (1,2).  On the brick whose
    stress has xy = 4, yz = 5, zx = 6 each group of six is
    1, 2, 3, 5, 6, 5. *)
Theorem C3_sixth_stress_repeats_yz :
  (forall (Mat : Type) `{NDMaterial Mat} `{Inhabited Mat}
          (el : EightNodeBrick_u_p_U.t Mat),
     EightNodeBrick_u_p_U.stresses_vector el
     = i ← seq 0 EightNodeBrick_u_p_U.Num_TotalGaussPts;
       let sigma :=
         getStressTensor
           (EightNodeBrick_u_p_U.physicalProperties el !!! i) in
       [sigma 1 1; sigma 2 2; sigma 3 3; sigma 2 3; sigma 3 1;
        sigma 2 3]%nat)
  /\ EightNodeBrick_u_p_U.setResponse (fun _ => 0%Z) ["stresses"]
       Scenarios.brick Scenarios.statics0
     = Some (EightNodeBrick_u_p_U.ElementResponse 5
               (EightNodeBrick_u_p_U.Info_Vector (Vector_zero 48)))
  /\ getStressTensor Scenarios.converging 1%nat 2%nat = dbl 4
  /\ getStressTensor Scenarios.converging 2%nat 3%nat = dbl 5
  /\ (forall `{BJtensor.Ops},
        EightNodeBrick_u_p_U.getResponse 5 EightNodeBrick_u_p_U.Info_none
          Scenarios.brick Scenarios.statics0
        = Returns (0%Z,
                   EightNodeBrick_u_p_U.Info_Vector
                     (_ ← seq 0 8; dbl <$> [1; 2; 3; 5; 6; 5]%Q),
                   Scenarios.brick, Scenarios.statics0)).
Proof.
  split; [|split; [|split; [|split]]].
  - intros Mat HM HI el. apply stresses_vector_eq.
  - reflexivity.
  - reflexivity.
  - reflexivity.
  - intros ops. vm_compute. reflexivity.
Qed.

(** C2 (amended).  The element does not look at the sign of the Jacobian
    determinant.  [Jacobian_3Dinv] inverts the Jacobian as it is, the
    quadrature weight is [rw * sw * tw * det] whatever the determinant,
    [getStiff(1)] stops if and only if a bulk modulus is zero, [getDamp] if
    and only if a permeability is zero, and [update] writes nothing but
    non-convergence lines: no geometry error is reported. *)
Theorem C2_jacobian_determinant_not_checked {Mat : Type} `{NDMaterial Mat}
    `{Inhabited Mat} `{BJtensor.Ops} (el : EightNodeBrick_u_p_U.t Mat)
    (st : EightNodeBrick_u_p_U.statics) (GP_c_r GP_c_s GP_c_t : nat) :
  let dh :=
    EightNodeBrick_u_p_U.shapeFunctionDerivative
      (EightNodeBrick_u_p_U.pt GP_c_r) (EightNodeBrick_u_p_U.pt GP_c_s)
      (EightNodeBrick_u_p_U.pt GP_c_t) in
  EightNodeBrick_u_p_U.Jacobian_3Dinv el dh
  = BJtensor.inverse (EightNodeBrick_u_p_U.Jacobian_3D el dh)
  /\ EightNodeBrick_u_p_U.weight el GP_c_r GP_c_s GP_c_t
     = EightNodeBrick_u_p_U.wt GP_c_r * EightNodeBrick_u_p_U.wt GP_c_s
       * EightNodeBrick_u_p_U.wt GP_c_t
       * BJtensor.determinant (EightNodeBrick_u_p_U.Jacobian_3D el dh)
  /\ is_exit (EightNodeBrick_u_p_U.getStiff 1 el st)
     = bool_decide (EightNodeBrick_u_p_U.ks el = 0)
       || bool_decide (EightNodeBrick_u_p_U.kf el = 0)
  /\ is_exit (EightNodeBrick_u_p_U.getDamp el st)
     = bool_decide (EightNodeBrick_u_p_U.perm st 1%nat 1%nat = 0)
       || bool_decide (EightNodeBrick_u_p_U.perm st 2%nat 2%nat = 0)
       || bool_decide (EightNodeBrick_u_p_U.perm st 3%nat 3%nat = 0)
  /\ Forall (fun line =>
               line = EightNodeBrick_u_p_U.not_converged
                        (EightNodeBrick_u_p_U.getTag el))
            (EightNodeBrick_u_p_U.update el).2.
Proof.
  split; [reflexivity|]. split; [reflexivity|]. split; [|split].
  - apply getStiff_1_exit.
  - apply getDamp_exit.
  - apply update_cerr.
Qed.

(** C2 as stated fails: on the cube mirrored in x the Jacobian determinant
    is -1 at the first Gauss point, the quadrature weight there is -1, the
    integrated mass tensor has a negative diagonal entry, [getStiff(1)]
    returns and [update] returns 0 without a line on [std::cerr]. *)
Lemma C2_mirrored_brick_is_not_reported :
  let ops := BJtensor.cofactor_ops in
  EightNodeBrick_u_p_U.det_of_Jacobian Scenarios.mirrored_brick 0 0 0 = - (1)
  /\ EightNodeBrick_u_p_U.det_of_Jacobian Scenarios.mirrored_brick 0 0 0 <= 0
  /\ EightNodeBrick_u_p_U.weight Scenarios.mirrored_brick 0 0 0 = - (1)
  /\ EightNodeBrick_u_p_U.getMassTensorMsf Scenarios.mirrored_brick
       1%nat 1%nat < 0
  /\ is_exit (EightNodeBrick_u_p_U.getStiff 1 Scenarios.mirrored_brick
                Scenarios.statics0) = false
  /\ EightNodeBrick_u_p_U.update Scenarios.mirrored_brick
     = (0%Z, Scenarios.mirrored_brick, []).
Proof.
  intros ops.
  assert (Hdet : EightNodeBrick_u_p_U.det_of_Jacobian
                   Scenarios.mirrored_brick 0 0 0 = - (1)) by qc_eval.
  split; [exact Hdet|]. split; [by rewrite Hdet|]. split; [qc_eval|].
  split; [vm_compute; reflexivity|].
  split; [by rewrite getStiff_1_exit|]. vm_compute. reflexivity.
Qed.

(** C7 (amended).  For an element whose eight nodes carry [Num_Dof] trial
    displacements each and whose bulk moduli are not zero, [getStiff(1)]
    leaves a matrix [Kt] in the static [K].  When the element is not dead,
    [getTangentStiff] returns [Kt] and [getResistingForce] returns [Kt * u]
    minus the load vector (when there is one) minus [eleQ] (when there is
    one), with [u] the trial displacements of the nodes.  When the element
    is dead, both the matrix and that force vector are multiplied by
    [dead_srf]. *)
Theorem C7_resisting_force {Mat : Type} `{NDMaterial Mat}
    `{Inhabited Mat} `{BJtensor.Ops} (el : EightNodeBrick_u_p_U.t Mat)
    (st : EightNodeBrick_u_p_U.statics) :
  EightNodeBrick_u_p_U.ks el <> 0 ->
  EightNodeBrick_u_p_U.kf el <> 0 ->
  length (EightNodeBrick_u_p_U.theNodes el) = EightNodeBrick_u_p_U.Num_Nodes ->
  Forall (fun n => length (getTrialDisp n) = EightNodeBrick_u_p_U.Num_Dof)
         (EightNodeBrick_u_p_U.theNodes el) ->
  length (EightNodeBrick_u_p_U.P st) = EightNodeBrick_u_p_U.Num_ElemDof ->
  length (EightNodeBrick_u_p_U.K st) = EightNodeBrick_u_p_U.Num_ElemDof ->
  exists Kt,
    let st' := EightNodeBrick_u_p_U.set_K st Kt in
    let p :=
      EightNodeBrick_u_p_U.expected_force Kt
        (EightNodeBrick_u_p_U.nodal_disp el) el in
    let scaled_p :=
      vscale (EightNodeBrick_u_p_U.dead_srf st) p in
    EightNodeBrick_u_p_U.getStiff 1 el st = Returns (Kt, el, st')
    /\ EightNodeBrick_u_p_U.getTangentStiff el st
       = Returns (if EightNodeBrick_u_p_U.isDead el
                  then mscale (EightNodeBrick_u_p_U.dead_srf st) Kt else Kt,
                  el, st')
    /\ EightNodeBrick_u_p_U.getResistingForce el st
       = Returns (if EightNodeBrick_u_p_U.isDead el then scaled_p else p,
                  el,
                  EightNodeBrick_u_p_U.set_P st'
                    (if EightNodeBrick_u_p_U.isDead el then scaled_p else p)).
Proof.
  intros Hks Hkf Hn Hd HP HK.
  destruct (getStiff_1 el st) as [(c & msg & _ & Hz)|(Kt & HKt & Hlen & _)].
  { apply orb_true_iff in Hz as [Hz|Hz]; apply bool_decide_eq_true in Hz;
      done. }
  exists Kt. split; [exact HKt|]. split.
  - unfold EightNodeBrick_u_p_U.getTangentStiff. rewrite HKt. reflexivity.
  - apply (getResistingForce_eq el st Kt Hn Hd HKt). congruence.
Qed.

Lemma C7_resisting_force_witness :
  let ops := BJtensor.cofactor_ops in
  let el := Scenarios.loaded_brick in
  let st := Scenarios.statics0 in
  exists Kt,
    EightNodeBrick_u_p_U.getTangentStiff el st
    = Returns (Kt, el, EightNodeBrick_u_p_U.set_K st Kt)
    /\ EightNodeBrick_u_p_U.getResistingForce el st
       = Returns
           (EightNodeBrick_u_p_U.expected_force Kt
              (EightNodeBrick_u_p_U.nodal_disp el) el,
            el,
            EightNodeBrick_u_p_U.set_P
              (EightNodeBrick_u_p_U.set_K st Kt)
              (EightNodeBrick_u_p_U.expected_force Kt
                 (EightNodeBrick_u_p_U.nodal_disp el) el)).
Proof.
  intros ops el st.
  assert (Hks : EightNodeBrick_u_p_U.ks Scenarios.loaded_brick <> 0)
    by (simpl; qc_differ).
  assert (Hkf : EightNodeBrick_u_p_U.kf Scenarios.loaded_brick <> 0)
    by (simpl; qc_differ).
  assert (Hd : Forall (fun n => length (getTrialDisp n)
                                = EightNodeBrick_u_p_U.Num_Dof)
                      (EightNodeBrick_u_p_U.theNodes Scenarios.loaded_brick))
    by (repeat constructor).
  destruct (C7_resisting_force Scenarios.loaded_brick Scenarios.statics0
              Hks Hkf eq_refl Hd eq_refl eq_refl)
    as (Kt & _ & HT & HF).
  exists Kt. split; [exact HT | exact HF].
Defined.

(** C7 as stated fails for a dead element: on the dead brick with zero
    trial displacements and a unit load on its first degree of freedom,
    [Kt * u] minus the load has -1 as its first entry, while
    [getResistingForce] returns that vector multiplied by [dead_srf], here
    -0.000001. *)
Lemma C7_dead_element_force_is_scaled :
  let ops := BJtensor.cofactor_ops in
  exists Kt st' p,
    EightNodeBrick_u_p_U.getTangentStiff Scenarios.dead_brick
      Scenarios.statics0
    = Returns (Kt, Scenarios.dead_brick, st')
    /\ EightNodeBrick_u_p_U.getResistingForce Scenarios.dead_brick
         Scenarios.statics0
       = Returns (p, Scenarios.dead_brick, EightNodeBrick_u_p_U.set_P st' p)
    /\ EightNodeBrick_u_p_U.expected_force Kt
         (EightNodeBrick_u_p_U.nodal_disp Scenarios.dead_brick)
         Scenarios.dead_brick !! 0%nat
       = Some (dbl (-1))
    /\ p !! 0%nat = Some (dbl (-0.000001))
    /\ p <> EightNodeBrick_u_p_U.expected_force Kt
              (EightNodeBrick_u_p_U.nodal_disp Scenarios.dead_brick)
              Scenarios.dead_brick.
Proof.
  intros ops.
  destruct (getStiff_1 Scenarios.dead_brick Scenarios.statics0)
    as [(c & msg & _ & Hz)|(Kt & HKt & Hlen & _)]; [discriminate Hz|].
  exists (mscale (EightNodeBrick_u_p_U.dead_srf Scenarios.statics0) Kt),
    (EightNodeBrick_u_p_U.set_K Scenarios.statics0 Kt).
  eexists. split; [|split].
  - unfold EightNodeBrick_u_p_U.getTangentStiff. rewrite HKt. reflexivity.
  - apply (getResistingForce_eq Scenarios.dead_brick Scenarios.statics0 Kt).
    + reflexivity.
    + repeat constructor.
    + exact HKt.
    + rewrite Hlen. reflexivity.
  - assert (Hu : EightNodeBrick_u_p_U.nodal_disp Scenarios.dead_brick
                 = replicate 56 0) by reflexivity.
    assert (HlenK : length Kt = 56%nat) by (rewrite Hlen; reflexivity).
    rewrite Hu. unfold EightNodeBrick_u_p_U.expected_force.
    rewrite !mat_vec_zero, length_mscale, HlenK.
    cbn -[Qcminus Qcmult dbl Q2Qc].
    split; [f_equal; qc_eval|]. split; [f_equal; qc_eval|].
    intros Heq.
    apply (f_equal (fun v : Vector => this (v !!! 0%nat))) in Heq.
    vm_compute in Heq. discriminate.
Qed.

(** * Further properties of the code *)

(** ** Lists, vectors and matrices *)

Section ListFacts.

Lemma eight_of {A : Type} (l : list A) :
  length l = 8%nat ->
  exists a1 a2 a3 a4 a5 a6 a7 a8, l = [a1; a2; a3; a4; a5; a6; a7; a8].
Proof.
  intros Hlen.
  do 9 (destruct l as [|? l]; try discriminate). by repeat eexists.
Qed.

Lemma vget_vadd (x c : Vector) (j : nat) :
  (j < length x)%nat -> (j < length c)%nat ->
  vget (vadd x c) j = vget x j + vget c j.
Proof.
  intros Hx Hc. unfold vget, vadd, Vector, double in *.
  destruct (lookup_lt_is_Some_2 x j Hx) as [a Ha].
  destruct (lookup_lt_is_Some_2 c j Hc) as [b Hb].
  rewrite !list_lookup_total_alt, lookup_zip_with, Ha, Hb. reflexivity.
Qed.

Lemma vget_vscale (f : double) (v : Vector) (j : nat) :
  (j < length v)%nat -> vget (vscale f v) j = vget v j * f.
Proof.
  intros Hj. unfold vget, vscale, Vector, double in *.
  destruct (lookup_lt_is_Some_2 v j Hj) as [a Ha].
  rewrite !list_lookup_total_alt, list_lookup_fmap, Ha. reflexivity.
Qed.

Lemma vget_fmap_seq (f : nat -> double) (n k : nat) :
  (k < n)%nat -> vget (f <$> seq 0 n) k = f k.
Proof.
  intros Hk. unfold vget. apply list_lookup_total_correct.
  rewrite list_lookup_fmap, lookup_seq_lt by done. done.
Qed.

Lemma mget_Matrix_of rows cols f r c :
  (r < rows)%nat -> (c < cols)%nat -> mget (Matrix_of rows cols f) r c = f r c.
Proof.
  intros Hr Hc. unfold mget.
  assert (Hrow : Matrix_of rows cols f !! r
                 = Some ((fun c => f r c) <$> seq 0 cols)).
  { unfold Matrix_of, Matrix.
    rewrite list_lookup_fmap, lookup_seq_lt by done. done. }
  rewrite (list_lookup_total_correct _ _ _ Hrow).
  apply list_lookup_total_correct.
  rewrite list_lookup_fmap, lookup_seq_lt by done. done.
Qed.

Lemma Matrix_of_mget rows cols (m : Matrix) :
  has_dims rows cols m -> m = Matrix_of rows cols (mget m).
Proof.
  intros [Hlen Hrows]. unfold Matrix_of, Matrix in *.
  apply list_eq. intros r. rewrite list_lookup_fmap.
  destruct (decide (r < rows)%nat) as [Hr|Hr].
  - rewrite lookup_seq_lt by done. simpl.
    destruct (m !! r) as [row|] eqn:Hrow.
    2:{ apply lookup_ge_None in Hrow. lia. }
    f_equal. apply list_eq. intros c. rewrite list_lookup_fmap.
    assert (Hlr : length row = cols).
    { rewrite Forall_lookup in Hrows. by apply (Hrows r). }
    destruct (decide (c < cols)%nat) as [Hc|Hc].
    + rewrite lookup_seq_lt by done. simpl. unfold mget.
      rewrite (list_lookup_total_correct m r row Hrow).
      destruct (row !! c) as [x|] eqn:Hx.
      * by rewrite (list_lookup_total_correct row c x Hx).
      * apply lookup_ge_None in Hx. lia.
    + rewrite lookup_seq_ge by lia. simpl. apply lookup_ge_None. lia.
  - rewrite lookup_seq_ge by lia. simpl. apply lookup_ge_None. lia.
Qed.

Lemma mscale_Matrix_of rows cols f x :
  mscale x (Matrix_of rows cols f) = Matrix_of rows cols (fun r c => f r c * x).
Proof.
  unfold mscale, vscale, Matrix_of, Matrix.
  rewrite <- list_fmap_compose. apply list_fmap_ext. intros _ r _. simpl.
  rewrite <- list_fmap_compose. reflexivity.
Qed.

Lemma zero_dims (m : Matrix) rows cols :
  has_dims rows cols m ->
  (fun row : list double => (fun _ : double => 0) <$> row) <$> m
  = Matrix_zero rows cols.
Proof.
  intros [<- Hrows]. unfold Matrix_zero.
  induction Hrows as [|row m Hrow _ IH]; [done|].
  simpl. f_equal; [|exact IH]. rewrite <- Hrow. clear.
  induction row; [done|]. simpl. by f_equal.
Qed.

Lemma has_dims_Matrix_zero (rows cols : nat) :
  has_dims rows cols (Matrix_zero rows cols).
Proof.
  unfold has_dims, Matrix_zero. split.
  - apply length_replicate.
  - apply Forall_replicate, length_replicate.
Qed.

Lemma divmod7 (i m : nat) :
  (m < 7)%nat -> ((i * 7 + m) / 7 = i /\ (i * 7 + m) mod 7 = m)%nat.
Proof.
  intros Hm. split.
  - rewrite Nat.div_add_l by lia. rewrite Nat.div_small by lia. lia.
  - rewrite Nat.add_comm, Nat.Div0.mod_add. apply Nat.mod_small. lia.
Qed.

Lemma div7 (i m : nat) : (m < 7)%nat -> ((i * 7 + m) / 7)%nat = i.
Proof. intros Hm. apply (divmod7 i m Hm). Qed.

Lemma mod7 (i m : nat) : (m < 7)%nat -> ((i * 7 + m) mod 7)%nat = m.
Proof. intros Hm. apply (divmod7 i m Hm). Qed.

Lemma div7_4 (i m : nat) : (m < 3)%nat -> ((i * 7 + m + 4) / 7)%nat = i.
Proof.
  intros Hm. replace (i * 7 + m + 4)%nat with (i * 7 + (m + 4))%nat by lia.
  apply div7. lia.
Qed.

Lemma mod7_4 (i m : nat) :
  (m < 3)%nat -> ((i * 7 + m + 4) mod 7)%nat = (m + 4)%nat.
Proof.
  intros Hm. replace (i * 7 + m + 4)%nat with (i * 7 + (m + 4))%nat by lia.
  apply mod7. lia.
Qed.

Lemma if_pair_app {A B : Type} (b : bool) (x : A) (c : list B) (y : B) :
  (if b then (x, c ++ [y]) else (x, c)) = (x, c ++ (if b then [y] else [])).
Proof. destruct b; by rewrite ?app_nil_r. Qed.

End ListFacts.

(** Index arithmetic of the 7 degrees of freedom per node. *)
Ltac dof_index :=
  rewrite ?div7, ?mod7, ?div7_4, ?mod7_4 by lia.

Ltac two_cases r := destruct r as [|[|r]]; [| |lia].

Ltac three_cases m :=
  destruct m as [|[|[|m]]]; [| | |lia].

(** ** Shape functions of the eight-node brick *)

Section ShapeFacts.
Import BJtensor EightNodeBrick_u_p_U.

Lemma eighth : dbl 0.125 * (1 + 1 + 1 + 1 + 1 + 1 + 1 + 1) = 1.
Proof. qc_eval. Qed.

Lemma shape_sum (r s t : double) :
  sum_to Num_Nodes (shapeFunction r s t) = 1.
Proof.
  unfold Num_Nodes, shapeFunction. cbn [sum_to]. rewrite dbl_1.
  transitivity (dbl 0.125 * (1 + 1 + 1 + 1 + 1 + 1 + 1 + 1));
    [unfold double in *; ring | apply eighth].
Qed.

Lemma dshape_sum (r s t : double) (j : nat) :
  sum_to Num_Nodes (fun i => shapeFunctionDerivative r s t i j) = 0.
Proof.
  unfold Num_Nodes, shapeFunctionDerivative. cbn [sum_to].
  destruct j as [|[|[|[|j]]]]; unfold double in *; ring.
Qed.

Lemma eighth_of_eight : dbl 0.125 * ((1 + 1) * (1 + 1) * (1 + 1)) = 1.
Proof. qc_eval. Qed.

Lemma shape_at_corners (i j : nat) :
  (1 <= i <= Num_Nodes)%nat ->
  let '(r, s, t) := natural_corner i in
  shapeFunction r s t j = if bool_decide (i = j) then 1 else 0.
Proof.
  unfold Num_Nodes. intros Hi.
  assert (Hc : (i = 1 \/ i = 2 \/ i = 3 \/ i = 4 \/ i = 5 \/ i = 6 \/ i = 7
               \/ i = 8)%nat) by lia.
  destruct Hc as [->|[->|[->|[->|[->|[->|[->| ->]]]]]]];
    cbn [natural_corner];
    do 9 (destruct j as [|j];
          [unfold shapeFunction; rewrite ?dbl_1;
           first [ reflexivity
                 | rewrite bool_decide_eq_false_2 by lia;
                   unfold double in *; ring
                 | rewrite bool_decide_eq_true_2 by lia;
                   transitivity (dbl 0.125 * ((1 + 1) * (1 + 1) * (1 + 1)));
                   [unfold double in *; ring | apply eighth_of_eight] ]|]);
    rewrite bool_decide_eq_false_2 by lia; reflexivity.
Qed.

(** X1.  The eight shape functions sum to 1 at every point: they are a
    partition of unity. *)
Theorem X1_shapeFunction_partition_of_unity (r s t : double) :
  sum_to Num_Nodes (shapeFunction r s t) = 1.
Proof. exact (shape_sum r s t). Qed.

(** X2.  [shapeFunctionDerivative] is the gradient of [shapeFunction]: each
    shape function is linear in each natural coordinate, and a step [d] in
    the coordinate [j] changes it by [d] times the entry [(i, j)] of
    [shapeFunctionDerivative]. *)
Theorem X2_shapeFunctionDerivative_is_gradient (r s t d : double) (i : nat) :
  shapeFunction (r + d) s t i - shapeFunction r s t i
  = d * shapeFunctionDerivative r s t i 1%nat
  /\ shapeFunction r (s + d) t i - shapeFunction r s t i
     = d * shapeFunctionDerivative r s t i 2%nat
  /\ shapeFunction r s (t + d) i - shapeFunction r s t i
     = d * shapeFunctionDerivative r s t i 3%nat.
Proof.
  unfold shapeFunction, shapeFunctionDerivative.
  do 9 (destruct i as [|i]; [unfold double in *; repeat split; ring|]).
  unfold double in *; repeat split; ring.
Qed.

(** X3.  At the natural corner of node [i] the shape function of node [i]
    is 1 and the seven others vanish; beyond the eight nodes
    [shapeFunction] gives 0. *)
Theorem X3_shapeFunction_at_corners (i j : nat) :
  (1 <= i <= Num_Nodes)%nat ->
  let '(r, s, t) := natural_corner i in
  shapeFunction r s t j = if bool_decide (i = j) then 1 else 0.
Proof. exact (shape_at_corners i j). Qed.

End ShapeFacts.

(** ** Interpolation, Jacobian and strain *)

Section KinematicsFacts.
Import BJtensor EightNodeBrick_u_p_U.
Context {Mat : Type} `{NDMaterial Mat} `{Inhabited Mat} `{Ops}.

(** X4.  When the eight nodes carry the same pore pressure [p] (entry 3 of
    the trial displacement), [getPorePressure] gives [p] at every point of
    the element. *)
Theorem X4_getPorePressure_uniform (el : t Mat) (x1 x2 x3 p : double) :
  length (theNodes el) = Num_Nodes ->
  Forall (fun n => vget (getTrialDisp n) 3 = p) (theNodes el) ->
  getPorePressure el x1 x2 x3 = p.
Proof.
  unfold getPorePressure. generalize (theNodes el). intros nodes Hlen Hp.
  destruct (eight_of nodes Hlen) as (n1 & n2 & n3 & n4 & n5 & n6 & n7 & n8 & ->).
  repeat match goal with
         | Hd : Forall _ (_ :: _) |- _ =>
             apply Forall_cons in Hd; destruct Hd as [? Hd]
         end.
  unfold for_, Num_Nodes. cbn [seq foldl].
  change ([n1; n2; n3; n4; n5; n6; n7; n8] !!! 0%nat) with n1.
  change ([n1; n2; n3; n4; n5; n6; n7; n8] !!! 1%nat) with n2.
  change ([n1; n2; n3; n4; n5; n6; n7; n8] !!! 2%nat) with n3.
  change ([n1; n2; n3; n4; n5; n6; n7; n8] !!! 3%nat) with n4.
  change ([n1; n2; n3; n4; n5; n6; n7; n8] !!! 4%nat) with n5.
  change ([n1; n2; n3; n4; n5; n6; n7; n8] !!! 5%nat) with n6.
  change ([n1; n2; n3; n4; n5; n6; n7; n8] !!! 6%nat) with n7.
  change ([n1; n2; n3; n4; n5; n6; n7; n8] !!! 7%nat) with n8.
  repeat match goal with Hx : vget _ 3 = p |- _ => rewrite Hx; clear Hx end.
  rewrite dbl_0. cbn [Nat.add].
  transitivity (p * sum_to Num_Nodes (shapeFunction x1 x2 x3)).
  - unfold Num_Nodes. cbn [sum_to]. unfold double in *. ring.
  - rewrite shape_sum. unfold double in *. ring.
Qed.

(** X5.  At the natural corner of node [i], [getPorePressure] gives the
    pore pressure of node [i]. *)
Theorem X5_getPorePressure_at_node (el : t Mat) (i : nat) :
  length (theNodes el) = Num_Nodes ->
  (1 <= i <= Num_Nodes)%nat ->
  let '(r, s, t) := natural_corner i in
  getPorePressure el r s t
  = vget (getTrialDisp (theNodes el !!! (i - 1)%nat)) 3.
Proof.
  unfold getPorePressure, Num_Nodes. generalize (theNodes el).
  intros nodes Hlen Hi.
  destruct (eight_of nodes Hlen) as (n1 & n2 & n3 & n4 & n5 & n6 & n7 & n8 & ->).
  assert (Hc : (i = 1 \/ i = 2 \/ i = 3 \/ i = 4 \/ i = 5 \/ i = 6 \/ i = 7
               \/ i = 8)%nat) by lia.
  unfold for_. cbn [seq foldl Nat.add].
  change ([n1; n2; n3; n4; n5; n6; n7; n8] !!! 0%nat) with n1.
  change ([n1; n2; n3; n4; n5; n6; n7; n8] !!! 1%nat) with n2.
  change ([n1; n2; n3; n4; n5; n6; n7; n8] !!! 2%nat) with n3.
  change ([n1; n2; n3; n4; n5; n6; n7; n8] !!! 3%nat) with n4.
  change ([n1; n2; n3; n4; n5; n6; n7; n8] !!! 4%nat) with n5.
  change ([n1; n2; n3; n4; n5; n6; n7; n8] !!! 5%nat) with n6.
  change ([n1; n2; n3; n4; n5; n6; n7; n8] !!! 6%nat) with n7.
  change ([n1; n2; n3; n4; n5; n6; n7; n8] !!! 7%nat) with n8.
  destruct Hc as [->|[->|[->|[->|[->|[->|[->| ->]]]]]]];
    (pose proof (shape_at_corners _ 1%nat Hi) as H1';
     pose proof (shape_at_corners _ 2%nat Hi) as H2';
     pose proof (shape_at_corners _ 3%nat Hi) as H3';
     pose proof (shape_at_corners _ 4%nat Hi) as H4';
     pose proof (shape_at_corners _ 5%nat Hi) as H5';
     pose proof (shape_at_corners _ 6%nat Hi) as H6';
     pose proof (shape_at_corners _ 7%nat Hi) as H7';
     pose proof (shape_at_corners _ 8%nat Hi) as H8';
     cbn [natural_corner] in H1', H2', H3', H4', H5', H6', H7', H8' |- *;
     rewrite H1', H2', H3', H4', H5', H6', H7', H8', dbl_0;
     match goal with
     | |- _ = vget (getTrialDisp ?x) 3 =>
         let y := eval cbv in x in change x with y
     end;
     generalize (vget (getTrialDisp n1) 3) (vget (getTrialDisp n2) 3)
                (vget (getTrialDisp n3) 3) (vget (getTrialDisp n4) 3)
                (vget (getTrialDisp n5) 3) (vget (getTrialDisp n6) 3)
                (vget (getTrialDisp n7) 3) (vget (getTrialDisp n8) 3);
     intros p1 p2 p3 p4 p5 p6 p7 p8;
     rewrite (bool_decide_eq_true_2 _ eq_refl);
     rewrite !bool_decide_eq_false_2 by discriminate;
     unfold double in *; ring).
Qed.

Lemma getNodesCrds_translate (el : t Mat) (c : Vector) (k i : nat) :
  length (theNodes el) = Num_Nodes ->
  Forall (fun n => length (getCrds n) = Num_Dim) (theNodes el) ->
  length c = Num_Dim ->
  getNodesCrds (set_theNodes el (translate c <$> theNodes el)) k i
  = getNodesCrds el k i
    + (if in_range Num_Nodes k && in_range Num_Dim i then vget c (i - 1)
       else 0).
Proof.
  intros Hlen Hcrds Hc. unfold getNodesCrds. cbn [theNodes set_theNodes].
  unfold Num_Nodes, Num_Dim in *.
  destruct (in_range 8 k && in_range 3 i) eqn:Hin;
    [|unfold double; ring].
  apply andb_prop in Hin. destruct Hin as [Hk Hi].
  unfold in_range in Hk, Hi.
  apply andb_prop in Hk. destruct Hk as [Hk1 Hk2].
  apply andb_prop in Hi. destruct Hi as [Hi1 Hi2].
  apply bool_decide_eq_true_1 in Hk1, Hk2, Hi1, Hi2.
  assert (Hlt : (k - 1 < length (theNodes el))%nat) by lia.
  destruct (lookup_lt_is_Some_2 _ _ Hlt) as [n Hn].
  rewrite !list_lookup_total_alt, list_lookup_fmap, Hn. cbn [fmap option_fmap option_map default getCrds translate].
  pose proof (Forall_lookup_1 _ _ _ _ Hcrds Hn) as Hn3. cbn beta in Hn3.
  unfold id. apply vget_vadd; lia.
Qed.

(** X6.  The Jacobian does not change when the eight nodes are moved by
    the same vector [c]. *)
Theorem X6_Jacobian_3D_translation (el : t Mat) (c : Vector) (r s t : double)
    (i j : nat) :
  length (theNodes el) = Num_Nodes ->
  Forall (fun n => length (getCrds n) = Num_Dim) (theNodes el) ->
  length c = Num_Dim ->
  Jacobian_3D (set_theNodes el (translate c <$> theNodes el))
              (shapeFunctionDerivative r s t) i j
  = Jacobian_3D el (shapeFunctionDerivative r s t) i j.
Proof.
  intros Hlen Hcrds Hc. unfold Jacobian_3D.
  pose proof (dshape_sum r s t j) as Hsum. revert Hsum.
  change (sum_to Num_Nodes) with (sum_to 8). cbn [sum_to].
  rewrite !(getNodesCrds_translate el c _ i Hlen Hcrds Hc).
  generalize (shapeFunctionDerivative r s t). intros dh Hsum.
  generalize (getNodesCrds el). intros N.
  replace (in_range Num_Nodes 1) with true by reflexivity.
  replace (in_range Num_Nodes 2) with true by reflexivity.
  replace (in_range Num_Nodes 3) with true by reflexivity.
  replace (in_range Num_Nodes 4) with true by reflexivity.
  replace (in_range Num_Nodes 5) with true by reflexivity.
  replace (in_range Num_Nodes 6) with true by reflexivity.
  replace (in_range Num_Nodes 7) with true by reflexivity.
  replace (in_range Num_Nodes 8) with true by reflexivity.
  cbn [andb].
  set (ci := if in_range Num_Dim i then _ else _). clearbody ci.
  match goal with
  | |- ?lhs = ?rhs =>
      match type of Hsum with
      | ?sm = _ =>
          transitivity (rhs + ci * sm);
          [unfold double in *; ring | rewrite Hsum; unfold double in *; ring]
      end
  end.
Qed.

Lemma dh_Global_column_sum (el : t Mat) (r s t : double) (b : nat) :
  sum_to Num_Nodes (fun i => dh_Global el (shapeFunctionDerivative r s t) i b)
  = 0.
Proof.
  unfold dh_Global.
  generalize (Jacobian_3Dinv el (shapeFunctionDerivative r s t)). intros J.
  pose proof (dshape_sum r s t 1) as H1'.
  pose proof (dshape_sum r s t 2) as H2'.
  pose proof (dshape_sum r s t 3) as H3'.
  revert H1' H2' H3'.
  generalize (shapeFunctionDerivative r s t). intros dh.
  unfold Num_Nodes, Num_Dim. cbn [sum_to]. intros H1' H2' H3'.
  match type of H1' with
  | ?s1 = _ =>
      match type of H2' with
      | ?s2 = _ =>
          match type of H3' with
          | ?s3 = _ =>
              transitivity (J 1%nat b * s1 + J 2%nat b * s2 + J 3%nat b * s3);
              [unfold double in *; ring
              |rewrite H1', H2', H3'; unfold double in *; ring]
          end
      end
  end.
Qed.

(** X7.  When the eight nodes have the same solid displacement
    [(u1, u2, u3)], the strain that [update] hands to the materials is zero
    at every Gauss point, whatever the pore pressures, the fluid
    displacements and the inverse of the Jacobian are. *)
Theorem X7_trial_strain_rigid_translation (el : t Mat) (u1 u2 u3 : double)
    (GP_c_r GP_c_s GP_c_t a b : nat) :
  length (theNodes el) = Num_Nodes ->
  Forall (fun n => vget (getTrialDisp n) 0 = u1
                   /\ vget (getTrialDisp n) 1 = u2
                   /\ vget (getTrialDisp n) 2 = u3) (theNodes el) ->
  trial_strain el GP_c_r GP_c_s GP_c_t a b = 0.
Proof.
  intros Hlen Hu. unfold trial_strain, symmetrize11.
  assert (Hsum : forall a b,
    sum_to Num_Nodes
      (fun i =>
         (if in_range Num_Nodes i && in_range Num_Dim a
          then getNodesDisp el i a else 0)
         * dh_Global el
             (shapeFunctionDerivative (pt GP_c_r) (pt GP_c_s) (pt GP_c_t))
             i b) = 0).
  { clear a b. intros a b.
    pose proof (dh_Global_column_sum el (pt GP_c_r) (pt GP_c_s) (pt GP_c_t) b)
      as Hcol. revert Hcol.
    generalize (dh_Global el
      (shapeFunctionDerivative (pt GP_c_r) (pt GP_c_s) (pt GP_c_t))).
    intros dhG.
    assert (Hd : exists ua, forall i, (1 <= i <= 8)%nat ->
               (if in_range Num_Nodes i && in_range Num_Dim a
                then getNodesDisp el i a else 0) = ua).
    { destruct (in_range Num_Dim a) eqn:Ha.
      - unfold in_range, Num_Dim in Ha. apply andb_prop in Ha.
        destruct Ha as [Ha1 Ha2]. apply bool_decide_eq_true_1 in Ha1, Ha2.
        exists (match a with 1%nat => u1 | 2%nat => u2 | _ => u3 end).
        intros i Hi. unfold getNodesDisp, in_range, Num_Nodes, Num_Dof.
        rewrite !bool_decide_eq_true_2 by lia. cbn [andb].
        assert (Hlt : (i - 1 < length (theNodes el))%nat)
          by (rewrite Hlen; unfold Num_Nodes; lia).
        destruct (lookup_lt_is_Some_2 _ _ Hlt) as [n Hn].
        rewrite list_lookup_total_alt, Hn. cbn [default].
        destruct (Forall_lookup_1 _ _ _ _ Hu Hn) as (Hn1 & Hn2 & Hn3).
        destruct a as [|[|[|[|a]]]]; try lia; assumption.
      - exists 0. intros i Hi. by rewrite andb_false_r. }
    destruct Hd as [ua Hd].
    unfold Num_Nodes at 1 2. cbn [sum_to]. intros Hcol.
    rewrite !Hd by lia.
    match type of Hcol with
    | ?sm = _ =>
        transitivity (ua * sm);
        [unfold double in *; ring | rewrite Hcol; unfold double in *; ring]
    end. }
  rewrite !Hsum. unfold double in *. ring.
Qed.

(** One Gauss point of [update]: the material is replaced by what
    [setTrialStrain] gives and a failure adds a line to [std::cerr]. *)
Ltac update_step m el r s t :=
  match goal with
  | |- context C [setTrialStrain (?l !!! where_ r s t) ?e] =>
      let g := context C [setTrialStrain m (trial_strain el r s t)] in
      change g
  end;
  let st := fresh "status" in
  let m' := fresh "m'" in
  destruct (setTrialStrain m (trial_strain el r s t)) as [st m'];
  cbv beta iota;
  rewrite (if_pair_app (bool_decide (st <> 0%Z))).

(** X8.  For an element with eight materials, [update] returns 0, changes
    nothing but the materials, replaces the material of each Gauss point by
    what [setTrialStrain] gives at the strain computed from the trial
    displacements, and writes one line to [std::cerr] for each Gauss
    point whose status is not 0, in the order of the loops. *)
Theorem X8_update_materials (el : t Mat) :
  length (physicalProperties el) = Num_TotalGaussPts ->
  update el
  = (0%Z,
     set_physicalProperties el
       (zip_with (fun m gp => (updated_material el m gp).2)
                 (physicalProperties el) gauss_points),
     mjoin (zip_with (fun m gp =>
                        if bool_decide ((updated_material el m gp).1 <> 0%Z)
                        then [not_converged (getTag el)] else [])
                     (physicalProperties el) gauss_points)).
Proof.
  destruct el as
    [tag nodes pp bf0 poro0 alpha0 rhos rhof ks0 kf0 pr eq ki ld ray dead].
  cbn [physicalProperties]. intros Hlen.
  destruct pp as [|m0 [|m1 [|m2 [|m3 [|m4 [|m5 [|m6 [|m7 [|? ?]]]]]]]]];
    try discriminate.
  set (el := mk tag nodes [m0; m1; m2; m3; m4; m5; m6; m7] bf0 poro0 alpha0
                rhos rhof ks0 kf0 pr eq ki ld ray dead).
  let gp := eval vm_compute in gauss_points in change gauss_points with gp.
  unfold updated_material. cbn [zip_with fst snd mjoin].
  unfold update, gauss_loop, for_, Num_IntegrationPts.
  cbn [seq foldl].
  update_step m0 el 0%nat 0%nat 0%nat.
  update_step m1 el 0%nat 0%nat 1%nat.
  update_step m2 el 0%nat 1%nat 0%nat.
  update_step m3 el 0%nat 1%nat 1%nat.
  update_step m4 el 1%nat 0%nat 0%nat.
  update_step m5 el 1%nat 0%nat 1%nat.
  update_step m6 el 1%nat 1%nat 0%nat.
  update_step m7 el 1%nat 1%nat 1%nat.
  cbn [fst snd]. f_equal.
  simpl. rewrite ?app_nil_r, <- ?app_assoc. reflexivity.
Qed.

End KinematicsFacts.

(** ** Mass, stiffness and damping matrices *)

Section MatrixFacts.
Import BJtensor EightNodeBrick_u_p_U.
Context {Mat : Type} `{NDMaterial Mat} `{Inhabited Mat} `{Ops}.

Lemma getMass_closed_form (el : t Mat) (st : statics) :
  has_dims 56 56 (M st) ->
  (getMass el st).1
  = Matrix_of 56 56 (fun r c =>
      let m := mass_entry (getMassTensorMsf el) (poro el) (rho_s el)
                          (rho_f el) r c in
      if isDead el then m * dead_srf st else m).
Proof.
  intros Hd. unfold getMass. rewrite (zero_dims _ _ _ Hd). cbn [fst].
  destruct (isDead el).
  - rewrite <- (mscale_Matrix_of 56 56
      (mass_entry (getMassTensorMsf el) (poro el) (rho_s el) (rho_f el))).
    apply (f_equal (mscale (dead_srf st))).
    generalize (getMassTensorMsf el) (poro el) (rho_s el) (rho_f el).
    intros tM p rs rf. unfold mass_entry.
    generalize Qcmult Qcminus. intros mul sub. vm_compute. reflexivity.
  - generalize (getMassTensorMsf el) (poro el) (rho_s el) (rho_f el).
    intros tM p rs rf. unfold mass_entry.
    generalize Qcmult Qcminus. intros mul sub. vm_compute. reflexivity.
Qed.

Lemma getMassTensorMsf_sym (el : t Mat) (m n : nat) :
  getMassTensorMsf el m n = getMassTensorMsf el n m.
Proof.
  unfold getMassTensorMsf, gauss_loop, for_, Num_IntegrationPts.
  cbn [seq foldl]. unfold add2, zero2.
  generalize (weight el). intros w.
  generalize shapeFunction. intros N.
  unfold double in *. ring.
Qed.

Lemma mass_entry_zero (tM : rank2) (p rs rf : double) (r c : nat) :
  (r mod 7 <> c mod 7 \/ r mod 7 = 3)%nat -> mass_entry tM p rs rf r c = 0.
Proof.
  intros Hrc. unfold mass_entry. cbv zeta. destruct Hrc as [Hne|H3].
  - by rewrite (bool_decide_eq_false_2 _ Hne).
  - rewrite H3. rewrite (bool_decide_eq_false_2 (3 < 3)%nat) by lia.
    rewrite (bool_decide_eq_false_2 (4 <= 3)%nat) by lia.
    by destruct (bool_decide _).
Qed.

(** X9.  [getMass] puts the consistent mass [Msf(i,j) (1 - n) rho_s] on
    the three solid displacements of every pair of nodes and
    [Msf(i,j) n rho_f] on the three fluid displacements, each degree of
    freedom coupled with the same one only; a dead element has these
    entries multiplied by [dead_srf]. *)
Theorem X9_getMass_blocks (el : t Mat) (st : statics) (i j m : nat) :
  has_dims 56 56 (M st) ->
  (i < 8)%nat -> (j < 8)%nat -> (m < 3)%nat ->
  let Mret := (getMass el st).1 in
  let scaled (x : double) := if isDead el then x * dead_srf st else x in
  mget Mret (i * 7 + m) (j * 7 + m)
  = scaled (getMassTensorMsf el (i + 1)%nat (j + 1)%nat
            * (dbl 1.0 - poro el) * rho_s el)
  /\ mget Mret (i * 7 + m + 4) (j * 7 + m + 4)
     = scaled (getMassTensorMsf el (i + 1)%nat (j + 1)%nat
               * poro el * rho_f el).
Proof.
  intros Hd Hi Hj Hm Mret scaled. subst Mret scaled.
  rewrite (getMass_closed_form el st Hd).
  rewrite !mget_Matrix_of by lia. cbv zeta. unfold mass_entry.
  destruct (divmod7 i m ltac:(lia)) as [-> ->].
  destruct (divmod7 j m ltac:(lia)) as [-> ->].
  replace (i * 7 + m + 4)%nat with (i * 7 + (m + 4))%nat by lia.
  replace (j * 7 + m + 4)%nat with (j * 7 + (m + 4))%nat by lia.
  destruct (divmod7 i (m + 4) ltac:(lia)) as [-> ->].
  destruct (divmod7 j (m + 4) ltac:(lia)) as [-> ->].
  rewrite !(bool_decide_eq_true_2 (_ = _)) by reflexivity.
  rewrite (bool_decide_eq_true_2 (m < 3)%nat) by lia.
  rewrite (bool_decide_eq_false_2 (m + 4 < 3)%nat) by lia.
  rewrite (bool_decide_eq_true_2 (4 <= m + 4)%nat) by lia.
  split; reflexivity.
Qed.

(** X10.  The matrix of [getMass] is symmetric, and it is zero wherever
    the two degrees of freedom differ and in the rows and columns of the
    pore pressure, whatever the static [M] held before. *)
Theorem X10_getMass_structure (el : t Mat) (st : statics) (r c : nat) :
  has_dims 56 56 (M st) ->
  (r < 56)%nat -> (c < 56)%nat ->
  mget (getMass el st).1 r c = mget (getMass el st).1 c r
  /\ ((r mod 7 <> c mod 7 \/ r mod 7 = 3)%nat ->
      mget (getMass el st).1 r c = 0).
Proof.
  intros Hd Hr Hc.
  rewrite (getMass_closed_form el st Hd), !mget_Matrix_of by lia.
  cbv zeta. split.
  - unfold mass_entry.
    rewrite (getMassTensorMsf_sym el (c / 7 + 1) (r / 7 + 1)).
    destruct (decide (r mod 7 = c mod 7)%nat) as [Heq|Hne].
    + rewrite Heq. reflexivity.
    + rewrite (bool_decide_eq_false_2 _ Hne).
      rewrite (bool_decide_eq_false_2 (c mod 7 = r mod 7)%nat) by congruence.
      reflexivity.
  - intros Hrc. rewrite (mass_entry_zero _ _ _ _ r c Hrc).
    destruct (isDead el); [unfold double; ring | reflexivity].
Qed.

Lemma getStiff_1_closed_form (el : t Mat) (st : statics) (tP : rank2) :
  has_dims 56 56 (K st) ->
  getStiffnessTensorP el = Returns tP ->
  let Kt :=
    Matrix_of 56 56
      (stiff_entry (getStiffnessTensorKep el) (getStiffnessTensorG12 el) tP
                   (alpha el) (poro el) (mget (K st))) in
  getStiff 1 el st = Returns (Kt, el, set_K st Kt).
Proof.
  intros Hd HP Kt. unfold getStiff.
  replace (bool_decide (1%Z <> 0%Z) && bool_decide (1%Z <> 1%Z)) with false
    by reflexivity.
  replace (bool_decide (1%Z = 0%Z)) with false by reflexivity.
  replace (bool_decide (1%Z = 1%Z)) with true by reflexivity.
  rewrite HP. cbn [mbind outcome_bind].
  pose proof (Matrix_of_mget 56 56 (K st) Hd) as HK.
  set (k0 := mget (K st)) in *. clearbody k0. rewrite HK. clear HK.
  match goal with
  | |- Returns (?k, _, _) = _ => assert (Hk : k = Kt)
  end.
  { subst Kt.
    generalize (getStiffnessTensorKep el) (getStiffnessTensorG12 el)
               (alpha el) (poro el).
    intros tKep tG al p. unfold stiff_entry.
    generalize Qcmult Qcminus Qcopp. intros mul sub opp.
    vm_compute. reflexivity. }
  rewrite Hk. reflexivity.
Qed.

Lemma getStiffnessTensorP_returns (el : t Mat) :
  ks el <> 0 -> kf el <> 0 -> exists tP, getStiffnessTensorP el = Returns tP.
Proof.
  intros Hks Hkf. unfold getStiffnessTensorP.
  rewrite !bool_decide_eq_false_2 by assumption. cbn [orb]. by eexists.
Qed.

(** X11.  With bulk moduli that are not zero, [getStiff(1)] returns the
    static [K] with these blocks for every pair of nodes: the solid block
    holds [Kep]; the solid-pressure block holds [- G (alpha - n)] and the
    pressure-solid block its transpose; the pressure block holds [- P];
    the fluid-pressure block holds [- G n] and the pressure-fluid block its
    transpose. *)
Theorem X11_getStiff_1_blocks (el : t Mat) (st : statics) (i j m n : nat) :
  has_dims 56 56 (K st) ->
  ks el <> 0 -> kf el <> 0 ->
  (i < 8)%nat -> (j < 8)%nat -> (m < 3)%nat -> (n < 3)%nat ->
  exists tP Kt,
    getStiffnessTensorP el = Returns tP
    /\ getStiff 1 el st = Returns (Kt, el, set_K st Kt)
    /\ mget Kt (i * 7 + m) (j * 7 + n)
       = getStiffnessTensorKep el (i + 1)%nat (m + 1)%nat (n + 1)%nat
           (j + 1)%nat
    /\ mget Kt (i * 7 + m) (j * 7 + 3)
       = - getStiffnessTensorG12 el (i + 1)%nat (m + 1)%nat (j + 1)%nat
         * (alpha el - poro el)
    /\ mget Kt (j * 7 + 3) (i * 7 + m) = mget Kt (i * 7 + m) (j * 7 + 3)
    /\ mget Kt (i * 7 + 3) (j * 7 + 3) = - tP (i + 1)%nat (j + 1)%nat
    /\ mget Kt (i * 7 + m + 4) (j * 7 + 3)
       = - getStiffnessTensorG12 el (i + 1)%nat (m + 1)%nat (j + 1)%nat
         * poro el
    /\ mget Kt (j * 7 + 3) (i * 7 + m + 4)
       = mget Kt (i * 7 + m + 4) (j * 7 + 3).
Proof.
  intros Hd Hks Hkf Hi Hj Hm Hn.
  destruct (getStiffnessTensorP_returns el Hks Hkf) as [tP HP].
  exists tP. eexists. split; [exact HP|].
  split; [exact (getStiff_1_closed_form el st tP Hd HP)|].
  rewrite !mget_Matrix_of by lia. unfold stiff_entry. dof_index.
  three_cases m; three_cases n; repeat split; reflexivity.
Qed.

(** X12.  [getStiff] never writes the solid-fluid, fluid-solid and
    fluid-fluid blocks: they keep what the static [K] held before the
    call. *)
Theorem X12_getStiff_1_untouched_blocks (el : t Mat) (st : statics)
    (i j m n : nat) :
  has_dims 56 56 (K st) ->
  ks el <> 0 -> kf el <> 0 ->
  (i < 8)%nat -> (j < 8)%nat -> (m < 3)%nat -> (n < 3)%nat ->
  exists Kt,
    getStiff 1 el st = Returns (Kt, el, set_K st Kt)
    /\ mget Kt (i * 7 + m) (j * 7 + n + 4)
       = mget (K st) (i * 7 + m) (j * 7 + n + 4)
    /\ mget Kt (i * 7 + m + 4) (j * 7 + n)
       = mget (K st) (i * 7 + m + 4) (j * 7 + n)
    /\ mget Kt (i * 7 + m + 4) (j * 7 + n + 4)
       = mget (K st) (i * 7 + m + 4) (j * 7 + n + 4).
Proof.
  intros Hd Hks Hkf Hi Hj Hm Hn.
  destruct (getStiffnessTensorP_returns el Hks Hkf) as [tP HP].
  eexists. split; [exact (getStiff_1_closed_form el st tP Hd HP)|].
  rewrite !mget_Matrix_of by lia. unfold stiff_entry. dof_index.
  three_cases m; three_cases n; repeat split; reflexivity.
Qed.

Lemma getDamp_closed_form (el : t Mat) (st : statics) (tC : rank4) :
  has_dims 56 56 (C st) ->
  getDampTensorC123 el st = Returns tC ->
  let Ct :=
    Matrix_of 56 56 (fun r c =>
      let x := damp_entry tC (getMassTensorMsf el) (getStiffnessTensorKep el)
                 (getAlphaM (rayFactors el)) (getBetaK (rayFactors el))
                 (poro el) (rho_s el) (mget (C st)) r c in
      if isDead el then x * dead_srf st else x) in
  exists cerr, getDamp el st = Returns (Ct, set_C st Ct, cerr).
Proof.
  intros Hd HC Ct. unfold getDamp.
  rewrite HC. cbn [mbind outcome_bind].
  pose proof (Matrix_of_mget 56 56 (C st) Hd) as HK.
  set (c0 := mget (C st)) in *. clearbody c0. rewrite HK. clear HK.
  eexists.
  match goal with
  | |- Returns (?k, _, _) = _ => assert (Hk : k = Ct)
  end.
  { subst Ct. destruct (isDead el).
    - match goal with
      | |- ?lhs = _ =>
          change (lhs = Matrix_of 56 56 (fun r c =>
            damp_entry tC (getMassTensorMsf el) (getStiffnessTensorKep el)
              (getAlphaM (rayFactors el)) (getBetaK (rayFactors el))
              (poro el) (rho_s el) c0 r c * dead_srf st))
      end.
      rewrite <- (mscale_Matrix_of 56 56
        (damp_entry tC (getMassTensorMsf el) (getStiffnessTensorKep el)
           (getAlphaM (rayFactors el)) (getBetaK (rayFactors el))
           (poro el) (rho_s el) c0)).
      apply (f_equal (mscale (dead_srf st))).
      unfold damp_entry, scale2.
      generalize (getStiffnessTensorKep el) (getMassTensorMsf el)
                 (getAlphaM (rayFactors el)) (getBetaK (rayFactors el))
                 (poro el) (rho_s el).
      intros tKep tM aM bK p rs.
      destruct (bool_decide (aM <> 0)), (bool_decide (bK <> 0));
        generalize Qcmult Qcminus Qcopp Qcplus; intros mul sub opp add;
        vm_compute; reflexivity.
    - unfold damp_entry, scale2.
      generalize (getStiffnessTensorKep el) (getMassTensorMsf el)
                 (getAlphaM (rayFactors el)) (getBetaK (rayFactors el))
                 (poro el) (rho_s el).
      intros tKep tM aM bK p rs.
      destruct (bool_decide (aM <> 0)), (bool_decide (bK <> 0));
        generalize Qcmult Qcminus Qcopp Qcplus; intros mul sub opp add;
        vm_compute; reflexivity. }
  rewrite Hk. reflexivity.
Qed.

Lemma getDampTensorC123_returns (el : t Mat) (st : statics) :
  perm st 1%nat 1%nat <> 0 -> perm st 2%nat 2%nat <> 0 ->
  perm st 3%nat 3%nat <> 0 ->
  exists tC, getDampTensorC123 el st = Returns tC.
Proof.
  intros H1' H2' H3'. unfold getDampTensorC123.
  rewrite !bool_decide_eq_false_2 by assumption. cbn [orb]. by eexists.
Qed.

(** X13.  With permeabilities that are not zero, [getDamp] of a live
    element returns the static [C] with these blocks for every pair of
    nodes: the solid block holds [C123 n^2], plus [alphaM] times
    [Msf(i,j) (1 - n) rho_s] in all nine entries when [alphaM] is not
    zero, plus [betaK] times [Kep] when [betaK] is not zero; the
    fluid block holds [C123 n^2]; the solid-fluid and fluid-solid blocks
    hold [- C123 n^2]. *)
Theorem X13_getDamp_blocks (el : t Mat) (st : statics) (i j m n : nat) :
  has_dims 56 56 (C st) ->
  perm st 1%nat 1%nat <> 0 -> perm st 2%nat 2%nat <> 0 ->
  perm st 3%nat 3%nat <> 0 ->
  isDead el = false ->
  (i < 8)%nat -> (j < 8)%nat -> (m < 3)%nat -> (n < 3)%nat ->
  exists tC Ct cerr,
    getDampTensorC123 el st = Returns tC
    /\ getDamp el st = Returns (Ct, set_C st Ct, cerr)
    /\ (let Ctemp := tC (i + 1)%nat (m + 1)%nat (n + 1)%nat (j + 1)%nat in
        let aM := getAlphaM (rayFactors el) in
        let bK := getBetaK (rayFactors el) in
        mget Ct (i * 7 + m) (j * 7 + n)
        = Ctemp * (poro el * poro el)
          + (if bool_decide (aM <> 0)
             then getMassTensorMsf el (i + 1)%nat (j + 1)%nat
                  * ((dbl 1.0 - poro el) * rho_s el) * aM
             else 0)
          + (if bool_decide (bK <> 0)
             then getStiffnessTensorKep el (i + 1)%nat (m + 1)%nat
                    (n + 1)%nat (j + 1)%nat * bK
             else 0)
        /\ mget Ct (i * 7 + m + 4) (j * 7 + n + 4)
           = Ctemp * (poro el * poro el)
        /\ mget Ct (i * 7 + m) (j * 7 + n + 4)
           = - Ctemp * (poro el * poro el)
        /\ mget Ct (j * 7 + n + 4) (i * 7 + m)
           = - Ctemp * (poro el * poro el)).
Proof.
  intros Hd H1' H2' H3' Hlive Hi Hj Hm Hn.
  destruct (getDampTensorC123_returns el st H1' H2' H3') as [tC HC].
  destruct (getDamp_closed_form el st tC Hd HC) as [cerr Hdamp].
  exists tC. eexists. exists cerr. split; [exact HC|].
  split; [exact Hdamp|]. cbv zeta.
  rewrite !mget_Matrix_of by lia. rewrite Hlive. unfold damp_entry, scale2.
  dof_index.
  three_cases m; three_cases n; cbv beta iota zeta;
    (split; [|repeat split; reflexivity]);
    destruct (bool_decide (getAlphaM (rayFactors el) <> 0)),
             (bool_decide (getBetaK (rayFactors el) <> 0));
    cbn [Nat.ltb Nat.leb Nat.add]; unfold double; ring.
Qed.

(** X14.  [getDamp] of a live element never writes the rows and columns
    of the pore pressure: they keep what the static [C] held before the
    call. *)
Theorem X14_getDamp_pressure_dofs_untouched (el : t Mat) (st : statics)
    (r c : nat) :
  has_dims 56 56 (C st) ->
  perm st 1%nat 1%nat <> 0 -> perm st 2%nat 2%nat <> 0 ->
  perm st 3%nat 3%nat <> 0 ->
  isDead el = false ->
  (r < 56)%nat -> (c < 56)%nat ->
  (r mod 7 = 3 \/ c mod 7 = 3)%nat ->
  exists Ct cerr,
    getDamp el st = Returns (Ct, set_C st Ct, cerr)
    /\ mget Ct r c = mget (C st) r c.
Proof.
  intros Hd H1' H2' H3' Hlive Hr Hc Hrc.
  destruct (getDampTensorC123_returns el st H1' H2' H3') as [tC HC].
  destruct (getDamp_closed_form el st tC Hd HC) as [cerr Hdamp].
  eexists. exists cerr. split; [exact Hdamp|].
  rewrite mget_Matrix_of by lia. rewrite Hlive. unfold damp_entry.
  cbv zeta.
  assert (Hr7 : (r mod 7 < 7)%nat) by (apply Nat.mod_upper_bound; lia).
  assert (Hc7 : (c mod 7 < 7)%nat) by (apply Nat.mod_upper_bound; lia).
  destruct Hrc as [-> | ->].
  - reflexivity.
  - destruct (r mod 7)%nat as [|[|[|[|[|[|[|?]]]]]]]; try lia; reflexivity.
Qed.

End MatrixFacts.

(** ** Loads and resisting forces *)

Section LoadFacts.
Import BJtensor EightNodeBrick_u_p_U.
Context {Mat : Type} `{NDMaterial Mat} `{Inhabited Mat} `{Ops}.

(** One node of a loop that gathers a vector per node. *)

Ltac node_case what n :=
  let Hb := fresh "Hb" in
  destruct (decide (length (what n) <> Num_Dof)) as [Hb|Hb];
  [rewrite (bool_decide_eq_true_2 _ Hb); cbn [mbind outcome_bind is_exit];
   clear -Hb; split; [intros _; tauto | reflexivity]
  |rewrite (bool_decide_eq_false_2 _ Hb); cbn [mbind outcome_bind]].

Ltac ra_case r :=
  let Hb := fresh "Hb" in
  destruct (decide (length r <> Num_Dof)) as [Hb|Hb];
  [rewrite (bool_decide_eq_true_2 _ Hb); cbn [mbind option_bind];
   reflexivity
  |rewrite (bool_decide_eq_false_2 _ Hb); cbn [mbind option_bind]].

Lemma getExForceS_closed_form (el : t Mat) :
  getExForceS el
  = (fun k =>
       if (k mod 7 <? 3)%nat
       then 0 + shape_integral el (k / 7 + 1)%nat * vget (bf el) (k mod 7)
                * ((dbl 1.0 - poro el) * rho_s el)
       else 0) <$> seq 0 56.
Proof.
  unfold getExForceS.
  generalize (shape_integral el) (vget (bf el)) (poro el) (rho_s el).
  intros S b p rs.
  generalize Qcmult Qcminus Qcplus. intros mul sub add.
  vm_compute. reflexivity.
Qed.

Lemma getExForceF_closed_form (el : t Mat) :
  getExForceF el
  = (fun k =>
       if (4 <=? k mod 7)%nat
       then 0 + shape_integral el (k / 7 + 1)%nat * vget (bf el) (k mod 7 - 4)
                * (poro el * rho_f el)
       else 0) <$> seq 0 56.
Proof.
  unfold getExForceF.
  generalize (shape_integral el) (vget (bf el)) (poro el) (rho_f el).
  intros S b p rs.
  generalize Qcmult Qcminus Qcplus. intros mul sub add.
  vm_compute. reflexivity.
Qed.

Lemma getExForce_entries (el : t Mat) (i j : nat) :
  (i < 8)%nat -> (j < 3)%nat ->
  let lumped := shape_integral el (i + 1)%nat * vget (bf el) j in
  vget (getExForceS el) (i * 7 + j)
  = lumped * ((dbl 1.0 - poro el) * rho_s el)
  /\ vget (getExForceS el) (i * 7 + 3) = 0
  /\ vget (getExForceS el) (i * 7 + j + 4) = 0
  /\ vget (getExForceF el) (i * 7 + j) = 0
  /\ vget (getExForceF el) (i * 7 + 3) = 0
  /\ vget (getExForceF el) (i * 7 + j + 4)
     = lumped * (poro el * rho_f el).
Proof.
  intros Hi Hj lumped. subst lumped.
  rewrite getExForceS_closed_form, getExForceF_closed_form.
  rewrite !vget_fmap_seq by lia. dof_index.
  three_cases j; cbn [Nat.ltb Nat.leb Nat.add Nat.sub];
    repeat split; try reflexivity; unfold double; ring.
Qed.

Lemma length_getExForceS (el : t Mat) : length (getExForceS el) = 56%nat.
Proof. rewrite getExForceS_closed_form. by rewrite length_fmap, length_seq. Qed.

Lemma length_getExForceF (el : t Mat) : length (getExForceF el) = 56%nat.
Proof. rewrite getExForceF_closed_form. by rewrite length_fmap, length_seq. Qed.

Lemma self_weight_entry (S F : Vector) (f : double) (k : nat) :
  length S = 56%nat -> length F = 56%nat -> (k < 56)%nat ->
  vget (vscale f (zip_with Qcplus S F)) k = (vget S k + vget F k) * f.
Proof.
  intros HlS HlF Hk. change (zip_with Qcplus S F) with (vadd S F).
  assert (Hlen : length (vadd S F) = 56%nat).
  { unfold vadd, Vector, double in HlS, HlF |- *.
    rewrite length_zip_with. lia. }
  rewrite vget_vscale by (rewrite Hlen; assumption).
  rewrite vget_vadd by (rewrite ?HlS, ?HlF; assumption). reflexivity.
Qed.

Lemma length_self_weight (S F : Vector) (f : double) :
  length S = 56%nat -> length F = 56%nat ->
  length (vscale f (zip_with Qcplus S F)) = 56%nat.
Proof.
  intros HlS HlF. unfold vscale. rewrite length_fmap.
  unfold Vector, double in HlS, HlF |- *. rewrite length_zip_with. lia.
Qed.

Lemma getExForce_set_eleQ (el : t Mat) (q : option Vector) :
  getExForceS (set_eleQ el q) = getExForceS el
  /\ getExForceF (set_eleQ el q) = getExForceF el.
Proof.
  unfold getExForceS, getExForceF, shape_integral, weight, det_of_Jacobian,
    Jacobian_3D, getNodesCrds, set_eleQ.
  cbn [theNodes bf poro rho_s rho_f]. split; reflexivity.
Qed.

(** X15.  [getExForceS] loads the three solid displacements of node [i]
    with the integral of its shape function times the body force times
    [(1 - n) rho_s], [getExForceF] the three fluid displacements with the
    same integral times the body force times [n rho_f]; every other entry
    of the two vectors, the pore pressure included, is 0. *)
Theorem X15_getExForce_entries (el : t Mat) (i j : nat) :
  (i < 8)%nat -> (j < 3)%nat ->
  let lumped := shape_integral el (i + 1)%nat * vget (bf el) j in
  vget (getExForceS el) (i * 7 + j)
  = lumped * ((dbl 1.0 - poro el) * rho_s el)
  /\ vget (getExForceS el) (i * 7 + 3) = 0
  /\ vget (getExForceS el) (i * 7 + j + 4) = 0
  /\ vget (getExForceF el) (i * 7 + j) = 0
  /\ vget (getExForceF el) (i * 7 + 3) = 0
  /\ vget (getExForceF el) (i * 7 + j + 4)
     = lumped * (poro el * rho_f el).
Proof. exact (getExForce_entries el i j). Qed.

(** X16.  [addLoad] with a [BrickSelfWeight] returns 0, writes nothing
    to [std::cerr] and stores in [eleQ] a vector of 56 entries: the
    solid and the fluid body forces of X15 times the load factor, and 0 at
    the pore pressure. *)
Theorem X16_addLoad_self_weight (el : t Mat) (loadFactor : double) (i j : nat) :
  (i < 8)%nat -> (j < 3)%nat ->
  let lumped := shape_integral el (i + 1)%nat * vget (bf el) j in
  exists q,
    addLoad BrickSelfWeight loadFactor el = (0%Z, set_eleQ el (Some q), [])
    /\ length q = 56%nat
    /\ vget q (i * 7 + j)
       = lumped * ((dbl 1.0 - poro el) * rho_s el) * loadFactor
    /\ vget q (i * 7 + 3) = 0
    /\ vget q (i * 7 + j + 4) = lumped * (poro el * rho_f el) * loadFactor.
Proof.
  intros Hi Hj lumped.
  exists (vscale loadFactor
            (zip_with Qcplus (getExForceS el) (getExForceF el))).
  split; [reflexivity|].
  destruct (getExForce_entries el i j Hi Hj)
    as (HS1 & HS2 & HS3 & HF1 & HF2 & HF3).
  pose proof (length_getExForceS el) as HlS.
  pose proof (length_getExForceF el) as HlF.
  split; [exact (length_self_weight _ _ _ HlS HlF)|].
  rewrite !(self_weight_entry _ _ _ _ HlS HlF) by lia.
  rewrite HS1, HS2, HS3, HF1, HF2, HF3. subst lumped.
  repeat split; unfold double; ring.
Qed.

(** X17.  [addLoad] assigns [eleQ], it does not add to it: a second
    self-weight load replaces the first one. *)
Theorem X17_addLoad_replaces_self_weight (el : t Mat) (f1 f2 : double) :
  addLoad BrickSelfWeight f2 (addLoad BrickSelfWeight f1 el).1.2
  = addLoad BrickSelfWeight f2 el.
Proof.
  unfold addLoad. cbn [fst snd].
  destruct (getExForce_set_eleQ el
              (Some (vscale f1 (zip_with Qcplus (getExForceS el)
                                                (getExForceF el)))))
    as [-> ->].
  reflexivity.
Qed.

Lemma gather_into_exit (what : Node -> Vector) (msg : string) (el : t Mat)
    (a : Vector) :
  length (theNodes el) = Num_Nodes ->
  is_exit (gather_into what msg el a) = true
  <-> Exists (fun n => length (what n) <> Num_Dof) (theNodes el).
Proof.
  unfold gather_into. generalize (theNodes el). intros nodes Hlen.
  destruct (eight_of nodes Hlen)
    as (n1 & n2 & n3 & n4 & n5 & n6 & n7 & n8 & ->).
  unfold for_ at 1. unfold Num_Nodes. cbn [seq foldl].
  change ([n1; n2; n3; n4; n5; n6; n7; n8] !!! 0%nat) with n1.
  change ([n1; n2; n3; n4; n5; n6; n7; n8] !!! 1%nat) with n2.
  change ([n1; n2; n3; n4; n5; n6; n7; n8] !!! 2%nat) with n3.
  change ([n1; n2; n3; n4; n5; n6; n7; n8] !!! 3%nat) with n4.
  change ([n1; n2; n3; n4; n5; n6; n7; n8] !!! 4%nat) with n5.
  change ([n1; n2; n3; n4; n5; n6; n7; n8] !!! 5%nat) with n6.
  change ([n1; n2; n3; n4; n5; n6; n7; n8] !!! 6%nat) with n7.
  change ([n1; n2; n3; n4; n5; n6; n7; n8] !!! 7%nat) with n8.
  rewrite !Exists_cons, Exists_nil.
  cbn [mbind outcome_bind].
  node_case what n1. node_case what n2. node_case what n3.
  node_case what n4. node_case what n5. node_case what n6.
  node_case what n7. node_case what n8.
  cbn [is_exit]. split; [discriminate|].
  intros [?|[?|[?|[?|[?|[?|[?|[?|[]]]]]]]]]; contradiction.
Qed.

Lemma gather_disp_is_gather_into (el : t Mat) :
  gather_disp el
  = gather_into getTrialDisp
      "XC::EightNode_Brick_u_p_U::getResistingForce(): matrix and vector sizes are incompatible "
      el (Vector_zero Num_ElemDof).
Proof. reflexivity. Qed.

(** X18.  [getResistingForce] of an element with eight nodes terminates
    the program exactly when a node has a trial displacement that has not
    7 entries, or the bulk modulus of the solid or of the fluid is 0. *)
Theorem X18_getResistingForce_exit (el : t Mat) (st : statics) :
  length (theNodes el) = Num_Nodes ->
  is_exit (getResistingForce el st) = true
  <-> Exists (fun n => length (getTrialDisp n) <> Num_Dof) (theNodes el)
      \/ ks el = 0 \/ kf el = 0.
Proof.
  intros Hlen. unfold getResistingForce.
  pose proof (gather_into_exit getTrialDisp
    "XC::EightNode_Brick_u_p_U::getResistingForce(): matrix and vector sizes are incompatible "
    el (Vector_zero Num_ElemDof) Hlen) as Hg.
  rewrite <- gather_disp_is_gather_into in Hg.
  destruct (gather_disp el) as [u|c msg]; cbn [mbind outcome_bind].
  - cbn [is_exit] in Hg. unfold getTangentStiff.
    pose proof (getStiff_1_exit el st) as Hx.
    destruct (getStiff 1 el st) as [[[Kt el'] st']|c msg];
      cbn [mbind outcome_bind is_exit] in *.
    + symmetry in Hx. apply orb_false_iff in Hx as [Hks Hkf].
      apply bool_decide_eq_false in Hks, Hkf.
      split; [discriminate|]. intros [Hex|[Hz|Hz]]; [|done|done].
      apply Hg in Hex. discriminate.
    + symmetry in Hx. apply orb_true_iff in Hx.
      split; [|reflexivity]. intros _. right.
      destruct Hx as [Hz|Hz]; apply bool_decide_eq_true in Hz; tauto.
  - cbn [is_exit] in *. split; [|reflexivity]. intros _. left. by apply Hg.
Qed.

Lemma getResistingForce_returns (el el' : t Mat) (st st' : statics)
    (p : Vector) :
  getResistingForce el st = Returns (p, el', st') ->
  el' = el /\ perm st' = perm st.
Proof.
  unfold getResistingForce, getTangentStiff.
  destruct (gather_disp el) as [u|c msg]; cbn [mbind outcome_bind];
    [|discriminate].
  destruct (getStiff_1 el st) as [(c & msg & -> & _)|(Kt & -> & _ & _)];
    cbn [mbind outcome_bind]; [discriminate|].
  intros Heq. injection Heq as _ <- <-. split; reflexivity.
Qed.

Lemma getMass_perm (el : t Mat) (st : statics) :
  perm (getMass el st).2 = perm st.
Proof. reflexivity. Qed.

(** X19.  [getResistingForceIncInertia] of an element with eight nodes
    terminates the program exactly when [getResistingForce] does, or a node
    has a trial acceleration or a trial velocity that has not 7 entries, or
    one of the three permeabilities is 0. *)
Theorem X19_getResistingForceIncInertia_exit
    (getTrialAccel getTrialVel : Node -> Vector) (el : t Mat) (st : statics) :
  length (theNodes el) = Num_Nodes ->
  is_exit (getResistingForceIncInertia getTrialAccel getTrialVel el st) = true
  <-> is_exit (getResistingForce el st) = true
      \/ Exists (fun n => length (getTrialAccel n) <> Num_Dof) (theNodes el)
      \/ Exists (fun n => length (getTrialVel n) <> Num_Dof) (theNodes el)
      \/ perm st 1%nat 1%nat = 0 \/ perm st 2%nat 2%nat = 0
      \/ perm st 3%nat 3%nat = 0.
Proof.
  intros Hlen. unfold getResistingForceIncInertia.
  destruct (getResistingForce el st) as [[[p el'] st']|c msg] eqn:HRF;
    cbn [mbind outcome_bind is_exit]; [|tauto].
  destruct (getResistingForce_returns _ _ _ _ _ HRF) as [-> Hperm].
  set (msg := String _ _).
  pose proof (gather_into_exit getTrialAccel msg el
                (Vector_zero Num_ElemDof) Hlen) as Ha.
  destruct (gather_into getTrialAccel msg el (Vector_zero Num_ElemDof))
    as [a|c m]; cbn [mbind outcome_bind is_exit] in *; [|tauto].
  pose proof (getMass_perm el st') as Hperm'. rewrite Hperm in Hperm'.
  destruct (getMass el st') as [Mret st'']. cbn [snd] in Hperm'.
  pose proof (gather_into_exit getTrialVel msg el a Hlen) as Hv.
  destruct (gather_into getTrialVel msg el a)
    as [v|c m]; cbn [mbind outcome_bind is_exit] in *; [|tauto].
  pose proof (getDamp_exit el st'') as Hd. rewrite Hperm' in Hd.
  destruct (getDamp el st'') as [[[Cret st3] cerr]|c m];
    cbn [mbind outcome_bind is_exit] in *.
  - symmetry in Hd. apply orb_false_iff in Hd as [Hd H3'].
    apply orb_false_iff in Hd as [H1' H2'].
    apply bool_decide_eq_false in H1', H2', H3'.
    split; [discriminate|]. intros [Hx|[Hx|[Hx|[Hx|[Hx|Hx]]]]]; try done.
    + apply Ha in Hx. discriminate.
    + apply Hv in Hx. discriminate.
  - symmetry in Hd. apply orb_true_iff in Hd.
    split; [|reflexivity]. intros _. do 3 right.
    destruct Hd as [Hd|Hd]; [apply orb_true_iff in Hd as [Hd|Hd]|];
      apply bool_decide_eq_true in Hd; tauto.
Qed.

Lemma gather_ra_some (RAs : list Vector) :
  length RAs = Num_Nodes ->
  Forall (fun RA => length RA = Num_Dof) RAs ->
  gather_ra RAs = Some (RAs ≫= (fun RA => <[3%nat := dbl 0.0]> RA)).
Proof.
  intros Hlen HRA.
  destruct (eight_of RAs Hlen)
    as (r1 & r2 & r3 & r4 & r5 & r6 & r7 & r8 & ->).
  repeat match goal with
         | Hd : Forall _ (_ :: _) |- _ =>
             apply Forall_cons in Hd; destruct Hd as [? Hd]
         end.
  repeat match goal with
         | Hl : length ?d = Num_Dof |- _ =>
             do 8 (destruct d as [|? d]; try discriminate Hl); clear Hl
         end.
  reflexivity.
Qed.

Lemma gather_ra_none (RAs : list Vector) :
  length RAs = Num_Nodes ->
  Exists (fun RA => length RA <> Num_Dof) RAs ->
  gather_ra RAs = None.
Proof.
  intros Hlen.
  destruct (eight_of RAs Hlen)
    as (r1 & r2 & r3 & r4 & r5 & r6 & r7 & r8 & ->).
  unfold gather_ra, for_, Num_Nodes. cbn [seq foldl].
  change ([r1; r2; r3; r4; r5; r6; r7; r8] !!! 0%nat) with r1.
  change ([r1; r2; r3; r4; r5; r6; r7; r8] !!! 1%nat) with r2.
  change ([r1; r2; r3; r4; r5; r6; r7; r8] !!! 2%nat) with r3.
  change ([r1; r2; r3; r4; r5; r6; r7; r8] !!! 3%nat) with r4.
  change ([r1; r2; r3; r4; r5; r6; r7; r8] !!! 4%nat) with r5.
  change ([r1; r2; r3; r4; r5; r6; r7; r8] !!! 5%nat) with r6.
  change ([r1; r2; r3; r4; r5; r6; r7; r8] !!! 6%nat) with r7.
  change ([r1; r2; r3; r4; r5; r6; r7; r8] !!! 7%nat) with r8.
  rewrite !Exists_cons, Exists_nil.
  cbn [mbind option_bind]. intros Hex.
  ra_case r1. ra_case r2. ra_case r3. ra_case r4.
  ra_case r5. ra_case r6. ra_case r7. ra_case r8.
  destruct Hex as [?|[?|[?|[?|[?|[?|[?|[?|[]]]]]]]]]; contradiction.
Qed.

(** X20.  [addInertiaLoadToUnbalance] returns -1, writes one line to
    [std::cerr] and leaves the element as it is when a node gives a vector
    that has not 7 entries.  Otherwise it returns 0 and the load becomes
    [load - M * ra], where [ra] holds the vectors of the nodes with the
    entry of the pore pressure replaced by 0, and an empty load counts as
    56 zeros. *)
Theorem X20_addInertiaLoadToUnbalance_cases (getRV : Node -> Vector -> Vector)
    (accel : Vector) (el : t Mat) (st : statics) :
  length (theNodes el) = Num_Nodes ->
  (Exists (fun n => length (getRV n accel) <> Num_Dof) (theNodes el) ->
   exists line,
     addInertiaLoadToUnbalance getRV accel el st = ((-1)%Z, el, [line]))
  /\ (Forall (fun n => length (getRV n accel) = Num_Dof) (theNodes el) ->
      let ra :=
        theNodes el ≫= (fun n => <[3%nat := dbl 0.0]> (getRV n accel)) in
      let load0 :=
        if bool_decide (load el = []) then Vector_zero Num_ElemDof
        else load el in
      addInertiaLoadToUnbalance getRV accel el st
      = (0%Z,
         set_load el
           (addMatrixVector load0 (dbl 1.0) (M st) ra (dbl (-1.0))),
         [])).
Proof.
  intros Hlen. unfold addInertiaLoadToUnbalance.
  assert (Hlen' : length ((fun n => getRV n accel) <$> theNodes el)
                  = Num_Nodes) by (by rewrite length_fmap).
  split.
  - intros Hex. rewrite gather_ra_none; [by eexists|exact Hlen'|].
    rewrite Exists_fmap. exact Hex.
  - intros Hall. cbv zeta.
    rewrite gather_ra_some; [|exact Hlen'|rewrite Forall_fmap; exact Hall].
    match goal with
    | |- (_, set_load _ (addMatrixVector _ _ _ ?x _), _) = _ =>
        replace x
          with (theNodes el
                ≫= (fun n => <[3%nat := dbl 0.0]> (getRV n accel)));
        [reflexivity|]
    end.
    clear. induction (theNodes el) as [|n nodes IH]; [reflexivity|].
    rewrite fmap_cons, !bind_cons, IH. reflexivity.
Qed.

Lemma update_keeps_Ki (el : t Mat) : Ki (update el).1.2 = Ki el.
Proof.
  unfold update.
  set (body := fun (GP_c_r GP_c_s GP_c_t : nat)
                   (acc : t Mat * list string) => _).
  assert (Hinv : Ki (gauss_loop body (el, [])).1 = Ki el).
  { unfold gauss_loop.
    repeat first
      [ progress intros
      | apply (for_invariant (fun acc : t Mat * list string =>
                 Ki acc.1 = Ki el))
      | reflexivity ].
    all: try assumption.
    match goal with
    | s : (t Mat * list string)%type |- _ => destruct s as [el' cerr]
    end.
    subst body. cbv beta iota zeta.
    match goal with
    | |- context [setTrialStrain ?m ?e] =>
        destruct (setTrialStrain m e) as [status m']
    end.
    destruct (bool_decide _); simpl in *; assumption. }
  destruct (gauss_loop body (el, [])) as [el' cerr]. exact Hinv.
Qed.

Lemma update_keeps_isDead (el : t Mat) : isDead (update el).1.2 = isDead el.
Proof.
  unfold update.
  set (body := fun (GP_c_r GP_c_s GP_c_t : nat)
                   (acc : t Mat * list string) => _).
  assert (Hinv : isDead (gauss_loop body (el, [])).1 = isDead el).
  { unfold gauss_loop.
    repeat first
      [ progress intros
      | apply (for_invariant (fun acc : t Mat * list string =>
                 isDead acc.1 = isDead el))
      | reflexivity ].
    all: try assumption.
    match goal with
    | s : (t Mat * list string)%type |- _ => destruct s as [el' cerr]
    end.
    subst body. cbv beta iota zeta.
    match goal with
    | |- context [setTrialStrain ?m ?e] =>
        destruct (setTrialStrain m e) as [status m']
    end.
    destruct (bool_decide _); simpl in *; assumption. }
  destruct (gauss_loop body (el, [])) as [el' cerr]. exact Hinv.
Qed.

Lemma getStiff_0 (el : t Mat) (st : statics) :
  (exists ki, Ki el = Some ki /\ getStiff 0 el st = Returns (ki, el, st))
  \/ (Ki el = None /\ exists c msg, getStiff 0 el st = Exits c msg)
  \/ (Ki el = None
      /\ exists Kt,
           getStiff 0 el st
           = Returns (Kt, set_Ki el (Some Kt), set_K st Kt)).
Proof.
  unfold getStiff.
  replace (bool_decide (0%Z <> 0%Z) && bool_decide (0%Z <> 1%Z)) with false
    by reflexivity.
  replace (bool_decide (0%Z = 0%Z)) with true by reflexivity.
  replace (bool_decide (0%Z = 1%Z)) with false by reflexivity.
  destruct (Ki el) as [ki|].
  - left. by exists ki.
  - right. destruct (getStiffnessTensorP el) as [tP|c msg].
    + right. split; [reflexivity|]. eexists. reflexivity.
    + left. split; [reflexivity|]. by exists c, msg.
Qed.

(** X21.  The initial stiffness is computed once: when [getInitialStiff]
    has returned a matrix, calling it again after [update] returns the
    same matrix and changes neither the element nor the statics, whatever
    [update] did to the materials. *)
Theorem X21_getInitialStiff_is_cached (el el1 : t Mat) (st st1 : statics)
    (k : Matrix) :
  getInitialStiff el st = Returns (k, el1, st1) ->
  let el2 := (update el1).1.2 in
  getInitialStiff el2 st1 = Returns (k, el2, st1).
Proof.
  intros Hfirst el2.
  assert (Hcache : exists ki,
            Ki el1 = Some ki /\ isDead el1 = isDead el
            /\ dead_srf st1 = dead_srf st
            /\ k = if isDead el then mscale (dead_srf st) ki else ki).
  { unfold getInitialStiff in Hfirst.
    destruct (getStiff_0 el st)
      as [(ki & HKi & Heq)|[(_ & c & msg & Heq)|(_ & Kt & Heq)]];
      rewrite Heq in Hfirst; cbn [mbind outcome_bind] in Hfirst;
      [|discriminate|].
    - injection Hfirst as <- <- <-. exists ki. by rewrite HKi.
    - cbn [isDead set_Ki dead_srf set_K] in Hfirst.
      injection Hfirst as <- <- <-. exists Kt. repeat split; reflexivity. }
  destruct Hcache as (ki & HKi & Hdead & Hsrf & ->).
  assert (HKi2 : Ki el2 = Some ki)
    by (subst el2; by rewrite update_keeps_Ki).
  assert (Hdead2 : isDead el2 = isDead el)
    by (subst el2; by rewrite update_keeps_isDead).
  unfold getInitialStiff.
  destruct (getStiff_0 el2 st1)
    as [(ki' & HKi' & Heq)|[(HN & _)|(HN & _)]];
    [|rewrite HKi2 in HN; discriminate|rewrite HKi2 in HN; discriminate].
  rewrite Heq. cbn [mbind outcome_bind]. rewrite Hdead2, Hsrf.
  rewrite HKi2 in HKi'. injection HKi' as <-. reflexivity.
Qed.

(** X22.  The permeability is a static member: the constructor writes
    its three arguments on the diagonal shared by all elements, so that
    afterwards [getDamp] of any other element terminates the program
    exactly when one of these arguments is 0. *)
Theorem X22_constructor_shares_permeability (element_number : Z)
    (Globalmmodel : Mat) (bForces : Vector)
    (nn alf rs rf permb_x permb_y permb_z kks kkf pp : double)
    (st : statics) (other : t Mat) :
  let '(el, st') :=
    EightNodeBrick_u_p_U element_number Globalmmodel bForces nn alf rs rf
      permb_x permb_y permb_z kks kkf pp st in
  perm st' 1%nat 1%nat = permb_x
  /\ perm st' 2%nat 2%nat = permb_y
  /\ perm st' 3%nat 3%nat = permb_z
  /\ is_exit (getDamp other st')
     = bool_decide (permb_x = 0) || bool_decide (permb_y = 0)
       || bool_decide (permb_z = 0).
Proof.
  cbn [EightNodeBrick_u_p_U]. unfold EightNodeBrick_u_p_U.
  rewrite getDamp_exit. cbn [perm set_perm]. repeat split; reflexivity.
Qed.

Lemma Gpts_vector_closed_form (el : t Mat) :
  Gpts_vector el
  = (fun k => getGaussPts el (k / 3 + 1)%nat (k mod 3 + 1)%nat) <$> seq 0 24.
Proof.
  unfold Gpts_vector. generalize (getGaussPts el). intros G.
  vm_compute. reflexivity.
Qed.

Lemma getGaussPts_closed_form (el : t Mat) (r s t j : nat) :
  (r < 2)%nat -> (s < 2)%nat -> (t < 2)%nat -> (j < 3)%nat ->
  getGaussPts el (where_ r s t + 1)%nat (j + 1)%nat
  = sum_to Num_Nodes (fun i =>
      shapeFunction (pt r) (pt s) (pt t) i
      * vget (getCrds (theNodes el !!! (i - 1)%nat)) j).
Proof.
  intros Hr Hs Ht Hj. unfold getGaussPts.
  change (sum_to Num_Nodes) with (sum_to 8). cbn [sum_to].
  generalize (theNodes el). intros nodes.
  generalize shapeFunction. intros N.
  two_cases r; two_cases s; two_cases t; three_cases j;
    generalize Qcplus Qcmult; intros add mul; vm_compute; reflexivity.
Qed.

(** X23.  [getGaussPts] gives, for each Gauss point, the coordinates
    interpolated from the eight nodes with the shape functions, and the
    vector of [getResponse(6)] holds them Gauss point after Gauss point. *)
Theorem X23_getGaussPts_interpolates (el : t Mat) (r s t j : nat) :
  (r < 2)%nat -> (s < 2)%nat -> (t < 2)%nat -> (j < 3)%nat ->
  getGaussPts el (where_ r s t + 1)%nat (j + 1)%nat
  = sum_to Num_Nodes (fun i =>
      shapeFunction (pt r) (pt s) (pt t) i
      * vget (getCrds (theNodes el !!! (i - 1)%nat)) j)
  /\ vget (Gpts_vector el) (where_ r s t * 3 + j)
     = getGaussPts el (where_ r s t + 1)%nat (j + 1)%nat.
Proof.
  intros Hr Hs Ht Hj. split; [by apply getGaussPts_closed_form|].
  rewrite Gpts_vector_closed_form.
  assert (Hw : (where_ r s t < 8)%nat).
  { unfold where_, Num_IntegrationPts. lia. }
  rewrite vget_fmap_seq by lia.
  replace ((where_ r s t * 3 + j) / 3)%nat with (where_ r s t).
  2:{ rewrite Nat.div_add_l by lia. rewrite Nat.div_small by lia. lia. }
  replace ((where_ r s t * 3 + j) mod 3)%nat with j.
  2:{ rewrite Nat.add_comm, Nat.Div0.mod_add. symmetry.
      apply Nat.mod_small. lia. }
  reflexivity.
Qed.

End LoadFacts.

(** ** RadauBeamIntegration, for every number of sections *)

Ltac insert_lookups :=
  repeat first [rewrite lookup_insert_eq | rewrite lookup_insert_ne by lia].

Section RadauRules.
Import RadauBeamIntegration.

Lemma foldl_alter_lookup (f : double -> double) (l : list Z)
    (a : gmap Z double) (i : Z) :
  NoDup l ->
  foldl (fun w j => alter f j w) a l !! i
  = if bool_decide (i ∈ l) then f <$> a !! i else a !! i.
Proof.
  intros Hnd. revert a. induction Hnd as [|j l Hj Hnd IH]; intros a.
  - reflexivity.
  - cbn [foldl]. rewrite IH. destruct (decide (i = j)) as [->|Hne].
    + rewrite (bool_decide_eq_false_2 _ Hj).
      rewrite bool_decide_eq_true_2 by (by left).
      apply lookup_alter_eq.
    + rewrite lookup_alter_ne by done.
      destruct (decide (i ∈ l)) as [Hin|Hnin].
      * rewrite !bool_decide_eq_true_2; [done|by right|done].
      * rewrite !bool_decide_eq_false_2; [done| |done].
        intros Hin. apply elem_of_cons in Hin as [?|?]; done.
Qed.

Lemma for_each_section_lookup (n : Z) (f : double -> double)
    (a : gmap Z double) (i : Z) :
  for_each_section n f a !! i
  = if in_bounds n i then f <$> a !! i else a !! i.
Proof.
  unfold for_each_section, in_bounds.
  rewrite foldl_alter_lookup by apply NoDup_seqZ.
  destruct (decide (0 <= i < n)%Z) as [Hin|Hout].
  - rewrite !bool_decide_eq_true_2; [done|done|]. apply elem_of_seqZ. lia.
  - rewrite !bool_decide_eq_false_2; [done|done|].
    rewrite elem_of_seqZ. lia.
Qed.

(** X24.  For 1 to 10 sections [getSectionLocations] writes the cells
    0 .. numSections-1 and no other; the values are the same list
    whatever the array held: the first is 0, they increase strictly and
    stay below 1. *)
Theorem X24_getSectionLocations_abscissae (n : Z) (L : double) :
  (1 <= n <= 10)%Z ->
  exists l : list double,
    length l = Z.to_nat n
    /\ (forall (xi : gmap Z double) i, (0 <= i < n)%Z ->
          getSectionLocations n L xi !! i = l !! Z.to_nat i)
    /\ (forall (xi : gmap Z double) i, (i < 0 \/ n <= i)%Z ->
          getSectionLocations n L xi !! i = xi !! i)
    /\ l !! 0%nat = Some 0
    /\ StronglySorted Qclt l
    /\ Forall (fun x => x < 1) l.
Proof.
  intros Hn.
  exists (omap (fun i => getSectionLocations n L ∅ !! i) (seqZ 0 n)).
  assert (Hcases : (n = 1 \/ n = 2 \/ n = 3 \/ n = 4 \/ n = 5 \/ n = 6
                    \/ n = 7 \/ n = 8 \/ n = 9 \/ n = 10)%Z) by lia.
  split; [|split; [|split; [|split; [|split]]]].
  - destruct Hcases as [->|[->|[->|[->|[->|[->|[->|[->|[->| ->]]]]]]]]];
      vm_compute; reflexivity.
  - intros xi i Hi. unfold getSectionLocations at 1.
    rewrite for_each_section_lookup. unfold in_bounds.
    rewrite bool_decide_eq_true_2 by exact Hi.
    destruct Hcases as [->|[->|[->|[->|[->|[->|[->|[->|[->| ->]]]]]]]]];
      cbv beta iota zeta.
    all: assert (Hi' : (i = 0 \/ i = 1 \/ i = 2 \/ i = 3 \/ i = 4 \/ i = 5
                        \/ i = 6 \/ i = 7 \/ i = 8 \/ i = 9)%Z) by lia.
    all: destruct Hi' as [->|[->|[->|[->|[->|[->|[->|[->|[->| ->]]]]]]]]];
      try lia.
    all: insert_lookups; cbn [fmap option_fmap option_map].
    all: vm_compute; reflexivity.
  - intros xi i Hi. unfold getSectionLocations.
    rewrite for_each_section_lookup. unfold in_bounds.
    rewrite bool_decide_eq_false_2 by lia.
    destruct Hcases as [->|[->|[->|[->|[->|[->|[->|[->|[->| ->]]]]]]]]];
      cbv beta iota zeta; insert_lookups; reflexivity.
  - destruct Hcases as [->|[->|[->|[->|[->|[->|[->|[->|[->| ->]]]]]]]]];
      (transitivity (Some (dbl 0.5 * (dbl (-1.0) + dbl 1.0)));
       [vm_compute; reflexivity | f_equal; qc_eval]).
  - destruct Hcases as [->|[->|[->|[->|[->|[->|[->|[->|[->| ->]]]]]]]]];
      vm_compute omap; repeat constructor.
  - destruct Hcases as [->|[->|[->|[->|[->|[->|[->|[->|[->| ->]]]]]]]]];
      vm_compute omap; repeat constructor.
Qed.

(** X25.  For one section [getSectionWeights] writes the weight 1 in cell
    0, for two sections 0.25 and 0.75 in the cells 0 and 1, which sum to 1;
    the other cells keep their values. *)
Theorem X25_getSectionWeights_one_or_two_sections (L : double)
    (wt : gmap Z double) :
  getSectionWeights 1 L wt !! 0%Z = Some 1
  /\ (forall i, i <> 0%Z -> getSectionWeights 1 L wt !! i = wt !! i)
  /\ getSectionWeights 2 L wt !! 0%Z = Some (dbl 0.25)
  /\ getSectionWeights 2 L wt !! 1%Z = Some (dbl 0.75)
  /\ (forall i, i <> 0%Z -> i <> 1%Z ->
        getSectionWeights 2 L wt !! i = wt !! i)
  /\ dbl 0.25 + dbl 0.75 = 1.
Proof.
  unfold getSectionWeights. split; [|split; [|split; [|split; [|split]]]].
  - rewrite for_each_section_lookup. insert_lookups.
    cbn [in_bounds fmap option_fmap option_map]. f_equal. qc_eval.
  - intros i Hi. rewrite for_each_section_lookup.
    destruct (in_bounds 1 i) eqn:Hin.
    + apply bool_decide_eq_true in Hin. lia.
    + insert_lookups. reflexivity.
  - rewrite for_each_section_lookup. insert_lookups.
    cbn [in_bounds fmap option_fmap option_map]. f_equal. qc_eval.
  - rewrite for_each_section_lookup. insert_lookups.
    cbn [in_bounds fmap option_fmap option_map]. f_equal. qc_eval.
  - intros i Hi0 Hi1. rewrite for_each_section_lookup.
    destruct (in_bounds 2 i) eqn:Hin.
    + apply bool_decide_eq_true in Hin. lia.
    + insert_lookups. reflexivity.
  - qc_eval.
Qed.

(** X26.  For every number of sections from 3 to 10 [getSectionWeights]
    writes a weight in cell numSections, outside an array of numSections
    cells, and never assigns cell 0, which is only halved. *)
Theorem X26_getSectionWeights_off_by_one (n : Z) (L : double) :
  (3 <= n <= 10)%Z ->
  in_bounds n n = false
  /\ (exists w, forall wt, getSectionWeights n L wt !! n = Some w)
  /\ (forall wt,
        getSectionWeights n L wt !! 0%Z
        = (fun x => x * dbl 0.5) <$> wt !! 0%Z).
Proof.
  intros Hn.
  assert (Hcases : (n = 3 \/ n = 4 \/ n = 5 \/ n = 6 \/ n = 7 \/ n = 8
                    \/ n = 9 \/ n = 10)%Z) by lia.
  split; [|split].
  - apply bool_decide_eq_false_2. lia.
  - exists (default 0 (getSectionWeights n L ∅ !! n)). intros wt.
    unfold getSectionWeights at 1. rewrite for_each_section_lookup.
    replace (in_bounds n n) with false
      by (symmetry; apply bool_decide_eq_false_2; lia).
    destruct Hcases as [->|[->|[->|[->|[->|[->|[->| ->]]]]]]];
      cbv beta iota zeta; insert_lookups; vm_compute; reflexivity.
  - intros wt. unfold getSectionWeights. rewrite for_each_section_lookup.
    replace (in_bounds n 0) with true
      by (symmetry; apply bool_decide_eq_true_2; lia).
    destruct Hcases as [->|[->|[->|[->|[->|[->|[->| ->]]]]]]];
      cbv beta iota zeta; insert_lookups; reflexivity.
Qed.

(** X27.  For more than 10 sections no rule is written: the cells
    0 .. numSections-1 of the array are only mapped, from [x] to
    [0.5 (x + 1)] by [getSectionLocations] and to [0.5 x] by
    [getSectionWeights]; for no section or a negative number the arrays
    stay as they are. *)
Theorem X27_no_rule_outside_one_to_ten (n : Z) (L : double)
    (a : gmap Z double) (i : Z) :
  (n <= 0 \/ 10 < n)%Z ->
  getSectionLocations n L a !! i
  = (if in_bounds n i then (fun x => dbl 0.5 * (x + dbl 1.0)) <$> a !! i
     else a !! i)
  /\ getSectionWeights n L a !! i
     = (if in_bounds n i then (fun x => x * dbl 0.5) <$> a !! i
        else a !! i).
Proof.
  intros Hn. unfold getSectionLocations, getSectionWeights.
  rewrite !for_each_section_lookup.
  destruct n as [|p|p]; [split; reflexivity| |split; reflexivity].
  do 4 (destruct p as [p|p|]; try lia; try (split; reflexivity)).
Qed.

End RadauRules.

(** ** CrossSectionKR: copy and zero *)

Section CrossSectionCopy.
Import CrossSectionKR.

Lemma sized_lists (s : t) :
  well_sized s ->
  exists r0 r1 r2 r3 k0 k1 k2 k3 k4 k5 k6 k7 k8 k9 k10 k11 k12 k13 k14 k15,
    s = mk [r0; r1; r2; r3]
           [k0; k1; k2; k3; k4; k5; k6; k7; k8; k9; k10; k11; k12; k13; k14;
            k15].
Proof.
  destruct s as [r k]. intros [Hr Hk]. cbn [rData kData] in *.
  do 5 (destruct r as [|? r]; try discriminate Hr).
  do 17 (destruct k as [|? k]; try discriminate Hk).
  by repeat eexists.
Qed.

(** X28.  [copy] makes the four entries of [rData] and the sixteen of
    [kData] those of the other section: nothing of the receiver is
    left. *)
Theorem X28_copy_takes_all_data (this otra : t) :
  well_sized this -> well_sized otra -> copy this otra = otra.
Proof.
  intros Hthis Hotra.
  destruct (sized_lists this Hthis)
    as (r0 & r1 & r2 & r3 & k0 & k1 & k2 & k3 & k4 & k5 & k6 & k7 & k8 & k9
        & k10 & k11 & k12 & k13 & k14 & k15 & ->).
  destruct (sized_lists otra Hotra)
    as (s0 & s1 & s2 & s3 & l0 & l1 & l2 & l3 & l4 & l5 & l6 & l7 & l8 & l9
        & l10 & l11 & l12 & l13 & l14 & l15 & ->).
  reflexivity.
Qed.

(** X29.  [zero] sets the four entries of [rData] and the sixteen of
    [kData] to 0, keeps the sizes, and gives the same section whatever was
    copied into it before. *)
Theorem X29_zero_clears_all_data (s : t) :
  well_sized s ->
  zero s = mk (replicate 4 0) (replicate 16 0)
  /\ well_sized (zero s)
  /\ forall other, well_sized other -> zero (copy s other) = zero s.
Proof.
  intros Hs.
  destruct (sized_lists s Hs)
    as (r0 & r1 & r2 & r3 & k0 & k1 & k2 & k3 & k4 & k5 & k6 & k7 & k8 & k9
        & k10 & k11 & k12 & k13 & k14 & k15 & ->).
  split; [reflexivity|]. split; [split; reflexivity|].
  intros other Hother.
  destruct (sized_lists other Hother)
    as (s0 & s1 & s2 & s3 & l0 & l1 & l2 & l3 & l4 & l5 & l6 & l7 & l8 & l9
        & l10 & l11 & l12 & l13 & l14 & l15 & ->).
  reflexivity.
Qed.

End CrossSectionCopy.

(** ** RoundedMohrCoulomb01YieldSurface: the scalar variables *)

Section YieldSurfaceRates.
Import RoundedMohrCoulomb01YieldSurface.
Context `{Invariants}.

(** X30.  [xi_s2] is the rate of the yield function [f] in its second
    scalar variable [k].  [xi_s1] is the rate of [f] in the first scalar
    variable [alfa] only as far as [alfa] multiplies [p]: the change of
    the deviatoric shape [g_0] with [alfa] is left out of it. *)
Theorem X30_scalar_variable_rates (sigma : stresstensor)
    (alfa k d : double) :
  let Frou (x : double) :=
    let a1 := (dbl 3.0 * dbl 1.7320508076 * x)
              / (dbl 2.0 + dbl 1.7320508076 * x) in
    g_0 (theta sigma) ((dbl 3.0 - a1) / (dbl 3.0 + a1)) in
  f (mkEPState sigma [alfa; k + d]) - f (mkEPState sigma [alfa; k])
  = xi_s2 (mkEPState sigma [alfa; k]) * d
  /\ f (mkEPState sigma [alfa + d; k]) - f (mkEPState sigma [alfa; k])
     = xi_s1 (mkEPState sigma [alfa; k]) * d
       + (Frou (alfa + d) - Frou alfa) * q_deviatoric sigma
         / dbl 1.7320508076.
Proof.
  intros Frou. split.
  - rewrite f_shift_k. unfold double. ring.
  - subst Frou. unfold f, xi_s1, getScalarVar.
    cbn -[Qcplus Qcmult Qcminus Qcdiv Qcinv Qcopp dbl].
    generalize (g_0 (theta sigma)). intros g.
    set (e1 := (dbl 3.0 - _) / (dbl 3.0 + _)).
    set (e2 := (dbl 3.0 - _) / (dbl 3.0 + _)).
    generalize (g e1) (g e2). intros g1 g2.
    unfold double, Qcdiv. ring.
Qed.

End YieldSurfaceRates.

(** ** Witnesses

    The hypotheses of the properties above hold on concrete elements,
    arrays and sections. *)

Section Witnesses.
Import BJtensor EightNodeBrick_u_p_U Scenarios.
#[local] Existing Instance cofactor_ops.

(** Witness of X3 at node 3: its shape function is 1 at the corner (-1,
    -1, 1), that of node 4 is 0 there. *)
Lemma X3_witness :
  shapeFunction (- (1)) (- (1)) 1 3%nat = 1
  /\ shapeFunction (- (1)) (- (1)) 1 4%nat = 0.
Proof.
  assert (Hi : (1 <= 3 <= Num_Nodes)%nat) by (unfold Num_Nodes; lia).
  split.
  - exact (X3_shapeFunction_at_corners 3 3 Hi).
  - exact (X3_shapeFunction_at_corners 3 4 Hi).
Defined.

(** Witness of X4 on the brick whose eight nodes carry the pore pressure
    5. *)
Lemma X4_witness :
  getPorePressure moved_brick (dbl 0.3) (dbl (-0.2)) (dbl 0.9) = dbl 5.
Proof.
  apply X4_getPorePressure_uniform; [reflexivity | repeat constructor].
Defined.

(** Witness of X5 at node 3 of the same brick. *)
Lemma X5_witness :
  getPorePressure moved_brick (- (1)) (- (1)) 1 = dbl 5.
Proof.
  assert (Hi : (1 <= 3 <= Num_Nodes)%nat) by (unfold Num_Nodes; lia).
  exact (X5_getPorePressure_at_node moved_brick 3 eq_refl Hi).
Defined.

(** Witness of X6 on the bi-unit cube moved by (1, 2, 3). *)
Lemma X6_witness :
  Jacobian_3D
    (set_theNodes brick
       (translate [dbl 1; dbl 2; dbl 3] <$> theNodes brick))
    (shapeFunctionDerivative (pt 0) (pt 1) (pt 0)) 1%nat 1%nat
  = Jacobian_3D brick (shapeFunctionDerivative (pt 0) (pt 1) (pt 0))
      1%nat 1%nat.
Proof.
  apply X6_Jacobian_3D_translation;
    [reflexivity | repeat constructor | reflexivity].
Defined.

(** Witness of X7 on the brick moved as a rigid body by (1, 2, 3), with
    fluid displacements that differ from node to node. *)
Lemma X7_witness : trial_strain moved_brick 0 1 0 1%nat 2%nat = 0.
Proof.
  apply (X7_trial_strain_rigid_translation moved_brick (dbl 1) (dbl 2)
           (dbl 3)); [reflexivity | repeat constructor].
Defined.

(** Witness of X8 on the brick whose eight materials never converge. *)
Lemma X8_witness :
  update diverging_brick
  = (0%Z,
     set_physicalProperties diverging_brick
       (zip_with (fun m gp => (updated_material diverging_brick m gp).2)
                 (physicalProperties diverging_brick) gauss_points),
     mjoin (zip_with (fun m gp =>
                        if bool_decide
                             ((updated_material diverging_brick m gp).1
                              <> 0%Z)
                        then [not_converged (getTag diverging_brick)]
                        else [])
                     (physicalProperties diverging_brick) gauss_points)).
Proof. exact (X8_update_materials diverging_brick eq_refl). Defined.

(** Witness of X9 on the bi-unit cube, for the nodes 1 and 2 and the
    third direction. *)
Lemma X9_witness :
  mget (getMass brick statics0).1 (0 * 7 + 2) (1 * 7 + 2)
  = getMassTensorMsf brick (0 + 1)%nat (1 + 1)%nat
    * (dbl 1.0 - poro brick) * rho_s brick
  /\ mget (getMass brick statics0).1 (0 * 7 + 2 + 4) (1 * 7 + 2 + 4)
     = getMassTensorMsf brick (0 + 1)%nat (1 + 1)%nat
       * poro brick * rho_f brick.
Proof.
  apply (X9_getMass_blocks brick statics0 0 1 2);
    [apply has_dims_Matrix_zero | lia | lia | lia].
Defined.

(** Witness of X10 on the bi-unit cube, for a pressure row. *)
Lemma X10_witness :
  mget (getMass brick statics0).1 3 10 = mget (getMass brick statics0).1 10 3
  /\ ((3 mod 7 <> 10 mod 7 \/ 3 mod 7 = 3)%nat ->
      mget (getMass brick statics0).1 3 10 = 0).
Proof.
  apply (X10_getMass_structure brick statics0 3 10);
    [apply has_dims_Matrix_zero | lia | lia].
Defined.

(** Witness of X11 on the bi-unit cube, for the nodes 1 and 2. *)
Lemma X11_witness :
  exists tP Kt,
    getStiffnessTensorP brick = Returns tP
    /\ getStiff 1 brick statics0 = Returns (Kt, brick, set_K statics0 Kt)
    /\ mget Kt (0 * 7 + 2) (1 * 7 + 0)
       = getStiffnessTensorKep brick (0 + 1)%nat (2 + 1)%nat (0 + 1)%nat
           (1 + 1)%nat
    /\ mget Kt (0 * 7 + 2) (1 * 7 + 3)
       = - getStiffnessTensorG12 brick (0 + 1)%nat (2 + 1)%nat (1 + 1)%nat
         * (alpha brick - poro brick)
    /\ mget Kt (1 * 7 + 3) (0 * 7 + 2) = mget Kt (0 * 7 + 2) (1 * 7 + 3)
    /\ mget Kt (0 * 7 + 3) (1 * 7 + 3) = - tP (0 + 1)%nat (1 + 1)%nat
    /\ mget Kt (0 * 7 + 2 + 4) (1 * 7 + 3)
       = - getStiffnessTensorG12 brick (0 + 1)%nat (2 + 1)%nat (1 + 1)%nat
         * poro brick
    /\ mget Kt (1 * 7 + 3) (0 * 7 + 2 + 4)
       = mget Kt (0 * 7 + 2 + 4) (1 * 7 + 3).
Proof.
  apply (X11_getStiff_1_blocks brick statics0 0 1 2 0);
    [apply has_dims_Matrix_zero | simpl; qc_differ | simpl; qc_differ
    | lia | lia | lia | lia].
Defined.

(** Witness of X12 on the bi-unit cube, for the nodes 1 and 2. *)
Lemma X12_witness :
  exists Kt,
    getStiff 1 brick statics0 = Returns (Kt, brick, set_K statics0 Kt)
    /\ mget Kt (0 * 7 + 2) (1 * 7 + 0 + 4)
       = mget (K statics0) (0 * 7 + 2) (1 * 7 + 0 + 4)
    /\ mget Kt (0 * 7 + 2 + 4) (1 * 7 + 0)
       = mget (K statics0) (0 * 7 + 2 + 4) (1 * 7 + 0)
    /\ mget Kt (0 * 7 + 2 + 4) (1 * 7 + 0 + 4)
       = mget (K statics0) (0 * 7 + 2 + 4) (1 * 7 + 0 + 4).
Proof.
  apply (X12_getStiff_1_untouched_blocks brick statics0 0 1 2 0);
    [apply has_dims_Matrix_zero | simpl; qc_differ | simpl; qc_differ
    | lia | lia | lia | lia].
Defined.

(** Witness of X13 on the bi-unit cube, with the permeability 0.001. *)
Lemma X13_witness :
  exists tC Ct cerr,
    getDampTensorC123 brick permeable_statics = Returns tC
    /\ getDamp brick permeable_statics
       = Returns (Ct, set_C permeable_statics Ct, cerr)
    /\ (let Ctemp := tC (0 + 1)%nat (2 + 1)%nat (0 + 1)%nat (1 + 1)%nat in
        let aM := getAlphaM (rayFactors brick) in
        let bK := getBetaK (rayFactors brick) in
        mget Ct (0 * 7 + 2) (1 * 7 + 0)
        = Ctemp * (poro brick * poro brick)
          + (if bool_decide (aM <> 0)
             then getMassTensorMsf brick (0 + 1)%nat (1 + 1)%nat
                  * ((dbl 1.0 - poro brick) * rho_s brick) * aM
             else 0)
          + (if bool_decide (bK <> 0)
             then getStiffnessTensorKep brick (0 + 1)%nat (2 + 1)%nat
                    (0 + 1)%nat (1 + 1)%nat * bK
             else 0)
        /\ mget Ct (0 * 7 + 2 + 4) (1 * 7 + 0 + 4)
           = Ctemp * (poro brick * poro brick)
        /\ mget Ct (0 * 7 + 2) (1 * 7 + 0 + 4)
           = - Ctemp * (poro brick * poro brick)
        /\ mget Ct (1 * 7 + 0 + 4) (0 * 7 + 2)
           = - Ctemp * (poro brick * poro brick)).
Proof.
  apply (X13_getDamp_blocks brick permeable_statics 0 1 2 0);
    [apply has_dims_Matrix_zero | qc_differ | qc_differ | qc_differ
    | reflexivity | lia | lia | lia | lia].
Defined.

(** Witness of X14 on the bi-unit cube, with the permeability 0.001. *)
Lemma X14_witness :
  exists Ct cerr,
    getDamp brick permeable_statics
    = Returns (Ct, set_C permeable_statics Ct, cerr)
    /\ mget Ct 3 5 = mget (C permeable_statics) 3 5.
Proof.
  apply (X14_getDamp_pressure_dofs_untouched brick permeable_statics 3 5);
    [apply has_dims_Matrix_zero | qc_differ | qc_differ | qc_differ
    | reflexivity | lia | lia | left; reflexivity].
Defined.

(** Witness of X15 on the bi-unit cube under gravity, for node 1 and the
    vertical direction. *)
Lemma X15_witness :
  let lumped := shape_integral brick (0 + 1)%nat * vget (bf brick) 2 in
  vget (getExForceS brick) (0 * 7 + 2)
  = lumped * ((dbl 1.0 - poro brick) * rho_s brick)
  /\ vget (getExForceS brick) (0 * 7 + 3) = 0
  /\ vget (getExForceS brick) (0 * 7 + 2 + 4) = 0
  /\ vget (getExForceF brick) (0 * 7 + 2) = 0
  /\ vget (getExForceF brick) (0 * 7 + 3) = 0
  /\ vget (getExForceF brick) (0 * 7 + 2 + 4)
     = lumped * (poro brick * rho_f brick).
Proof. apply (X15_getExForce_entries brick 0 2); lia. Defined.

(** Witness of X16 on the bi-unit cube under gravity, with the load
    factor 2. *)
Lemma X16_witness :
  let lumped := shape_integral brick (0 + 1)%nat * vget (bf brick) 2 in
  exists q,
    addLoad BrickSelfWeight (dbl 2) brick
    = (0%Z, set_eleQ brick (Some q), [])
    /\ length q = 56%nat
    /\ vget q (0 * 7 + 2)
       = lumped * ((dbl 1.0 - poro brick) * rho_s brick) * dbl 2
    /\ vget q (0 * 7 + 3) = 0
    /\ vget q (0 * 7 + 2 + 4) = lumped * (poro brick * rho_f brick) * dbl 2.
Proof. apply (X16_addLoad_self_weight brick (dbl 2) 0 2); lia. Defined.

(** Witness of X18 on the brick whose first node has a trial
    displacement of six entries. *)
Lemma X18_witness :
  is_exit (getResistingForce short_node_brick statics0) = true.
Proof.
  apply (X18_getResistingForce_exit short_node_brick statics0 eq_refl).
  left. apply Exists_cons_hd. discriminate.
Defined.

(** Witness of X19 on the bi-unit cube with the permeability left at 0. *)
Lemma X19_witness :
  is_exit (getResistingForceIncInertia getTrialDisp getTrialDisp brick
             statics0) = true.
Proof.
  apply (X19_getResistingForceIncInertia_exit getTrialDisp getTrialDisp
           brick statics0 eq_refl).
  do 3 right. left. reflexivity.
Defined.

(** Witness of X20 on the rigidly moved brick, whose nodes give vectors
    of 7 entries, with an empty load. *)
Lemma X20_witness :
  addInertiaLoadToUnbalance (fun n _ => getTrialDisp n) [] moved_brick
    statics0
  = (0%Z,
     set_load moved_brick
       (addMatrixVector (Vector_zero Num_ElemDof) (dbl 1.0) (M statics0)
          (theNodes moved_brick
           ≫= (fun n => <[3%nat := dbl 0.0]> (getTrialDisp n)))
          (dbl (-1.0))),
     []).
Proof.
  apply (X20_addInertiaLoadToUnbalance_cases (fun n _ => getTrialDisp n) []
           moved_brick statics0 eq_refl).
  repeat constructor.
Defined.

(** Witness of X21 on a brick that holds a cached initial stiffness. *)
Lemma X21_witness :
  let cached := set_Ki brick (Some [[dbl 1]]) in
  getInitialStiff (update cached).1.2 statics0
  = Returns ([[dbl 1]], (update cached).1.2, statics0).
Proof.
  intros cached.
  exact (X21_getInitialStiff_is_cached cached cached statics0 statics0
           [[dbl 1]] eq_refl).
Defined.

(** Witness of X23 on the bi-unit cube, for the Gauss point (1, 0, 1)
    and the third coordinate. *)
Lemma X23_witness :
  getGaussPts brick (where_ 1 0 1 + 1)%nat (2 + 1)%nat
  = sum_to Num_Nodes (fun i =>
      shapeFunction (pt 1) (pt 0) (pt 1) i
      * vget (getCrds (theNodes brick !!! (i - 1)%nat)) 2)
  /\ vget (Gpts_vector brick) (where_ 1 0 1 * 3 + 2)
     = getGaussPts brick (where_ 1 0 1 + 1)%nat (2 + 1)%nat.
Proof. apply (X23_getGaussPts_interpolates brick 1 0 1 2); lia. Defined.

End Witnesses.

Section RadauWitnesses.
Import RadauBeamIntegration Scenarios.

(** Witness of X24 for three sections: one list for every array. *)
Lemma X24_witness :
  exists l : list double,
    length l = Z.to_nat 3
    /\ (forall (xi : gmap Z double) i, (0 <= i < 3)%Z ->
          getSectionLocations 3 1 xi !! i = l !! Z.to_nat i)
    /\ (forall (xi : gmap Z double) i, (i < 0 \/ 3 <= i)%Z ->
          getSectionLocations 3 1 xi !! i = xi !! i)
    /\ l !! 0%nat = Some 0
    /\ StronglySorted Qclt l
    /\ Forall (fun x => x < 1) l.
Proof. apply (X24_getSectionLocations_abscissae 3 1). lia. Defined.

(** Witness of X26 for four sections. *)
Lemma X26_witness :
  in_bounds 4 4 = false
  /\ (exists w, forall wt, getSectionWeights 4 1 wt !! 4%Z = Some w)
  /\ (forall wt,
        getSectionWeights 4 1 wt !! 0%Z
        = (fun x => x * dbl 0.5) <$> wt !! 0%Z).
Proof. apply (X26_getSectionWeights_off_by_one 4 1). lia. Defined.

(** Witness of X27 for eleven sections, on an array that holds 8 in cell
    1. *)
Lemma X27_witness :
  getSectionLocations 11 1 used_cells !! 1%Z
  = (if in_bounds 11 1
     then (fun x => dbl 0.5 * (x + dbl 1.0)) <$> used_cells !! 1%Z
     else used_cells !! 1%Z)
  /\ getSectionWeights 11 1 used_cells !! 1%Z
     = (if in_bounds 11 1 then (fun x => x * dbl 0.5) <$> used_cells !! 1%Z
        else used_cells !! 1%Z).
Proof. apply (X27_no_rule_outside_one_to_ten 11 1 used_cells 1). lia. Defined.

End RadauWitnesses.

Section CrossSectionWitnesses.
Import CrossSectionKR Scenarios.

(** Witness of X28: copying a section with distinct entries into a
    zeroed one. *)
Lemma X28_witness : copy section_0 section_a = section_a.
Proof.
  apply X28_copy_takes_all_data; split; reflexivity.
Defined.

(** Witness of X29 on a section with distinct entries. *)
Lemma X29_witness :
  zero section_a = mk (replicate 4 0) (replicate 16 0)
  /\ well_sized (zero section_a)
  /\ forall other, well_sized other -> zero (copy section_a other)
                                      = zero section_a.
Proof. apply X29_zero_clears_all_data; split; reflexivity. Defined.

End CrossSectionWitnesses.
